(** * resumeio-to-pdf: a shallow embedding of [app/services/resumeio.py]

    The development follows the Python module top-down: Python values and
    exceptions, the fragment of [re] the two identifier patterns use, the
    [ResumeioDownloader] dataclass with its class-level defaults, the
    outside world (HTTP, file system, OCR, the two PDF libraries) and the
    methods [__post_init__], [run], [_get_resume_metadata],
    [_format_images_urls], [_generate_pdf_searchable] and [_generate_pdf].
    The theorems about them come last. *)

From Stdlib Require Import ZArith List String Ascii Bool Lia QArith.
From Stdlib Require Import PrimFloat FloatOps SpecFloat FloatAxioms.
From Stdlib Require Import DecimalString DecimalZ DecimalPos.
Import ListNotations.

Local Open Scope string_scope.
Local Open Scope list_scope.

Set Warnings "-register-all".

(** ** Python exceptions *)

(** The exception classes the module can raise, directly or through the
    interpreter.  [CollaboratorError] stands for whatever a library call
    raises inside [requests], [pytesseract], [pypdf] or [fpdf]. *)
Inductive exn : Type :=
| HTTPException (status_code : Z) (detail : string)
| JSONDecodeError
| AttributeError
| TypeError
| KeyError
| IndexError
| ValueError
| ZeroDivisionError
| OverflowError
| OSError
| CollaboratorError (origin : string).

Definition exn_class (e : exn) : string :=
  match e with
  | HTTPException _ _ => "HTTPException"
  | JSONDecodeError => "JSONDecodeError"
  | AttributeError => "AttributeError"
  | TypeError => "TypeError"
  | KeyError => "KeyError"
  | IndexError => "IndexError"
  | ValueError => "ValueError"
  | ZeroDivisionError => "ZeroDivisionError"
  | OverflowError => "OverflowError"
  | OSError => "OSError"
  | CollaboratorError origin => origin
  end.

Inductive outcome (A : Type) : Type :=
| Ok (a : A)
| Raise (e : exn).
Arguments Ok {A} a.
Arguments Raise {A} e.

Definition is_ok {A} (o : outcome A) : bool :=
  match o with Ok _ => true | Raise _ => false end.

(** ** Python numbers and JSON values *)

(** [json.loads] yields [int] for integer literals and [float] (binary64)
    for the others, [NaN] and [Infinity] included. *)
Inductive pynum : Type :=
| PyInt (z : Z)
| PyFloat (f : float).

(** The values [json.loads] returns.  An object is a [dict]: its fields
    are kept in the order of the text, which is the order [values()] and
    iteration follow, and a key occurs once. *)
Inductive json : Type :=
| JNull
| JBool (b : bool)
| JNum (n : pynum)
| JStr (s : string)
| JArr (items : list json)
| JObj (fields : list (string * json)).

(** [float(i)] for an [int]: correctly rounded, [OverflowError] when the
    rounded value is not finite. *)
Definition float_of_int (z : Z) : outcome float :=
  let f := SF2Prim (binary_normalize prec emax z 0 false) in
  if is_infinity f then Raise OverflowError else Ok f.

(** [bool] is a subclass of [int]; the other JSON values are not numbers. *)
Definition as_num (v : json) : option pynum :=
  match v with
  | JNum n => Some n
  | JBool b => Some (PyInt (if b then 1 else 0))
  | _ => None
  end.

Definition to_float (n : pynum) : outcome float :=
  match n with
  | PyInt z => float_of_int z
  | PyFloat f => Ok f
  end.

(** Binary arithmetic of two numbers: exact on two [int]s, binary64 after
    conversion as soon as one operand is a [float]. *)
Definition num_binop (fz : Z -> Z -> Z) (ff : float -> float -> float)
    (a b : pynum) : outcome pynum :=
  match a, b with
  | PyInt x, PyInt y => Ok (PyInt (fz x y))
  | _, _ =>
      match to_float a with
      | Raise e => Raise e
      | Ok x =>
          match to_float b with
          | Raise e => Raise e
          | Ok y => Ok (PyFloat (ff x y))
          end
      end
  end.

(** [a - b] *)
Definition py_sub (a b : json) : outcome json :=
  match as_num a, as_num b with
  | Some x, Some y =>
      match num_binop Z.sub PrimFloat.sub x y with
      | Ok n => Ok (JNum n)
      | Raise e => Raise e
      end
  | _, _ => Raise TypeError
  end.

(** [a + b]: numbers add, two strings and two lists concatenate. *)
Definition py_add (a b : json) : outcome json :=
  match a, b with
  | JStr s, JStr t => Ok (JStr (s ++ t))
  | JArr l, JArr m => Ok (JArr (l ++ m))
  | _, _ =>
      match as_num a, as_num b with
      | Some x, Some y =>
          match num_binop Z.add PrimFloat.add x y with
          | Ok n => Ok (JNum n)
          | Raise e => Raise e
          end
      | _, _ => Raise TypeError
      end
  end.

(** [a / h] where [h] is already a [float]: true division, which raises on
    a zero divisor instead of returning an infinity. *)
Definition py_truediv_float (a : json) (h : float) : outcome float :=
  match as_num a with
  | None => Raise TypeError
  | Some n =>
      match to_float n with
      | Raise e => Raise e
      | Ok x => if PrimFloat.eqb h 0%float then Raise ZeroDivisionError
                else Ok (PrimFloat.div x h)
      end
  end.

(** [min(a, b)] keeps its first argument unless the second is strictly
    smaller. *)
Definition py_min {A : Type} (lt : A -> A -> bool) (a b : A) : A :=
  if lt b a then b else a.

(** *** Access to containers *)

Fixpoint assoc (k : string) (fields : list (string * json)) : option json :=
  match fields with
  | [] => None
  | (k', v) :: rest => if String.eqb k k' then Some v else assoc k rest
  end.

(** [v.get(k)] *)
Definition py_get (v : json) (k : string) : outcome json :=
  match v with
  | JObj fields => Ok (match assoc k fields with Some x => x | None => JNull end)
  | _ => Raise AttributeError
  end.

(** [v[k]] with a string key *)
Definition py_getitem (v : json) (k : string) : outcome json :=
  match v with
  | JObj fields =>
      match assoc k fields with Some x => Ok x | None => Raise KeyError end
  | _ => Raise TypeError
  end.

(** [v[i]] with a non-negative integer index *)
Definition py_index (v : json) (i : nat) : outcome json :=
  match v with
  | JArr items =>
      match nth_error items i with Some x => Ok x | None => Raise IndexError end
  | JStr s =>
      match String.get i s with
      | Some c => Ok (JStr (String c EmptyString))
      | None => Raise IndexError
      end
  | JObj _ => Raise KeyError
  | _ => Raise TypeError
  end.

(** [len(v)] *)
Definition py_len (v : json) : outcome nat :=
  match v with
  | JArr items => Ok (List.length items)
  | JStr s => Ok (String.length s)
  | JObj fields => Ok (List.length fields)
  | _ => Raise TypeError
  end.

(** [v.values()] *)
Definition py_values (v : json) : outcome (list json) :=
  match v with
  | JObj fields => Ok (map snd fields)
  | _ => Raise AttributeError
  end.

(** [a, b = vs] *)
Definition unpack2 (vs : list json) : outcome (json * json) :=
  match vs with
  | [a; b] => Ok (a, b)
  | _ => Raise ValueError
  end.

(** The items [for x in v] visits. *)
Definition py_iter (v : json) : outcome (list json) :=
  match v with
  | JArr items => Ok items
  | JObj fields => Ok (map (fun kv => JStr (fst kv)) fields)
  | JStr s => Ok (map (fun c => JStr (String c EmptyString)) (list_ascii_of_string s))
  | _ => Raise TypeError
  end.

(** ** The fragment of [re] used by the identifier patterns *)

(** Strings are sequences of 8-bit characters here.  The two patterns tell
    apart only the ASCII letters and digits, the newline and the literal
    characters of [resume.io/r/]; every other character behaves alike. *)

Module Re.

Inductive regex : Type :=
| Bol                                   (* ^ *)
| Eol                                   (* $ *)
| Chr (c : ascii)
| Dot                                   (* . *)
| Class (ranges : list (ascii * ascii)) (* [a-zA-Z0-9] *)
| Cat (r1 r2 : regex)
| Times (n : nat) (r : regex)           (* r{n} *)
| LookBehind (width : nat) (r : regex). (* (?<=r), r of fixed width *)

Definition newline : ascii := "010"%char.

Definition in_range (c : ascii) (r : ascii * ascii) : bool :=
  (nat_of_ascii (fst r) <=? nat_of_ascii c)%nat
  && (nat_of_ascii c <=? nat_of_ascii (snd r))%nat.

Fixpoint lit (s : string) : regex :=
  match s with
  | EmptyString => Times 0 Dot
  | String c EmptyString => Chr c
  | String c rest => Cat (Chr c) (lit rest)
  end.

Fixpoint iter (n : nat) (step : nat -> option nat) (pos : nat) : option nat :=
  match n with
  | O => Some pos
  | S k => match step pos with
           | Some p => iter k step p
           | None => None
           end
  end.

(** [rmatch r s pos] is the position where an attempt to match [r] in
    [s] from [pos] ends.  None of the constructs above backtracks, so
    there is at most one. *)
Fixpoint rmatch (r : regex) (s : string) (pos : nat) : option nat :=
  match r with
  | Bol => if (pos =? 0)%nat then Some pos else None
  | Eol =>
      if (pos =? String.length s)%nat then Some pos
      else if (S pos =? String.length s)%nat then
        match String.get pos s with
        | Some c => if Ascii.eqb c newline then Some pos else None
        | None => None
        end
      else None
  | Chr c =>
      match String.get pos s with
      | Some d => if Ascii.eqb c d then Some (S pos) else None
      | None => None
      end
  | Dot =>
      match String.get pos s with
      | Some d => if Ascii.eqb d newline then None else Some (S pos)
      | None => None
      end
  | Class ranges =>
      match String.get pos s with
      | Some d => if existsb (in_range d) ranges then Some (S pos) else None
      | None => None
      end
  | Cat r1 r2 =>
      match rmatch r1 s pos with
      | Some p => rmatch r2 s p
      | None => None
      end
  | Times n r1 => iter n (rmatch r1 s) pos
  | LookBehind width r1 =>
      if (pos <? width)%nat then None
      else match rmatch r1 s (pos - width) with
           | Some p => if (p =? pos)%nat then Some pos else None
           | None => None
           end
  end.

(** [scan r s start fuel] tries the start positions [start],
    [start + 1], ... in turn. *)
Fixpoint scan (r : regex) (s : string) (start fuel : nat) : option (nat * nat) :=
  match rmatch r s start with
  | Some e => Some (start, e)
  | None => match fuel with
            | O => None
            | S k => scan r s (S start) k
            end
  end.

(** [r.search(s)]: the leftmost match, as its span. *)
Definition search (r : regex) (s : string) : option (nat * nat) :=
  scan r s 0 (String.length s).

(** [m.group(0)] *)
Definition group0 (s : string) (m : nat * nat) : string :=
  substring (fst m) (snd m - fst m) s.

End Re.

(** ** The dataclass *)

Definition alnum : Re.regex :=
  Re.Class [("a"%char, "z"%char); ("A"%char, "Z"%char); ("0"%char, "9"%char)].

(** The characters the class accepts. *)
Definition alnum_char (c : ascii) : bool :=
  existsb (Re.in_range c)
    [("a"%char, "z"%char); ("A"%char, "Z"%char); ("0"%char, "9"%char)].

(** A nine-character alphanumeric token. *)
Definition is_token (s : string) : bool :=
  (String.length s =? 9)%nat && forallb alnum_char (list_ascii_of_string s).

(** [r"^[a-zA-Z0-9]{9}$"] *)
Definition pattern_id : Re.regex :=
  Re.Cat Re.Bol (Re.Cat (Re.Times 9 alnum) Re.Eol).

(** [r"(?<=resume.io/r/)([a-zA-Z0-9]){9}"] *)
Definition pattern_url : Re.regex :=
  Re.Cat
    (Re.LookBehind 12 (Re.Cat (Re.lit "resume") (Re.Cat Re.Dot (Re.lit "io/r/"))))
    (Re.Times 9 alnum).

(** What the two PDF back ends accumulate.  [FPDF] keeps the page format
    given to its constructor and, per page, the images and link
    rectangles placed on it; [PdfWriter] keeps the pages added to it, each
    with its media box and annotations.  Arguments are stored as they are
    passed. *)
Record fpdf_link : Type := mk_fpdf_link
  { link_x : json; link_y : json; link_w : json; link_h : json; link_url : json }.

Record fpdf_image : Type := mk_fpdf_image
  { image_name : string; image_w : json; image_h : json; image_type : string }.

Record fpdf_page : Type := mk_fpdf_page
  { page_format : json * json;
    page_images : list fpdf_image;
    page_links : list fpdf_link }.

Record FPDF : Type := mk_FPDF
  { format : json * json;
    auto_page_break : bool;
    pages : list fpdf_page }.

Record annotation : Type := mk_annotation
  { rect : json * json * json * json; url : json }.

Record pdf_page : Type := mk_pdf_page
  { text_layer : string;
    content_scale : float;
    mediabox_width : float;
    mediabox_height : float;
    annotations : list annotation }.

Definition PdfWriter : Type := list pdf_page.

(** The value of [self.buffer]: the serialisation of an [FPDF] document or
    of a [PdfWriter], kept as the document it encodes. *)
Inductive document : Type :=
| FpdfOutput (pdf : FPDF)
| WriterOutput (writer : PdfWriter).

Record ResumeioDownloader : Type := mk_downloader
  { resume_id : string;
    extension : string;
    image_size : Z;
    cache_date : string;
    images_urls : list string;
    metadata : option json;   (* set by [_get_resume_metadata] *)
    buffer : option document  (* set by the two generators *) }.

Definition set_resume_id (self : ResumeioDownloader) (v : string) :=
  mk_downloader v (extension self) (image_size self) (cache_date self)
    (images_urls self) (metadata self) (buffer self).

Definition set_images_urls (self : ResumeioDownloader) (v : list string) :=
  mk_downloader (resume_id self) (extension self) (image_size self) (cache_date self)
    v (metadata self) (buffer self).

Definition set_metadata (self : ResumeioDownloader) (v : json) :=
  mk_downloader (resume_id self) (extension self) (image_size self) (cache_date self)
    (images_urls self) (Some v) (buffer self).

Definition set_buffer (self : ResumeioDownloader) (v : document) :=
  mk_downloader (resume_id self) (extension self) (image_size self) (cache_date self)
    (images_urls self) (metadata self) (Some v).

(** [datetime.utcnow().isoformat()[:-4] + "Z"], from the ISO text of the
    clock reading. *)
Definition cache_stamp (utcnow_isoformat : string) : string :=
  substring 0 (String.length utcnow_isoformat - 4) utcnow_isoformat ++ "Z".

(** The class object.  The field defaults are expressions of the class
    body, evaluated when the module is imported; [images_urls] alone has a
    factory, called at each construction. *)
Record dataclass : Type := mk_dataclass
  { default_extension : string;
    default_image_size : Z;
    default_cache_date : string }.

Definition import_module (utcnow_isoformat : string) : dataclass :=
  {| default_extension := "png";
     default_image_size := 1800;
     default_cache_date := cache_stamp utcnow_isoformat |}.

Definition __post_init__ (self : ResumeioDownloader) : outcome ResumeioDownloader :=
  match Re.search pattern_id (resume_id self) with
  | Some _ => Ok self
  | None =>
      match Re.search pattern_url (resume_id self) with
      | Some m => Ok (set_resume_id self (Re.group0 (resume_id self) m))
      | None =>
          Raise (HTTPException 400 ("Invalid resume id: " ++ resume_id self))
      end
  end.

(** [ResumeioDownloader(resume_id, ...)] called while the clock reads
    [utcnow_isoformat]: the generated [__init__] fills the omitted fields
    from the class and then runs [__post_init__]. *)
Definition construct (cls : dataclass) (utcnow_isoformat : string)
    (resume_id : string) (extension : option string) (image_size : option Z)
    (cache_date : option string) : outcome ResumeioDownloader :=
  __post_init__
    {| resume_id := resume_id;
       extension := match extension with Some e => e | None => default_extension cls end;
       image_size := match image_size with Some n => n | None => default_image_size cls end;
       cache_date := match cache_date with Some c => c | None => default_cache_date cls end;
       images_urls := [];
       metadata := None;
       buffer := None |}.

(** ** The outside world *)

(** What [requests.get] returns. *)
Record response : Type := mk_response
  { status_code : Z; text : string; content : string }.

Inductive event : Type :=
| Get (address : string)        (* requests.get *)
| ImageLoad (address : string)  (* FPDF.image fetching its file *)
| FileWrite (data : string)     (* /files/file.png written *)
| Ocr                           (* pytesseract reading /files/file.png *)
| FileRemove.                   (* os.remove *)

(** The file system is reduced to the one path the module touches,
    [/files/file.png]: whether its directory can be written and what the
    file holds, if it exists.  [log] records the calls to collaborators in
    program order, latest last. *)
Record state : Type := mk_state
  { self : ResumeioDownloader;
    files_dir : bool;
    file_png : option string;
    log : list event }.

Definition M (A : Type) : Type := state -> outcome A * state.

Definition ret {A} (a : A) : M A := fun st => (Ok a, st).

Definition raise {A} (e : exn) : M A := fun st => (Raise e, st).

Definition bind {A B} (m : M A) (k : A -> M B) : M B :=
  fun st =>
    match m st with
    | (Ok a, st') => k a st'
    | (Raise e, st') => (Raise e, st')
    end.

Definition lift {A} (o : outcome A) : M A := fun st => (o, st).

Definition get_self : M ResumeioDownloader := fun st => (Ok (self st), st).

Definition put_self (r : ResumeioDownloader) : M unit :=
  fun st => (Ok tt, mk_state r (files_dir st) (file_png st) (log st)).

Definition emit (e : event) : M unit :=
  fun st => (Ok tt, mk_state (self st) (files_dir st) (file_png st) (log st ++ [e])).

Declare Scope py_scope.
Delimit Scope py_scope with py.
Notation "x <- m ;; k" := (bind m (fun x => k))
  (at level 100, m at next level, right associativity) : py_scope.
Notation "' p <- m ;; k" := (bind m (fun x => match x with p => k end))
  (at level 100, p pattern, m at next level, right associativity) : py_scope.
Notation "m ;; k" := (bind m (fun _ => k))
  (at level 100, right associativity) : py_scope.
Local Open Scope py_scope.

(** A [for] loop that threads the local variables [b] through its body. *)
Fixpoint for_each {A B} (items : list A) (body : B -> A -> M B) (b : B) : M B :=
  match items with
  | [] => ret b
  | x :: rest => b' <- body b x ;; for_each rest body b'
  end.

Definition enumerate {A} (l : list A) : list (nat * A) :=
  combine (seq 0 (List.length l)) l.

(** [with open('/files/file.png', 'w+b') as f: f.write(data)] *)
Definition write_file (data : string) : M unit :=
  fun st =>
    if files_dir st
    then (Ok tt, mk_state (self st) true (Some data) (log st ++ [FileWrite data]))
    else (Raise OSError, st).

(** [os.remove('/files/file.png')] *)
Definition os_remove : M unit :=
  fun st =>
    match file_png st with
    | Some _ => (Ok tt, mk_state (self st) (files_dir st) None (log st ++ [FileRemove]))
    | None => (Raise OSError, st)
    end.

Definition decimal (z : Z) : string := NilZero.string_of_int (Z.to_int z).

(** [IMAGE_URL.format(...)] *)
Definition IMAGE_URL (resume_id : string) (page_id : Z) (extension cache_date : string)
    (image_size : Z) : string :=
  "https://ssr.resume.tools/to-image/ssid-" ++ resume_id ++ "-" ++ decimal page_id
   ++ "." ++ extension ++ "?cache=" ++ cache_date ++ "&size=" ++ decimal image_size.

(** [METADATA_URL.format(...)] *)
Definition METADATA_URL (resume_id cache_date : string) : string :=
  "https://ssr.resume.tools/meta/ssid-" ++ resume_id ++ "?cache=" ++ cache_date.

(** *** The two PDF libraries *)

(** [page.scale_by(factor)]: the content and the media box are scaled by
    the same factor on both axes. *)
Definition scale_by (page : pdf_page) (factor : float) : pdf_page :=
  {| text_layer := text_layer page;
     content_scale := PrimFloat.mul (content_scale page) factor;
     mediabox_width := PrimFloat.mul (mediabox_width page) factor;
     mediabox_height := PrimFloat.mul (mediabox_height page) factor;
     annotations := annotations page |}.

Definition add_page (writer : PdfWriter) (page : pdf_page) : PdfWriter :=
  writer ++ [page].

Fixpoint update_nth {A} (n : nat) (f : A -> A) (l : list A) : option (list A) :=
  match l, n with
  | [], _ => None
  | x :: rest, O => Some (f x :: rest)
  | x :: rest, S k =>
      match update_nth k f rest with
      | Some rest' => Some (x :: rest')
      | None => None
      end
  end.

(** [writer.add_annotation(page_number, annotation)] *)
Definition add_annotation (writer : PdfWriter) (page_number : nat) (a : annotation)
    : outcome PdfWriter :=
  match update_nth page_number
          (fun p => mk_pdf_page (text_layer p) (content_scale p) (mediabox_width p)
                      (mediabox_height p) (annotations p ++ [a]))
          writer with
  | Some writer' => Ok writer'
  | None => Raise IndexError
  end.

(** [FPDF(format=(w, h))] *)
Definition new_FPDF (w h : json) : FPDF :=
  {| format := (w, h); auto_page_break := true; pages := [] |}.

Definition set_auto_page_break (pdf : FPDF) (auto : bool) : FPDF :=
  {| format := format pdf; auto_page_break := auto; pages := pages pdf |}.

(** [pdf.add_page()]: a new current page in the document's format. *)
Definition fpdf_add_page (pdf : FPDF) : FPDF :=
  {| format := format pdf; auto_page_break := auto_page_break pdf;
     pages := pages pdf ++ [mk_fpdf_page (format pdf) [] []] |}.

(** The drawing calls act on the current page, the last one; before the
    first [add_page] there is none. *)
Definition on_current_page (pdf : FPDF) (f : fpdf_page -> fpdf_page) : outcome FPDF :=
  match List.length (pages pdf) with
  | O => Raise (CollaboratorError "fpdf")
  | S n =>
      match update_nth n f (pages pdf) with
      | Some ps => Ok {| format := format pdf; auto_page_break := auto_page_break pdf;
                         pages := ps |}
      | None => Raise (CollaboratorError "fpdf")
      end
  end.

(** [pdf.link(x, y, w, h, link)] *)
Definition fpdf_link_call (pdf : FPDF) (l : fpdf_link) : outcome FPDF :=
  on_current_page pdf
    (fun p => mk_fpdf_page (page_format p) (page_images p) (page_links p ++ [l])).

Section Collaborators.

(** The remote service, the JSON decoder, the OCR engine followed by
    [PdfReader(...).pages[0]], the image loader inside [FPDF.image], and
    the serialisation [writer.write(file)] of the assembled pages. *)
Variable requests_get : string -> outcome response.
Variable json_loads : string -> option json.
Variable image_to_pdf : string -> outcome pdf_page.
Variable load_image : string -> string -> outcome unit.
Variable writer_write : PdfWriter -> outcome unit.

Definition http_get (address : string) : M response :=
  emit (Get address) ;; lift (requests_get address).

(** [PdfReader(BytesIO(pytesseract.image_to_pdf_or_hocr('/files/file.png',
    extension='pdf'))).pages[0]] *)
Definition ocr_first_page : M pdf_page :=
  fun st =>
    match file_png st with
    | None => (Raise (CollaboratorError "pytesseract"), st)
    | Some data =>
        (image_to_pdf data,
         mk_state (self st) (files_dir st) (file_png st) (log st ++ [Ocr]))
    end.

(** [pdf.image(name, w=w, h=h, type=type)] *)
Definition fpdf_image_call (pdf : FPDF) (name : string) (w h : json) (type : string)
    : M FPDF :=
  emit (ImageLoad name) ;;
  lift (load_image name type) ;;
  lift (on_current_page pdf
          (fun p => mk_fpdf_page (page_format p)
                      (page_images p ++ [mk_fpdf_image name w h type]) (page_links p))).

(** [self.metadata] *)
Definition self_metadata : M json :=
  r <- get_self ;;
  match metadata r with
  | Some md => ret md
  | None => raise AttributeError
  end.

Definition _get_resume_metadata : M unit :=
  r <- get_self ;;
  request <- http_get (METADATA_URL (resume_id r) (cache_date r)) ;;
  metadata <- lift (match json_loads (text request) with
                    | Some v => Ok v
                    | None => Raise JSONDecodeError
                    end) ;;
  metadata <- lift (py_get metadata "pages") ;;
  r <- get_self ;;
  put_self (set_metadata r metadata).

Definition _format_images_urls : M unit :=
  md <- self_metadata ;;
  n <- lift (py_len md) ;;
  for_each (seq 1 n)
    (fun (_ : unit) page_id =>
       r <- get_self ;;
       let download_url :=
         IMAGE_URL (resume_id r) (Z.of_nat page_id) (extension r) (cache_date r)
           (image_size r) in
       put_self (set_images_urls r (images_urls r ++ [download_url])))
    tt.

(** [w, h = self.metadata[0].get("viewport").values()] *)
Definition first_viewport : M (json * json) :=
  md <- self_metadata ;;
  page0 <- lift (py_index md 0) ;;
  viewport <- lift (py_get page0 "viewport") ;;
  values <- lift (py_values viewport) ;;
  lift (unpack2 values).

(** [self.metadata[i].get("links")], as the items the [for] visits. *)
Definition links_of_page (i : nat) : M (list json) :=
  md <- self_metadata ;;
  page <- lift (py_index md i) ;;
  links <- lift (py_get page "links") ;;
  lift (py_iter links).

Definition searchable_link (i : nat) (writer : PdfWriter) (link : json) : M PdfWriter :=
  x <- lift (py_getitem link "left") ;;
  y <- lift (py_getitem link "top") ;;
  width <- lift (py_getitem link "width") ;;
  x2 <- lift (py_add x width) ;;
  height <- lift (py_getitem link "height") ;;
  y2 <- lift (py_add y height) ;;
  url <- lift (py_getitem link "url") ;;
  lift (add_annotation writer i (mk_annotation (x, y, x2, y2) url)).

Definition searchable_page (target_w target_h : json) (writer : PdfWriter)
    (item : nat * string) : M PdfWriter :=
  let (i, image_url) := item in
  image <- http_get image_url ;;
  write_file (content image) ;;
  page <- ocr_first_page ;;
  let h := mediabox_height page in
  let w := mediabox_width page in
  a <- lift (py_truediv_float target_h h) ;;
  b <- lift (py_truediv_float target_w w) ;;
  let scale_factor := py_min PrimFloat.ltb a b in
  let page := scale_by page scale_factor in
  let writer := add_page writer page in
  links <- links_of_page i ;;
  for_each links (searchable_link i) writer.

(** After the page loop the file is removed, and only then is the document
    serialised ([writer.write(file)]) and stored in [self.buffer]; the
    serialisation may raise, and the buffer is then left as it was. *)
Definition _generate_pdf_searchable : M unit :=
  ' (target_w, target_h) <- first_viewport ;;
  r <- get_self ;;
  writer <- for_each (enumerate (images_urls r)) (searchable_page target_w target_h) [] ;;
  os_remove ;;
  lift (writer_write writer) ;;
  r <- get_self ;;
  put_self (set_buffer r (WriterOutput writer)).

Definition plain_link (h : json) (pdf : FPDF) (link : json) : M FPDF :=
  x <- lift (py_getitem link "left") ;;
  top <- lift (py_getitem link "top") ;;
  y <- lift (py_sub h top) ;;
  width <- lift (py_getitem link "width") ;;
  height <- lift (py_getitem link "height") ;;
  url <- lift (py_getitem link "url") ;;
  lift (fpdf_link_call pdf (mk_fpdf_link x y width height url)).

Definition plain_page (w h : json) (type : string) (pdf : FPDF) (item : nat * string)
    : M FPDF :=
  let (i, image_url) := item in
  let pdf := fpdf_add_page pdf in
  pdf <- fpdf_image_call pdf image_url w h type ;;
  links <- links_of_page i ;;
  for_each links (plain_link h) pdf.

Definition _generate_pdf : M unit :=
  ' (w, h) <- first_viewport ;;
  let pdf := new_FPDF w h in
  let pdf := set_auto_page_break pdf false in
  r <- get_self ;;
  pdf <- for_each (enumerate (images_urls r)) (plain_page w h (extension r)) pdf ;;
  r <- get_self ;;
  put_self (set_buffer r (FpdfOutput pdf)).

(** [self.buffer] *)
Definition self_buffer : M document :=
  r <- get_self ;;
  match buffer r with
  | Some b => ret b
  | None => raise AttributeError
  end.

Definition run (searchable : bool) : M document :=
  _get_resume_metadata ;;
  _format_images_urls ;;
  (if searchable then _generate_pdf_searchable else _generate_pdf) ;;
  self_buffer.

End Collaborators.


(** * Vocabulary of the statements *)

(** The addresses [_format_images_urls] appends for [n] pages. *)
Definition image_urls_for (r : ResumeioDownloader) (n : nat) : list string :=
  map (fun page_id =>
         IMAGE_URL (resume_id r) (Z.of_nat page_id) (extension r) (cache_date r)
           (image_size r))
    (seq 1 n).

Definition viewport_values (page a b : json) : Prop :=
  exists viewport values,
    py_get page "viewport" = Ok viewport /\ py_values viewport = Ok values /\
    unpack2 values = Ok (a, b).

Definition page_link_items (md : json) (i : nat) (links : list json) : Prop :=
  exists page l,
    py_index md i = Ok page /\ py_get page "links" = Ok l /\ py_iter l = Ok links.

Definition placed_plain (h link : json) (placed : fpdf_link) : Prop :=
  exists left top width height url y,
    py_getitem link "left" = Ok left /\ py_getitem link "top" = Ok top /\
    py_getitem link "width" = Ok width /\ py_getitem link "height" = Ok height /\
    py_getitem link "url" = Ok url /\ py_sub h top = Ok y /\
    placed = mk_fpdf_link left y width height url.

Definition plain_page_of (md w h : json) (type : string) (item : nat * string)
    (page : fpdf_page) : Prop :=
  page_format page = (w, h) /\
  page_images page = [mk_fpdf_image (snd item) w h type] /\
  exists links,
    page_link_items md (fst item) links /\
    Forall2 (placed_plain h) links (page_links page).


Definition placed_searchable (link : json) (placed : annotation) : Prop :=
  exists left top width height url x2 y2,
    py_getitem link "left" = Ok left /\ py_getitem link "top" = Ok top /\
    py_getitem link "width" = Ok width /\ py_getitem link "height" = Ok height /\
    py_getitem link "url" = Ok url /\
    py_add left width = Ok x2 /\ py_add top height = Ok y2 /\
    placed = mk_annotation (left, top, x2, y2) url.

(** Output page [page] of searchable mode is what the loop body makes of
    item [(i, image_url)]: the OCR page of the fetched image, scaled by
    [min(target_h / h, target_w / w)], with one annotation per link of
    metadata entry [i]. *)
Definition searchable_page_of
    (requests_get : string -> outcome response)
    (image_to_pdf : string -> outcome pdf_page)
    (md target_w target_h : json) (item : nat * string) (page : pdf_page) : Prop :=
  exists image source a b links placed,
    requests_get (snd item) = Ok image /\
    image_to_pdf (content image) = Ok source /\
    py_truediv_float target_h (mediabox_height source) = Ok a /\
    py_truediv_float target_w (mediabox_width source) = Ok b /\
    page_link_items md (fst item) links /\
    Forall2 placed_searchable links placed /\
    page = mk_pdf_page (text_layer source)
             (PrimFloat.mul (content_scale source) (py_min PrimFloat.ltb a b))
             (PrimFloat.mul (mediabox_width source) (py_min PrimFloat.ltb a b))
             (PrimFloat.mul (mediabox_height source) (py_min PrimFloat.ltb a b))
             (annotations source ++ placed).

(** Strict order of exact rationals, to read [min(target_h / h,
    target_w / w)] in exact arithmetic. *)
Definition Qltb (a b : Q) : bool := negb (Qle_bool b a).

(** What C1 asks of plain mode: every output page has
    the size its own metadata entry declares. *)
Definition pages_sized_by_own_viewport (md : json) (pdf : FPDF) : Prop :=
  forall i page out,
    py_index md i = Ok page -> nth_error (pages pdf) i = Some out ->
    exists w h, viewport_values page w h /\ page_format out = (w, h).

(** What C3 asks: every link is flipped about the height of its own page. *)
Definition links_flipped_by_own_height (md : json) (pdf : FPDF) : Prop :=
  forall i page w h out,
    py_index md i = Ok page -> viewport_values page w h ->
    nth_error (pages pdf) i = Some out ->
    exists links,
      page_link_items md i links /\ Forall2 (placed_plain h) links (page_links out).

(** What C2 asks of a scaled page: it fits inside the
    target on both axes and touches it on one. *)
Definition scaled_page_fits (target_w target_h : float) (out : pdf_page) : Prop :=
  PrimFloat.leb (mediabox_width out) target_w = true /\
  PrimFloat.leb (mediabox_height out) target_h = true /\
  (PrimFloat.eqb (mediabox_width out) target_w = true \/
   PrimFloat.eqb (mediabox_height out) target_h = true).

(** ** Sample inputs *)

Definition int (z : Z) : json := JNum (PyInt z).

Definition sample_link (left top width height : Z) (url : string) : json :=
  JObj [("left", int left); ("top", int top); ("width", int width);
        ("height", int height); ("url", JStr url)].

Definition sample_page (width height : Z) (links : list json) : json :=
  JObj [("viewport", JObj [("width", int width); ("height", int height)]);
        ("links", JArr links)].

(** Two pages whose viewports differ. *)
Definition sample_pages : json :=
  JArr [sample_page 600 800 [sample_link 10 20 100 50 "https://example.org/a"];
        sample_page 700 900 [sample_link 1 2 3 4 "https://example.org/b"]].

Definition sample_body : json := JObj [("pages", sample_pages)].

Definition sample_requests_get (address : string) : outcome response :=
  Ok (mk_response 200 "{...}" "PNG").

Definition sample_json_loads (body : string) : option json := Some sample_body.

Definition sample_image_to_pdf (data : string) : outcome pdf_page :=
  Ok (mk_pdf_page "text" 1 612 792 []).

Definition sample_load_image (name type : string) : outcome unit := Ok tt.

Definition sample_writer_write (writer : PdfWriter) : outcome unit := Ok tt.

Definition sample_instance : ResumeioDownloader :=
  {| resume_id := "abc123XYZ"; extension := "png"; image_size := 1800;
     cache_date := "2024-01-02T03:04:05.12Z"; images_urls := [];
     metadata := None; buffer := None |}.

Definition sample_state : state := mk_state sample_instance true None [].

Definition sample_run (searchable : bool) : outcome document * state :=
  run sample_requests_get sample_json_loads sample_image_to_pdf sample_load_image sample_writer_write
    searchable sample_state.

(** The documents the two modes return for the sample. *)
Definition sample_plain_document : document :=
  Eval vm_compute in
    match fst (sample_run false) with
    | Ok doc => doc
    | Raise _ => FpdfOutput (new_FPDF JNull JNull)
    end.

Definition sample_searchable_document : document :=
  Eval vm_compute in
    match fst (sample_run true) with
    | Ok doc => doc
    | Raise _ => WriterOutput []
    end.

(** The sample instance once [run] has stored the metadata and the two
    image addresses. *)
Definition sample_loaded_state : state :=
  mk_state
    (mk_downloader "abc123XYZ" "png" 1800 "2024-01-02T03:04:05.12Z"
       (image_urls_for sample_instance 2) (Some sample_pages) None)
    true None [].


Definition with_resume_id (s : string) : ResumeioDownloader :=
  set_resume_id sample_instance s.

Definition newline_string : string := String Re.newline EmptyString.

(** ** Invariants of computations *)

(** [m] keeps [I] whatever its outcome. *)
Definition preserves {A} (I : state -> Prop) (m : M A) : Prop :=
  forall st, I st -> I (snd (m st)).

(** Two runs of [m] from states related by [P] have the same outcome, and
    when they return, their final states are related by [Q]. *)
Definition rel {A} (P : state -> state -> Prop) (m : M A)
    (Q : A -> state -> state -> Prop) : Prop :=
  forall s1 s2, P s1 s2 ->
    match m s1, m s2 with
    | (Ok a1, t1), (Ok a2, t2) => a1 = a2 /\ Q a1 t1 t2
    | (Raise e1, _), (Raise e2, _) => e1 = e2
    | _, _ => False
    end.


(** An OCR engine that fails. *)
Definition failing_image_to_pdf (data : string) : outcome pdf_page :=
  Raise (CollaboratorError "pytesseract").

(** The exception a metadata body leads to when it is not JSON, is not an
    object, or is an object without [pages]; [None] for the other bodies. *)
Definition metadata_fault (body : option json) : option exn :=
  match body with
  | None => Some JSONDecodeError
  | Some (JObj fields) =>
      match assoc "pages" fields with
      | None => Some TypeError
      | Some _ => None
      end
  | Some _ => Some AttributeError
  end.

(** What C8 asks of a failed metadata fetch: a
    [MetadataUnavailable] error and no image request. *)
Definition fails_as_metadata_unavailable (result : outcome document * state) : Prop :=
  exists e,
    fst result = Raise e /\ exn_class e = "MetadataUnavailable" /\
    forall address, In (Get address) (log (snd result)) ->
      exists id cache, address = METADATA_URL id cache.

(** A service that answers every request with status 500 and the body of
    the sample, and two decoders for bodies that are not metadata. *)
Definition http500_requests_get (address : string) : outcome response :=
  Ok (mk_response 500 "{...}" "PNG").

Definition broken_json_loads (body : string) : option json := None.

Definition no_pages_json_loads (body : string) : option json :=
  Some (JObj [("error", JStr "internal")]).

(** The number of pages of a returned document. *)
Definition page_count (doc : document) : nat :=
  match doc with
  | FpdfOutput pdf => List.length (pages pdf)
  | WriterOutput writer => List.length writer
  end.

(** The fields of the instance that the generators leave alone. *)
Definition same_request (r : ResumeioDownloader) (st : state) : Prop :=
  resume_id (self st) = resume_id r /\ extension (self st) = extension r /\
  image_size (self st) = image_size r /\ cache_date (self st) = cache_date r /\
  images_urls (self st) = images_urls r /\ metadata (self st) = metadata r.

(** A second call of [run] on the instance the first call leaves. *)
Definition sample_second_run (searchable : bool) : outcome document * state :=
  run sample_requests_get sample_json_loads sample_image_to_pdf sample_load_image sample_writer_write
    searchable (snd (sample_run searchable)).

(** Two instances were built for the same request and have collected the
    same image addresses; what they hold as metadata and as buffer is left
    open. *)
Definition same_inputs (r1 r2 : ResumeioDownloader) : Prop :=
  resume_id r1 = resume_id r2 /\ extension r1 = extension r2 /\
  image_size r1 = image_size r2 /\ cache_date r1 = cache_date r2 /\
  images_urls r1 = images_urls r2.

(** Two states hold instances with the same inputs and the same metadata,
    and the same directory, and, when [with_file] is set, the same
    transient file; their buffers and their logs may differ. *)
Definition agree (with_file : bool) (s1 s2 : state) : Prop :=
  same_inputs (self s1) (self s2) /\ metadata (self s1) = metadata (self s2) /\
  files_dir s1 = files_dir s2 /\
  (with_file = true -> file_png s1 = file_png s2).

(** What C9 asks: the identifier, the render parameters and the cache
    token of the instance fix the outcome of a run. *)
Definition outcome_fixed_by_request
    (requests_get : string -> outcome response)
    (json_loads : string -> option json)
    (image_to_pdf : string -> outcome pdf_page)
    (load_image : string -> string -> outcome unit)
    (writer_write : PdfWriter -> outcome unit)
    (searchable : bool) : Prop :=
  forall s1 s2,
    resume_id (self s1) = resume_id (self s2) ->
    extension (self s1) = extension (self s2) ->
    image_size (self s1) = image_size (self s2) ->
    cache_date (self s1) = cache_date (self s2) ->
    files_dir s1 = files_dir s2 ->
    fst (run requests_get json_loads image_to_pdf load_image writer_write searchable s1)
    = fst (run requests_get json_loads image_to_pdf load_image writer_write searchable s2).

(** An instance that has a first metadata entry has an image address. *)
Definition has_address (st : state) : Prop :=
  images_urls (self st) = [] ->
  forall md, metadata (self st) = Some md -> is_ok (py_index md 0) = false.

(** A state that differs from the sample's in what an earlier, failed run
    may have left: an image on disk and a log. *)
Definition sample_state_after_failure : state :=
  mk_state sample_instance true (Some "old PNG") [Get "https://example.org/earlier"].

(** A state whose instance has the sample's request and no address, but
    still holds the metadata and the buffer of some earlier use. *)
Definition sample_state_stale : state :=
  mk_state
    (mk_downloader "abc123XYZ" "png" 1800 "2024-01-02T03:04:05.12Z" []
       (Some (JArr [])) (Some (WriterOutput [])))
    true (Some "old PNG") [Get "https://example.org/earlier"].



(** A serialisation that fails. *)
Definition failing_writer_write (writer : PdfWriter) : outcome unit :=
  Raise (CollaboratorError "pypdf").

(** What the readers of the instance return, as functions of it. *)

Definition metadata_of (r : ResumeioDownloader) : outcome json :=
  match metadata r with Some md => Ok md | None => Raise AttributeError end.

Definition first_viewport_of (r : ResumeioDownloader) : outcome (json * json) :=
  match metadata_of r with
  | Raise e => Raise e
  | Ok md =>
      match py_index md 0 with
      | Raise e => Raise e
      | Ok page0 =>
          match py_get page0 "viewport" with
          | Raise e => Raise e
          | Ok viewport =>
              match py_values viewport with
              | Raise e => Raise e
              | Ok values => unpack2 values
              end
          end
      end
  end.

Definition links_of (i : nat) (r : ResumeioDownloader) : outcome (list json) :=
  match metadata_of r with
  | Raise e => Raise e
  | Ok md =>
      match py_index md i with
      | Raise e => Raise e
      | Ok page =>
          match py_get page "links" with
          | Raise e => Raise e
          | Ok links => py_iter links
          end
      end
  end.


(** [m], started where [P] holds, ends where [Q] holds of its result if it
    returns and where [E] holds if it raises. *)
Definition hoare {A} (P : state -> Prop) (m : M A) (Q : A -> state -> Prop)
    (E : state -> Prop) : Prop :=
  forall st, P st ->
    match m st with
    | (Ok a, st') => Q a st'
    | (Raise _, st') => E st'
    end.

(** The image addresses of instance [r], and the requests a run of [r] may
    make: its metadata address and its image addresses, all carrying the
    cache token of [r]. *)
Definition image_address_of (r : ResumeioDownloader) (address : string) : Prop :=
  exists page_id,
    address = IMAGE_URL (resume_id r) page_id (extension r) (cache_date r) (image_size r).

Definition request_of (r : ResumeioDownloader) (e : event) : Prop :=
  match e with
  | Get address =>
      address = METADATA_URL (resume_id r) (cache_date r) \/ image_address_of r address
  | ImageLoad address => image_address_of r address
  | _ => True
  end.

(** The instance in [st] still makes the requests of [r], and has made no
    other since the log was [log0]. *)
Definition requests_within (r : ResumeioDownloader) (log0 : list event) (st : state)
    : Prop :=
  resume_id (self st) = resume_id r /\ extension (self st) = extension r /\
  image_size (self st) = image_size r /\ cache_date (self st) = cache_date r /\
  Forall (image_address_of r) (images_urls (self st)) /\
  exists events, log st = log0 ++ events /\ Forall (request_of r) events.

(** What searchable mode logs for one page once the image has been
    fetched: the request, the file written with the bytes received, and
    the OCR pass. *)
Definition page_events (requests_get : string -> outcome response) (address : string)
    : list event :=
  match requests_get address with
  | Ok image => [Get address; FileWrite (content image); Ocr]
  | Raise _ => [Get address]
  end.
(** * Reasoning about the monad *)

(** ** Runs that return *)

Lemma bind_ok {A B} (m : M A) (k : A -> M B) st b st' :
  bind m k st = (Ok b, st') ->
  exists a st1, m st = (Ok a, st1) /\ k a st1 = (Ok b, st').
Proof.
  unfold bind. destruct (m st) as [[a | e] st1]; intros H.
  - exists a, st1. split; [reflexivity | exact H].
  - discriminate H.
Qed.


Lemma bind_eq_ok {A B} (m : M A) (k : A -> M B) st a st1 :
  m st = (Ok a, st1) -> bind m k st = k a st1.
Proof. intros H. unfold bind. rewrite H. reflexivity. Qed.

Lemma bind_eq_raise {A B} (m : M A) (k : A -> M B) st e st1 :
  m st = (Raise e, st1) -> bind m k st = (Raise e, st1).
Proof. intros H. unfold bind. rewrite H. reflexivity. Qed.

Lemma lift_ok {A} (o : outcome A) st a st' :
  lift o st = (Ok a, st') -> o = Ok a /\ st' = st.
Proof. unfold lift. intros H. inversion H. split; reflexivity. Qed.

Lemma ret_ok {A} (x : A) st a st' :
  ret x st = (Ok a, st') -> a = x /\ st' = st.
Proof. unfold ret. intros H. inversion H. split; reflexivity. Qed.

Lemma get_self_ok st r st' :
  get_self st = (Ok r, st') -> r = self st /\ st' = st.
Proof. unfold get_self. intros H. inversion H. split; reflexivity. Qed.

Lemma put_self_ok r st u st' :
  put_self r st = (Ok u, st') ->
  st' = mk_state r (files_dir st) (file_png st) (log st).
Proof. unfold put_self. intros H. inversion H. reflexivity. Qed.

Lemma emit_ok e st u st' :
  emit e st = (Ok u, st') ->
  st' = mk_state (self st) (files_dir st) (file_png st) (log st ++ [e]).
Proof. unfold emit. intros H. inversion H. reflexivity. Qed.

Lemma self_metadata_ok st md st' :
  self_metadata st = (Ok md, st') -> metadata (self st) = Some md /\ st' = st.
Proof.
  unfold self_metadata, bind, get_self. destruct (metadata (self st)) as [v |].
  - unfold ret. intros H. inversion H. split; reflexivity.
  - unfold raise. discriminate.
Qed.

Lemma write_file_ok data st u st' :
  write_file data st = (Ok u, st') ->
  files_dir st = true /\
  st' = mk_state (self st) true (Some data) (log st ++ [FileWrite data]).
Proof.
  unfold write_file. destruct (files_dir st); intros H; inversion H.
  split; reflexivity.
Qed.

Lemma os_remove_ok st u st' :
  os_remove st = (Ok u, st') ->
  file_png st <> None /\
  st' = mk_state (self st) (files_dir st) None (log st ++ [FileRemove]).
Proof.
  unfold os_remove. destruct (file_png st); intros H; inversion H.
  split; [discriminate | reflexivity].
Qed.


(** Splits a hypothesis saying that a sequence of statements returned
    into one fact per statement. *)
Ltac inv_ok :=
  repeat match goal with
  | H : bind _ _ _ = (Ok _, _) |- _ =>
      let a := fresh "a" in let s := fresh "s" in let Ha := fresh "Hrun" in
      apply bind_ok in H; destruct H as (a & s & Ha & H)
  | H : lift _ _ = (Ok _, _) |- _ =>
      let E := fresh "E" in apply lift_ok in H; destruct H as [E ?]; subst
  | H : ret _ _ = (Ok _, _) |- _ => apply ret_ok in H; destruct H; subst
  | H : get_self _ = (Ok _, _) |- _ => apply get_self_ok in H; destruct H; subst
  | H : put_self _ _ = (Ok _, _) |- _ => apply put_self_ok in H; subst
  | H : emit _ _ = (Ok _, _) |- _ => apply emit_ok in H; subst
  | H : self_metadata _ = (Ok _, _) |- _ =>
      let E := fresh "E" in apply self_metadata_ok in H; destruct H as [E ?]; subst
  end.

(** The invariant rule for a loop that returned: [J done b st] relates the
    items already visited, the loop variables and the state. *)
Lemma for_each_ok {A B} (body : B -> A -> M B) (J : list A -> B -> state -> Prop)
    (items : list A) :
  (forall done x rest b st b' st',
      items = done ++ x :: rest ->
      J done b st -> body b x st = (Ok b', st') -> J (done ++ [x]) b' st') ->
  forall b st b' st',
    J [] b st -> for_each items body b st = (Ok b', st') -> J items b' st'.
Proof.
  intros Hstep.
  assert (G : forall rest done, items = done ++ rest ->
              forall b st b' st', J done b st ->
                for_each rest body b st = (Ok b', st') -> J items b' st').
  { induction rest as [| x rest IH]; intros done Hitems b st b' st' HJ Hrun.
    - simpl in Hrun. apply ret_ok in Hrun. destruct Hrun; subst.
      rewrite app_nil_r. exact HJ.
    - simpl in Hrun. apply bind_ok in Hrun. destruct Hrun as (b1 & st1 & H1 & H2).
      apply (IH (done ++ [x])) with (b := b1) (st := st1).
      + rewrite <- app_assoc. exact Hitems.
      + eapply Hstep; eauto.
      + exact H2. }
  intros b st b' st' HJ Hrun. eapply (G items []); eauto.
Qed.

(** ** Lists and the current page *)

Lemma update_nth_last {A} (f : A -> A) (l : list A) (x : A) :
  update_nth (List.length l) f (l ++ [x]) = Some (l ++ [f x]).
Proof.
  induction l as [| y l IH]; simpl.
  - reflexivity.
  - rewrite IH. reflexivity.
Qed.

Lemma nth_error_combine_seq {A} (l : list A) base k i (x : A) :
  nth_error (combine (seq base (List.length l)) l) k = Some (i, x) ->
  i = (base + k)%nat /\ nth_error l k = Some x.
Proof.
  revert base k. induction l as [| y l IH]; intros base k Hn.
  - destruct k; discriminate Hn.
  - destruct k as [| k]; simpl in Hn.
    + inversion Hn. split; [lia | reflexivity].
    + apply IH in Hn. destruct Hn as [Hi Hx]. split; [lia | exact Hx].
Qed.

Lemma enumerate_index {A} (l : list A) done i (x : A) rest :
  enumerate l = done ++ (i, x) :: rest -> i = List.length done.
Proof.
  unfold enumerate. intros H.
  assert (Hn : nth_error (combine (seq 0 (List.length l)) l) (List.length done)
               = Some (i, x)).
  { rewrite H. rewrite nth_error_app2 by lia. rewrite Nat.sub_diag. reflexivity. }
  apply nth_error_combine_seq in Hn. destruct Hn as [Hi _]. exact Hi.
Qed.

Lemma enumerate_length {A} (l : list A) :
  List.length (enumerate l) = List.length l.
Proof.
  unfold enumerate. rewrite length_combine, length_seq. apply Nat.min_id.
Qed.

Lemma map_snd_enumerate {A} (l : list A) : map snd (enumerate l) = l.
Proof.
  unfold enumerate. generalize 0%nat as base.
  induction l as [| x l IH]; intros base; simpl; [reflexivity |].
  rewrite IH. reflexivity.
Qed.

Lemma on_current_page_last pdf f ps p :
  pages pdf = ps ++ [p] ->
  on_current_page pdf f
  = Ok {| format := format pdf; auto_page_break := auto_page_break pdf;
          pages := ps ++ [f p] |}.
Proof.
  intros H. unfold on_current_page. rewrite H, length_app. simpl.
  rewrite Nat.add_1_r, update_nth_last. reflexivity.
Qed.

Lemma Forall2_nth_error_r {A B} (R : A -> B -> Prop) l l' i y :
  Forall2 R l l' -> nth_error l' i = Some y ->
  exists x, nth_error l i = Some x /\ R x y.
Proof.
  intros H. revert i. induction H as [| x0 y0 l l' Hxy _ IH]; intros i Hi.
  - destruct i; discriminate Hi.
  - destruct i as [| i]; simpl in Hi.
    + inversion Hi; subst. exists x0. split; [reflexivity | exact Hxy].
    + apply IH in Hi. exact Hi.
Qed.

Lemma nth_error_enumerate {A} (l : list A) i k (x : A) :
  nth_error (enumerate l) i = Some (k, x) -> k = i /\ nth_error l i = Some x.
Proof.
  unfold enumerate. intros H. apply nth_error_combine_seq in H.
  destruct H as [Hk Hx]. split; [lia | exact Hx].
Qed.

(** ** The steps of [run] *)

Section Steps.

Variable requests_get : string -> outcome response.
Variable json_loads : string -> option json.

Lemma _get_resume_metadata_ok st u st' :
  _get_resume_metadata requests_get json_loads st = (Ok u, st') ->
  exists resp top md,
    requests_get (METADATA_URL (resume_id (self st)) (cache_date (self st))) = Ok resp /\
    json_loads (text resp) = Some top /\
    py_get top "pages" = Ok md /\
    st' = mk_state (set_metadata (self st) md) (files_dir st) (file_png st)
            (log st ++ [Get (METADATA_URL (resume_id (self st)) (cache_date (self st)))]).
Proof.
  unfold _get_resume_metadata, http_get. intros H. inv_ok.
  match goal with
  | E : match json_loads ?t with _ => _ end = Ok ?v |- _ =>
      destruct (json_loads t) as [top |] eqn:Hjson; [| discriminate E];
      inversion E; subst; clear E
  end.
  simpl in *. eexists _, _, _. repeat split; eassumption.
Qed.

(** The URL loop never raises: it appends one address per page number. *)
Lemma format_loop page_ids : forall st,
  for_each page_ids
    (fun (_ : unit) page_id =>
       r <- get_self ;;
       put_self (set_images_urls r
                   (images_urls r
                    ++ [IMAGE_URL (resume_id r) (Z.of_nat page_id) (extension r)
                          (cache_date r) (image_size r)])))%py
    tt st
  = (Ok tt,
     mk_state
       (set_images_urls (self st)
          (images_urls (self st)
           ++ map (fun page_id =>
                     IMAGE_URL (resume_id (self st)) (Z.of_nat page_id)
                       (extension (self st)) (cache_date (self st))
                       (image_size (self st)))
                page_ids))
       (files_dir st) (file_png st) (log st)).
Proof.
  induction page_ids as [| page_id rest IH]; intros st.
  - simpl. unfold ret. rewrite app_nil_r. destruct st as [[] ? ? ?]. reflexivity.
  - simpl. unfold bind at 1. unfold bind at 1. unfold get_self, put_self.
    rewrite IH. simpl. rewrite <- app_assoc. reflexivity.
Qed.

Lemma _format_images_urls_ok st u st' :
  _format_images_urls st = (Ok u, st') ->
  exists md n,
    metadata (self st) = Some md /\ py_len md = Ok n /\
    st' = mk_state
            (set_images_urls (self st) (images_urls (self st) ++ image_urls_for (self st) n))
            (files_dir st) (file_png st) (log st).
Proof.
  unfold _format_images_urls. intros H. inv_ok.
  rewrite format_loop in H. inversion H; subst; clear H.
  eexists _, _. repeat split; eassumption.
Qed.

Lemma _get_resume_metadata_run st resp top md :
  requests_get (METADATA_URL (resume_id (self st)) (cache_date (self st))) = Ok resp ->
  json_loads (text resp) = Some top ->
  py_get top "pages" = Ok md ->
  _get_resume_metadata requests_get json_loads st
  = (Ok tt,
     mk_state (set_metadata (self st) md) (files_dir st) (file_png st)
       (log st ++ [Get (METADATA_URL (resume_id (self st)) (cache_date (self st)))])).
Proof.
  intros Hget Hjson Hpages. unfold _get_resume_metadata.
  erewrite bind_eq_ok by reflexivity.
  erewrite bind_eq_ok
    by (unfold http_get; erewrite bind_eq_ok by reflexivity;
        unfold lift; simpl; rewrite Hget; reflexivity).
  erewrite bind_eq_ok by (unfold lift; rewrite Hjson; reflexivity).
  erewrite bind_eq_ok by (unfold lift; rewrite Hpages; reflexivity).
  erewrite bind_eq_ok by reflexivity.
  reflexivity.
Qed.

Lemma _format_images_urls_run st md n :
  metadata (self st) = Some md -> py_len md = Ok n ->
  _format_images_urls st
  = (Ok tt,
     mk_state
       (set_images_urls (self st) (images_urls (self st) ++ image_urls_for (self st) n))
       (files_dir st) (file_png st) (log st)).
Proof.
  intros Hmd Hlen. unfold _format_images_urls.
  erewrite bind_eq_ok
    by (unfold self_metadata; erewrite bind_eq_ok by reflexivity;
        rewrite Hmd; reflexivity).
  erewrite bind_eq_ok by (unfold lift; rewrite Hlen; reflexivity).
  rewrite format_loop. reflexivity.
Qed.

End Steps.

(** ** Readers of the instance *)

Lemma self_metadata_reads st : self_metadata st = (metadata_of (self st), st).
Proof.
  unfold self_metadata, metadata_of, bind, get_self.
  destruct (metadata (self st)); reflexivity.
Qed.

Lemma first_viewport_reads st : first_viewport st = (first_viewport_of (self st), st).
Proof.
  unfold first_viewport, first_viewport_of, bind. rewrite self_metadata_reads.
  destruct (metadata_of (self st)) as [md |]; [| reflexivity].
  unfold lift. destruct (py_index md 0) as [page0 |]; [| reflexivity].
  destruct (py_get page0 "viewport") as [viewport |]; [| reflexivity].
  destruct (py_values viewport); reflexivity.
Qed.

Lemma links_of_page_reads i st : links_of_page i st = (links_of i (self st), st).
Proof.
  unfold links_of_page, links_of, bind. rewrite self_metadata_reads.
  destruct (metadata_of (self st)) as [md |]; [| reflexivity].
  unfold lift. destruct (py_index md i) as [page |]; [| reflexivity].
  destruct (py_get page "links"); reflexivity.
Qed.

(** * Plain mode *)

Lemma first_viewport_ok st w h st' :
  first_viewport st = (Ok (w, h), st') ->
  st' = st /\
  exists md page0,
    metadata (self st) = Some md /\ py_index md 0 = Ok page0 /\
    viewport_values page0 w h.
Proof.
  unfold first_viewport. intros H. inv_ok. split; [reflexivity |].
  exists a, a0. repeat split; try assumption.
  exists a1, a2. repeat split; assumption.
Qed.

Lemma links_of_page_ok i st links st' :
  links_of_page i st = (Ok links, st') ->
  st' = st /\ exists md, metadata (self st) = Some md /\ page_link_items md i links.
Proof.
  unfold links_of_page. intros H. inv_ok. split; [reflexivity |].
  exists a. split; [assumption |]. exists a0, a1. repeat split; assumption.
Qed.

Section PlainMode.

Variable load_image : string -> string -> outcome unit.

Lemma plain_link_ok h pdf link st pdf' st' ps p :
  pages pdf = ps ++ [p] ->
  plain_link h pdf link st = (Ok pdf', st') ->
  st' = st /\ format pdf' = format pdf /\
  exists placed,
    placed_plain h link placed /\
    pages pdf' = ps ++ [mk_fpdf_page (page_format p) (page_images p)
                          (page_links p ++ [placed])].
Proof.
  intros Hp H. unfold plain_link in H. inv_ok.
  match goal with
  | E : fpdf_link_call _ _ = Ok _ |- _ =>
      unfold fpdf_link_call in E; rewrite (on_current_page_last _ _ _ _ Hp) in E;
      inversion E; subst; clear E
  end.
  simpl. split; [reflexivity |]. split; [reflexivity |].
  eexists. split; [| reflexivity].
  do 6 eexists. repeat split; eassumption.
Qed.

Lemma plain_links_ok h links : forall pdf st pdf' st' ps p,
  pages pdf = ps ++ [p] ->
  for_each links (plain_link h) pdf st = (Ok pdf', st') ->
  st' = st /\ format pdf' = format pdf /\
  exists placed,
    Forall2 (placed_plain h) links placed /\
    pages pdf' = ps ++ [mk_fpdf_page (page_format p) (page_images p)
                          (page_links p ++ placed)].
Proof.
  induction links as [| link links IH]; intros pdf st pdf' st' ps p Hp H.
  - simpl in H. inv_ok. split; [reflexivity |]. split; [reflexivity |].
    exists []. split; [constructor |]. rewrite app_nil_r, Hp. destruct p; reflexivity.
  - simpl in H. inv_ok.
    match goal with
    | E : plain_link _ _ _ _ = (Ok _, _) |- _ => rename E into Hlink
    end.
    destruct (plain_link_ok _ _ _ _ _ _ _ _ Hp Hlink) as (-> & Hf & pl & Hpl & Hpages).
    destruct (IH _ _ _ _ _ _ Hpages H) as (-> & Hf' & pls & Hpls & Hpages').
    split; [reflexivity |]. split; [congruence |].
    exists (pl :: pls). split; [constructor; assumption |].
    rewrite Hpages'. simpl. rewrite <- app_assoc. reflexivity.
Qed.

Lemma plain_page_ok w h type pdf i image_url st pdf' st' md :
  format pdf = (w, h) ->
  metadata (self st) = Some md ->
  plain_page load_image w h type pdf (i, image_url) st = (Ok pdf', st') ->
  self st' = self st /\ files_dir st' = files_dir st /\ file_png st' = file_png st /\
  format pdf' = (w, h) /\
  exists page,
    plain_page_of md w h type (i, image_url) page /\ pages pdf' = pages pdf ++ [page].
Proof.
  intros Hf Hmd H. unfold plain_page, fpdf_image_call in H. inv_ok.
  match goal with
  | E : on_current_page _ _ = Ok _ |- _ =>
      rewrite (on_current_page_last _ _ (pages pdf) (mk_fpdf_page (format pdf) [] []))
        in E by reflexivity;
      inversion E; subst; clear E
  end.
  match goal with
  | E : links_of_page _ _ = (Ok _, _) |- _ =>
      apply links_of_page_ok in E; destruct E as (-> & md' & Hmd' & Hlinks)
  end.
  simpl in Hmd'. rewrite Hmd in Hmd'. inversion Hmd'; subst md'.
  eapply plain_links_ok in H; [| simpl; reflexivity].
  destruct H as (-> & Hf' & placed & Hplaced & Hpages).
  simpl. repeat split; try reflexivity.
  - rewrite Hf'. simpl. exact Hf.
  - eexists. split; [| rewrite Hpages; reflexivity].
    simpl. rewrite Hf. repeat split; try reflexivity.
    eexists. split; eassumption.
Qed.

Lemma _generate_pdf_ok st u st' :
  _generate_pdf load_image st = (Ok u, st') ->
  exists md page0 w h pdf,
    metadata (self st) = Some md /\ py_index md 0 = Ok page0 /\
    viewport_values page0 w h /\
    self st' = set_buffer (self st) (FpdfOutput pdf) /\
    format pdf = (w, h) /\
    Forall2 (plain_page_of md w h (extension (self st)))
      (enumerate (images_urls (self st))) (pages pdf).
Proof.
  unfold _generate_pdf. intros H. inv_ok.
  match goal with
  | E : first_viewport _ = (Ok ?a, _) |- _ =>
      destruct a as [w h]; apply first_viewport_ok in E;
      destruct E as (-> & md & page0 & Hmd & Hp0 & Hvp)
  end.
  inv_ok.
  match goal with
  | E : for_each _ _ _ _ = (Ok ?b, ?s) |- _ =>
      rename E into Hloop; rename b into pdf; rename s into s1
  end.
  assert (HJ : self s1 = self st /\ format pdf = (w, h) /\
               Forall2 (plain_page_of md w h (extension (self st)))
                 (enumerate (images_urls (self st))) (pages pdf)).
  { revert Hloop.
    apply (for_each_ok _
             (fun done pdf s =>
                self s = self st /\ format pdf = (w, h) /\
                Forall2 (plain_page_of md w h (extension (self st))) done (pages pdf))).
    - intros done [i image_url] rest b s b' s' _ (Hs & Hf & Hall) Hbody.
      apply plain_page_ok with (md := md) in Hbody;
        [| exact Hf | rewrite Hs; exact Hmd].
      destruct Hbody as (Hs' & _ & _ & Hf' & page & Hpage & Hpages).
      repeat split; [congruence | exact Hf' |].
      rewrite Hpages. apply Forall2_app; [exact Hall |].
      constructor; [exact Hpage | constructor].
    - simpl. repeat split. constructor. }
  destruct HJ as (Hs & Hf & Hall).
  exists md, page0, w, h, pdf. simpl. rewrite Hs. repeat split; assumption.
Qed.

Lemma metadata_is_array md page0 w h :
  py_index md 0 = Ok page0 -> viewport_values page0 w h ->
  exists items, md = JArr items /\ nth_error items 0 = Some page0.
Proof.
  intros Hi (viewport & values & Hget & _ & _).
  destruct md as [| | | s | items |]; unfold py_index in Hi; try discriminate Hi.
  - destruct (String.get 0 s); [| discriminate Hi]. inversion Hi; subst.
    simpl in Hget. discriminate Hget.
  - exists items. split; [reflexivity |].
    destruct (nth_error items 0); [| discriminate Hi]. inversion Hi. reflexivity.
Qed.

Variable requests_get : string -> outcome response.
Variable json_loads : string -> option json.
Variable image_to_pdf : string -> outcome pdf_page.
Variable writer_write : PdfWriter -> outcome unit.

Lemma run_plain_ok st doc st' :
  run requests_get json_loads image_to_pdf load_image writer_write false st = (Ok doc, st') ->
  exists resp top items page0 w h pdf,
    requests_get (METADATA_URL (resume_id (self st)) (cache_date (self st))) = Ok resp /\
    json_loads (text resp) = Some top /\
    py_get top "pages" = Ok (JArr items) /\
    nth_error items 0 = Some page0 /\ viewport_values page0 w h /\
    doc = FpdfOutput pdf /\ format pdf = (w, h) /\
    self st' = mk_downloader (resume_id (self st)) (extension (self st))
                 (image_size (self st)) (cache_date (self st))
                 (images_urls (self st) ++ image_urls_for (self st) (List.length items))
                 (Some (JArr items)) (Some doc) /\
    Forall2 (plain_page_of (JArr items) w h (extension (self st)))
      (enumerate (images_urls (self st) ++ image_urls_for (self st) (List.length items)))
      (pages pdf).
Proof.
  unfold run. intros H. inv_ok.
  match goal with
  | E : _get_resume_metadata _ _ _ = _ |- _ =>
      apply _get_resume_metadata_ok in E;
      destruct E as (resp & top & md & Hget & Hjson & Hpages & ->)
  end.
  match goal with
  | E : _format_images_urls _ = _ |- _ =>
      apply _format_images_urls_ok in E; destruct E as (md' & n & Hmd' & Hlen & ->)
  end.
  simpl in Hmd'. inversion Hmd'; subst md'; clear Hmd'.
  match goal with
  | E : _generate_pdf _ _ = _ |- _ =>
      apply _generate_pdf_ok in E;
      destruct E as (md' & page0 & w & h & pdf & Hmd' & Hp0 & Hvp & Hself & Hf & Hall)
  end.
  simpl in Hmd'. inversion Hmd'; subst md'; clear Hmd'.
  destruct (metadata_is_array _ _ _ _ Hp0 Hvp) as (items & -> & Hitem0).
  simpl in Hlen. inversion Hlen; subst n; clear Hlen.
  unfold self_buffer in H. inv_ok. rewrite Hself in H. simpl in H.
  unfold ret in H. inversion H; subst; clear H.
  exists resp, top, items, page0, w, h, pdf.
  repeat split; try assumption.
Qed.

(** C1, as the code has it: in plain mode a run on a fresh instance
    returns a document with one page per metadata entry, and every page
    has the size given by the two values of the FIRST entry's viewport;
    the entries of the later pages are not read for the page size. *)
Theorem plain_pages_take_first_viewport st doc st' :
  images_urls (self st) = [] ->
  run requests_get json_loads image_to_pdf load_image writer_write false st = (Ok doc, st') ->
  exists items page0 w h pdf,
    metadata (self st') = Some (JArr items) /\
    nth_error items 0 = Some page0 /\ viewport_values page0 w h /\
    doc = FpdfOutput pdf /\
    List.length (pages pdf) = List.length items /\
    forall out, In out (pages pdf) -> page_format out = (w, h).
Proof.
  intros Hfresh Hrun. apply run_plain_ok in Hrun.
  destruct Hrun as (resp & top & items & page0 & w & h & pdf & _ & _ & _ & Hp0 & Hvp
                    & -> & _ & Hself & Hall).
  exists items, page0, w, h, pdf. rewrite Hself. simpl.
  repeat split; try assumption; try reflexivity.
  - apply Forall2_length in Hall. rewrite <- Hall, enumerate_length, Hfresh.
    unfold image_urls_for. simpl. rewrite length_map, length_seq. reflexivity.
  - intros out Hin. apply In_nth_error in Hin. destruct Hin as [i Hi].
    destruct (Forall2_nth_error_r _ _ _ _ _ Hall Hi) as (item & _ & Hpage & _).
    exact Hpage.
Qed.

End PlainMode.

(** ** Plain mode on the sample document *)

Lemma plain_pages_take_first_viewport_witness :
  images_urls (self sample_state) = [] /\
  sample_run false = (Ok sample_plain_document, snd (sample_run false)) /\
  exists items page0 w h pdf,
    metadata (self (snd (sample_run false))) = Some (JArr items) /\
    nth_error items 0 = Some page0 /\ viewport_values page0 w h /\
    sample_plain_document = FpdfOutput pdf /\
    List.length (pages pdf) = List.length items /\
    forall out, In out (pages pdf) -> page_format out = (w, h).
Proof.
  split; [reflexivity |]. split; [vm_compute; reflexivity |].
  apply (plain_pages_take_first_viewport sample_load_image sample_requests_get
           sample_json_loads sample_image_to_pdf sample_writer_write sample_state).
  - reflexivity.
  - vm_compute. reflexivity.
Defined.

(** C1 as stated fails: the second sample page declares 700 x 900, and its
    output page is 600 x 800, the size of the first. *)
Lemma plain_second_page_keeps_first_size :
  exists pdf,
    fst (sample_run false) = Ok (FpdfOutput pdf) /\
    ~ pages_sized_by_own_viewport sample_pages pdf.
Proof.
  eexists. split; [vm_compute; reflexivity |].
  intros H.
  destruct (H 1%nat _ _ eq_refl eq_refl) as (w & h & Hvp & Hformat).
  destruct Hvp as (viewport & values & Hget & Hvalues & Hunpack).
  simpl in Hget. inversion Hget; subst viewport; clear Hget.
  simpl in Hvalues. inversion Hvalues; subst values; clear Hvalues.
  simpl in Hunpack. inversion Hunpack; subst w h; clear Hunpack.
  simpl in Hformat. discriminate Hformat.
Qed.

(** The spec's example: on a page of height 800 the link with top 20 is
    placed at 780. *)
Example plain_link_800_20 :
  forall pdf page,
    pages pdf = [page] ->
    exists pdf',
      fst (plain_link (int 800) pdf (sample_link 10 20 100 50 "https://example.org/a")
             sample_state) = Ok pdf' /\
      pages pdf' = [mk_fpdf_page (page_format page) (page_images page)
                      (page_links page
                       ++ [mk_fpdf_link (int 10) (int 780) (int 100) (int 50)
                             (JStr "https://example.org/a")])].
Proof.
  intros pdf page Hpages. unfold plain_link. simpl.
  unfold bind, lift, fpdf_link_call. simpl.
  rewrite (on_current_page_last _ _ [] page Hpages). simpl.
  eexists. split; reflexivity.
Qed.

(** C3 as stated fails on a page whose viewport height differs from the
    first page's: the second sample page is 900 high, its link has top 2,
    and the link is placed at 798 = 800 - 2, not at 898. *)
Lemma plain_link_not_flipped_by_own_height :
  exists pdf,
    fst (sample_run false) = Ok (FpdfOutput pdf) /\
    ~ links_flipped_by_own_height sample_pages pdf.
Proof.
  eexists. split; [vm_compute; reflexivity |].
  intros H.
  edestruct (H 1%nat) as (links & Hitems & Hall).
  - reflexivity.
  - exists (JObj [("width", int 700); ("height", int 900)]), [int 700; int 900].
    repeat split; reflexivity.
  - reflexivity.
  - destruct Hitems as (page & l & Hpage & Hl & Hiter).
    simpl in Hpage. inversion Hpage; subst page; clear Hpage.
    simpl in Hl. inversion Hl; subst l; clear Hl.
    simpl in Hiter. inversion Hiter; subst links; clear Hiter.
    simpl in Hall. inversion Hall as [| link placed rest rest' Hplaced _]; subst.
    destruct Hplaced as (left & top & width & height & url & y & _ & Htop & _ & _ & _
                         & Hy & Heq).
    simpl in Htop. inversion Htop; subst top; clear Htop.
    simpl in Hy. inversion Hy; subst y; clear Hy.
    discriminate Heq.
Qed.

(** * Arithmetic of the scale factor *)

(** ** Order of binary64 values *)








(** ** The same expression in exact arithmetic *)

Lemma py_min_exact_fit (tw th w h : Q) :
  (0 < w)%Q -> (0 < h)%Q ->
  let f := py_min Qltb (th / h) (tw / w) in
  (w * f <= tw)%Q /\ (h * f <= th)%Q /\ (w * f == tw \/ h * f == th)%Q.
Proof.
  intros Hw Hh. unfold py_min, Qltb.
  assert (Hw0 : ~ (w == 0)%Q) by (intros E; rewrite E in Hw; discriminate Hw).
  assert (Hh0 : ~ (h == 0)%Q) by (intros E; rewrite E in Hh; discriminate Hh).
  destruct (Qle_bool (th / h) (tw / w)) eqn:E; simpl.
  - apply Qle_bool_iff in E. split; [| split].
    + apply Qle_trans with (w * (tw / w))%Q.
      * apply Qmult_le_l; assumption.
      * rewrite Qmult_div_r by assumption. apply Qle_refl.
    + rewrite Qmult_div_r by assumption. apply Qle_refl.
    + right. apply Qmult_div_r; assumption.
  - assert (Hlt : (tw / w < th / h)%Q).
    { apply Qnot_le_lt. intros Hle. apply Qle_bool_iff in Hle. congruence. }
    split; [| split].
    + rewrite Qmult_div_r by assumption. apply Qle_refl.
    + apply Qle_trans with (h * (th / h))%Q.
      * apply Qmult_le_l; [assumption |]. apply Qlt_le_weak. exact Hlt.
      * rewrite Qmult_div_r by assumption. apply Qle_refl.
    + left. apply Qmult_div_r; assumption.
Qed.

(** * Searchable mode *)

Section SearchableMode.

Variable requests_get : string -> outcome response.
Variable image_to_pdf : string -> outcome pdf_page.
Variable writer_write : PdfWriter -> outcome unit.

Lemma http_get_ok address st resp st' :
  http_get requests_get address st = (Ok resp, st') ->
  requests_get address = Ok resp /\
  st' = mk_state (self st) (files_dir st) (file_png st) (log st ++ [Get address]).
Proof.
  unfold http_get. intros H. inv_ok. split; [assumption | reflexivity].
Qed.

Lemma ocr_first_page_ok st page st' :
  ocr_first_page image_to_pdf st = (Ok page, st') ->
  exists data,
    file_png st = Some data /\ image_to_pdf data = Ok page /\
    st' = mk_state (self st) (files_dir st) (file_png st) (log st ++ [Ocr]).
Proof.
  unfold ocr_first_page. destruct (file_png st) as [data |]; intros H.
  - inversion H. exists data. repeat split; reflexivity.
  - discriminate H.
Qed.

Lemma add_annotation_last ws cur a :
  add_annotation (ws ++ [cur]) (List.length ws) a
  = Ok (ws ++ [mk_pdf_page (text_layer cur) (content_scale cur) (mediabox_width cur)
                 (mediabox_height cur) (annotations cur ++ [a])]).
Proof. unfold add_annotation. rewrite update_nth_last. reflexivity. Qed.

Lemma searchable_link_ok ws cur link st writer' st' :
  searchable_link (List.length ws) (ws ++ [cur]) link st = (Ok writer', st') ->
  st' = st /\
  exists placed,
    placed_searchable link placed /\
    writer' = ws ++ [mk_pdf_page (text_layer cur) (content_scale cur)
                       (mediabox_width cur) (mediabox_height cur)
                       (annotations cur ++ [placed])].
Proof.
  intros H. unfold searchable_link in H. inv_ok.
  match goal with
  | E : add_annotation _ _ _ = Ok _ |- _ =>
      rewrite add_annotation_last in E; inversion E; subst; clear E
  end.
  split; [reflexivity |].
  eexists. split; [| reflexivity].
  do 7 eexists. repeat split; eassumption.
Qed.

Lemma searchable_links_ok ws links : forall cur st writer' st',
  for_each links (searchable_link (List.length ws)) (ws ++ [cur]) st = (Ok writer', st') ->
  st' = st /\
  exists placed,
    Forall2 placed_searchable links placed /\
    writer' = ws ++ [mk_pdf_page (text_layer cur) (content_scale cur)
                       (mediabox_width cur) (mediabox_height cur)
                       (annotations cur ++ placed)].
Proof.
  induction links as [| link links IH]; intros cur st writer' st' H.
  - simpl in H. inv_ok. split; [reflexivity |].
    exists []. split; [constructor |]. rewrite app_nil_r. destruct cur; reflexivity.
  - simpl in H. inv_ok.
    match goal with
    | E : searchable_link _ _ _ _ = (Ok _, _) |- _ =>
        apply searchable_link_ok in E; destruct E as (-> & pl & Hpl & ->)
    end.
    apply IH in H. destruct H as (-> & pls & Hpls & ->).
    split; [reflexivity |].
    exists (pl :: pls). split; [constructor; assumption |].
    simpl. rewrite <- app_assoc. reflexivity.
Qed.

Lemma searchable_page_ok target_w target_h writer image_url st writer' st' md :
  metadata (self st) = Some md ->
  searchable_page requests_get image_to_pdf target_w target_h writer
    (List.length writer, image_url) st = (Ok writer', st') ->
  self st' = self st /\ files_dir st' = files_dir st /\ file_png st' <> None /\
  exists page,
    searchable_page_of requests_get image_to_pdf md target_w target_h
      (List.length writer, image_url) page /\
    writer' = writer ++ [page].
Proof.
  intros Hmd H. unfold searchable_page in H. inv_ok.
  repeat match goal with
  | E : http_get _ _ _ = (Ok _, _) |- _ =>
      apply http_get_ok in E; destruct E as (Himage & ->)
  | E : write_file _ _ = (Ok _, _) |- _ =>
      apply write_file_ok in E; destruct E as (Hdir & ->)
  | E : ocr_first_page _ _ = (Ok _, _) |- _ =>
      apply ocr_first_page_ok in E; destruct E as (data & Hdata & Hocr & ->)
  | E : links_of_page _ _ = (Ok _, _) |- _ =>
      apply links_of_page_ok in E; destruct E as (-> & md' & Hmd' & Hlinks)
  end.
  simpl in *. inversion Hdata; subst data; clear Hdata.
  rewrite Hmd in Hmd'. inversion Hmd'; subst md'; clear Hmd'.
  unfold add_page in H. apply searchable_links_ok in H.
  destruct H as (-> & placed & Hplaced & ->).
  simpl. repeat split; try reflexivity; try assumption; try discriminate.
  - symmetry. exact Hdir.
  - eexists. split; [| reflexivity].
    do 6 eexists. simpl. repeat split; eassumption.
Qed.

Lemma _generate_pdf_searchable_ok st u st' :
  _generate_pdf_searchable requests_get image_to_pdf writer_write st = (Ok u, st') ->
  exists md page0 target_w target_h writer,
    metadata (self st) = Some md /\ py_index md 0 = Ok page0 /\
    viewport_values page0 target_w target_h /\
    self st' = set_buffer (self st) (WriterOutput writer) /\
    file_png st' = None /\
    Forall2 (searchable_page_of requests_get image_to_pdf md target_w target_h)
      (enumerate (images_urls (self st))) writer.
Proof.
  unfold _generate_pdf_searchable. intros H. inv_ok.
  match goal with
  | E : first_viewport _ = (Ok ?a, _) |- _ =>
      destruct a as [target_w target_h]; apply first_viewport_ok in E;
      destruct E as (-> & md & page0 & Hmd & Hp0 & Hvp)
  end.
  inv_ok.
  match goal with
  | E : for_each _ _ _ _ = (Ok ?b, ?s) |- _ =>
      rename E into Hloop; rename b into writer; rename s into sloop
  end.
  match goal with
  | E : os_remove _ = (Ok _, _) |- _ => apply os_remove_ok in E; destruct E as (_ & ->)
  end.
  assert (HJ : self sloop = self st /\
               Forall2 (searchable_page_of requests_get image_to_pdf md target_w target_h)
                 (enumerate (images_urls (self st))) writer).
  { revert Hloop.
    apply (for_each_ok _
             (fun done writer s =>
                self s = self st /\
                Forall2 (searchable_page_of requests_get image_to_pdf md target_w target_h)
                  done writer)).
    - intros done [i image_url] rest b s b' s' Hitems (Hs & Hall) Hbody.
      apply enumerate_index in Hitems. subst i.
      rewrite (Forall2_length Hall) in Hbody.
      apply searchable_page_ok with (md := md) in Hbody; [| rewrite Hs; exact Hmd].
      destruct Hbody as (Hs' & _ & _ & page & Hpage & ->).
      split; [congruence |].
      apply Forall2_app; [exact Hall |].
      constructor; [| constructor].
      rewrite (Forall2_length Hall). exact Hpage.
    - split; [reflexivity | constructor]. }
  destruct HJ as (Hs & Hall).
  exists md, page0, target_w, target_h, writer. simpl. rewrite Hs.
  repeat split; assumption.
Qed.

End SearchableMode.

(** * The identifier and the class defaults *)

Lemma scan_none r s fuel : forall start,
  (forall p, (start <= p)%nat -> Re.rmatch r s p = None) ->
  Re.scan r s start fuel = None.
Proof.
  induction fuel as [| fuel IH]; intros start H; simpl.
  - rewrite (H start) by lia. reflexivity.
  - rewrite (H start) by lia. apply IH. intros p Hp. apply H. lia.
Qed.

(** A bare token is accepted and kept as it is. *)
Lemma post_init_bare_token self :
  is_token (resume_id self) = true -> __post_init__ self = Ok self.
Proof.
  unfold is_token, __post_init__. intros H.
  apply andb_true_iff in H. destruct H as [Hlen Hall].
  apply Nat.eqb_eq in Hlen.
  destruct (resume_id self) as [| c1 [| c2 [| c3 [| c4 [| c5 [| c6 [| c7 [| c8
    [| c9 [| c10 rest]]]]]]]]]]; simpl in Hlen; try discriminate Hlen.
  simpl in Hall.
  repeat match type of Hall with
  | (_ && _)%bool = true =>
      let H1 := fresh "Hc" in
      apply andb_true_iff in Hall; destruct Hall as [H1 Hall];
      unfold alnum_char in H1; simpl in H1
  end.
  unfold Re.search, pattern_id, alnum. simpl.
  rewrite Hc, Hc0, Hc1, Hc2, Hc3, Hc4, Hc5, Hc6, Hc7. reflexivity.
Qed.

(** A URL of the documented form is accepted and reduced to its token. *)
Lemma post_init_url_token self (token rest : string) :
  is_token token = true ->
  resume_id self = ("https://resume.io/r/" ++ token ++ rest)%string ->
  __post_init__ self = Ok (set_resume_id self token).
Proof.
  unfold is_token, __post_init__. intros H Hid. rewrite Hid. clear Hid.
  apply andb_true_iff in H. destruct H as [Hlen Hall].
  apply Nat.eqb_eq in Hlen.
  destruct token as [| c1 [| c2 [| c3 [| c4 [| c5 [| c6 [| c7 [| c8
    [| c9 [| c10 more]]]]]]]]]]; simpl in Hlen; try discriminate Hlen.
  simpl in Hall.
  repeat match type of Hall with
  | (_ && _)%bool = true =>
      let H1 := fresh "Hc" in
      apply andb_true_iff in Hall; destruct Hall as [H1 Hall];
      unfold alnum_char in H1; simpl in H1
  end.
  assert (Hid : Re.search pattern_id
                  ("https://resume.io/r/"
                   ++ String c1 (String c2 (String c3 (String c4 (String c5 (String c6
                        (String c7 (String c8 (String c9 "")))))))) ++ rest)%string
                = None).
  { apply scan_none. intros [| p] _; reflexivity. }
  rewrite Hid. clear Hid.
  unfold Re.search, pattern_url, alnum. simpl.
  rewrite Hc, Hc0, Hc1, Hc2, Hc3, Hc4, Hc5, Hc6, Hc7. simpl.
  unfold Re.group0. simpl. destruct rest; reflexivity.
Qed.

(** The only exception [__post_init__] raises is the client error, and it
    carries the input. *)
Lemma post_init_failure_carries_input self e :
  __post_init__ self = Raise e ->
  e = HTTPException 400 ("Invalid resume id: " ++ resume_id self).
Proof.
  unfold __post_init__.
  destruct (Re.search pattern_id (resume_id self)); [discriminate |].
  destruct (Re.search pattern_url (resume_id self)); [discriminate |].
  intros H. inversion H. reflexivity.
Qed.

(** C5 at the inputs where the code departs from it.  A token followed by
    a newline is neither a token nor a URL, and is accepted unchanged,
    newline included ([$] also matches before a final newline); and any
    character may stand for the dot of [resume.io/r/] (the dot of the
    pattern is not escaped). *)
Theorem post_init_accepts_non_identifiers :
  is_token ("abc123XYZ" ++ newline_string) = false /\
  __post_init__ (with_resume_id ("abc123XYZ" ++ newline_string))
  = Ok (with_resume_id ("abc123XYZ" ++ newline_string)) /\
  __post_init__ (with_resume_id "resumeXio/r/abc123XYZ")
  = Ok (with_resume_id "abc123XYZ").
Proof. repeat split; vm_compute; reflexivity. Qed.

(** Where the claim and the code agree on rejection. *)
Example post_init_rejects :
  __post_init__ (with_resume_id "abc123XY")
  = Raise (HTTPException 400 "Invalid resume id: abc123XY") /\
  __post_init__ (with_resume_id "https://resume.io/r/abc123X_Z")
  = Raise (HTTPException 400 "Invalid resume id: https://resume.io/r/abc123X_Z").
Proof. split; vm_compute; reflexivity. Qed.

Example post_init_url :
  __post_init__ (with_resume_id "https://resume.io/r/abc123XYZ/edit")
  = Ok (with_resume_id "abc123XYZ").
Proof. vm_compute. reflexivity. Qed.

(** Whatever the clock reads when an instance is built, an instance built
    without [cache_date] gets the stamp of the moment the module was
    imported. *)
Lemma construct_cache_date import_time construction_time id ext size r :
  construct (import_module import_time) construction_time id ext size None = Ok r ->
  cache_date r = cache_stamp import_time.
Proof.
  unfold construct, __post_init__. simpl.
  destruct (Re.search pattern_id id).
  - intros H. inversion H. reflexivity.
  - destruct (Re.search pattern_url id); intros H; inversion H. reflexivity.
Qed.

(** The clock reading at construction plays no part at all. *)
Lemma construct_ignores_clock cls t1 t2 id ext size cache :
  construct cls t1 id ext size cache = construct cls t2 id ext size cache.
Proof. reflexivity. Qed.

(** C6 at an input where the code departs from it: the module is imported
    on 1 January and the instance built on 30 June; its cache token is the
    stamp of 1 January, not the stamp of the construction. *)
Theorem default_cache_date_is_import_time :
  construct (import_module "2024-01-01T00:00:00.123456") "2024-06-30T12:00:00.654321"
    "abc123XYZ" None None None
  = Ok {| resume_id := "abc123XYZ"; extension := "png"; image_size := 1800;
          cache_date := "2024-01-01T00:00:00.12Z"; images_urls := [];
          metadata := None; buffer := None |} /\
  cache_stamp "2024-06-30T12:00:00.654321" = "2024-06-30T12:00:00.65Z".
Proof. split; vm_compute; reflexivity. Qed.

(** * The addresses of one run *)

Lemma hoare_bind {A B} P (m : M A) Q E (k : A -> M B) S :
  hoare P m Q E -> (forall a, hoare (Q a) (k a) S E) -> hoare P (bind m k) S E.
Proof.
  intros Hm Hk st HP. unfold bind. specialize (Hm st HP).
  destruct (m st) as [[a | e] st1].
  - apply Hk. exact Hm.
  - exact Hm.
Qed.

Lemma hoare_weaken {A} (P P' : state -> Prop) (m : M A) (Q Q' : A -> state -> Prop) E :
  (forall st, P' st -> P st) -> (forall a st, Q a st -> Q' a st) ->
  hoare P m Q E -> hoare P' m Q' E.
Proof.
  intros HP HQ Hm st H. specialize (Hm st (HP st H)).
  destruct (m st) as [[a | e] st1]; [apply HQ |]; exact Hm.
Qed.

Lemma hoare_lift {A} P (o : outcome A) : hoare P (lift o) (fun _ => P) P.
Proof. intros st H. unfold lift. destruct o; exact H. Qed.

Lemma hoare_ret {A} P (a : A) : hoare P (ret a) (fun _ => P) P.
Proof. intros st H. exact H. Qed.

Lemma hoare_get_self P : hoare P get_self (fun r st => P st /\ r = self st) P.
Proof. intros st H. unfold get_self. split; [exact H | reflexivity]. Qed.

Lemma hoare_for_each {A B} P (body : B -> A -> M B) items :
  (forall b x, In x items -> hoare P (body b x) (fun _ => P) P) ->
  forall b, hoare P (for_each items body b) (fun _ => P) P.
Proof.
  induction items as [| x rest IH]; intros Hbody b; simpl.
  - apply hoare_ret.
  - eapply hoare_bind.
    + apply Hbody. left. reflexivity.
    + intros b'. apply IH. intros b0 y Hy. apply Hbody. right. exact Hy.
Qed.

(** A computation that leaves the state alone. *)
Lemma hoare_reader {A} (f : ResumeioDownloader -> outcome A) (m : M A) P :
  (forall st, m st = (f (self st), st)) -> hoare P m (fun _ => P) P.
Proof. intros Hm st H. rewrite (Hm st). destruct (f (self st)); exact H. Qed.

Lemma requests_within_event r log0 st e :
  request_of r e -> requests_within r log0 st ->
  requests_within r log0
    (mk_state (self st) (files_dir st) (file_png st) (log st ++ [e])).
Proof.
  intros He (Hid & Hext & Hsize & Hcache & Hurls & events & Hlog & Hall).
  repeat split; try assumption.
  exists (events ++ [e]). simpl. split.
  - rewrite Hlog, app_assoc. reflexivity.
  - apply Forall_app. split; [exact Hall | constructor; [exact He | constructor]].
Qed.

Lemma hoare_assume {A} (P : state -> Prop) (fact : Prop) (m : M A) Q E :
  (forall st, P st -> fact) -> (fact -> hoare P m Q E) -> hoare P m Q E.
Proof. intros Hf Hm st H. exact (Hm (Hf st H) st H). Qed.

Lemma in_enumerate {A} (l : list A) i (x : A) : In (i, x) (enumerate l) -> In x l.
Proof. unfold enumerate. apply in_combine_r. Qed.

Section Addresses.

Variable requests_get : string -> outcome response.
Variable json_loads : string -> option json.
Variable image_to_pdf : string -> outcome pdf_page.
Variable load_image : string -> string -> outcome unit.
Variable writer_write : PdfWriter -> outcome unit.

Variable r0 : ResumeioDownloader.
Variable log0 : list event.

Lemma within_emit e :
  request_of r0 e ->
  hoare (requests_within r0 log0) (emit e)
    (fun _ => requests_within r0 log0) (requests_within r0 log0).
Proof. intros He st H. unfold emit. apply requests_within_event; assumption. Qed.

Lemma within_http_get address :
  request_of r0 (Get address) ->
  hoare (requests_within r0 log0) (http_get requests_get address)
    (fun _ => requests_within r0 log0) (requests_within r0 log0).
Proof.
  intros He. unfold http_get.
  eapply hoare_bind; [apply within_emit; exact He | intros ?; apply hoare_lift].
Qed.

Lemma within_get_resume_metadata :
  hoare (requests_within r0 log0) (_get_resume_metadata requests_get json_loads)
    (fun _ => requests_within r0 log0) (requests_within r0 log0).
Proof.
  unfold _get_resume_metadata.
  eapply hoare_bind; [apply hoare_get_self | intros r].
  apply (hoare_assume _ (resume_id r = resume_id r0 /\ cache_date r = cache_date r0)).
  { intros st ((Hid & _ & _ & Hcache & _) & ->). split; assumption. }
  intros (Hid & Hcache).
  eapply hoare_weaken; [intros st (H & _); exact H | intros a st H; exact H |].
  eapply hoare_bind.
  { apply within_http_get. left. rewrite Hid, Hcache. reflexivity. }
  intros request.
  eapply hoare_bind; [apply hoare_lift | intros top].
  eapply hoare_bind; [apply hoare_lift | intros md].
  intros st H. exact H.
Qed.

Lemma within_format_images_urls :
  hoare (requests_within r0 log0) _format_images_urls
    (fun _ => requests_within r0 log0) (requests_within r0 log0).
Proof.
  unfold _format_images_urls.
  eapply hoare_bind; [apply (hoare_reader metadata_of); apply self_metadata_reads |].
  intros md.
  eapply hoare_bind; [apply hoare_lift | intros n].
  apply hoare_for_each. intros [] page_id _ st H.
  destruct H as (Hid & Hext & Hsize & Hcache & Hurls & Hlog).
  unfold bind, get_self, put_self. simpl.
  repeat split; try assumption. simpl.
  apply Forall_app. split; [exact Hurls |].
  constructor; [| constructor].
  exists (Z.of_nat page_id). rewrite Hid, Hext, Hsize, Hcache. reflexivity.
Qed.

Lemma within_write_file data :
  hoare (requests_within r0 log0) (write_file data)
    (fun _ => requests_within r0 log0) (requests_within r0 log0).
Proof.
  intros st H. unfold write_file. destruct (files_dir st); [| exact H].
  destruct H as (Hid & Hext & Hsize & Hcache & Hurls & events & Hlog & Hall).
  repeat split; try assumption.
  exists (events ++ [FileWrite data]). simpl. split.
  - rewrite Hlog, app_assoc. reflexivity.
  - apply Forall_app. split; [exact Hall | constructor; [exact I | constructor]].
Qed.

Lemma within_ocr :
  hoare (requests_within r0 log0) (ocr_first_page image_to_pdf)
    (fun _ => requests_within r0 log0) (requests_within r0 log0).
Proof.
  intros st H. unfold ocr_first_page. destruct (file_png st) as [data |] eqn:E; [| exact H].
  assert (H' : requests_within r0 log0
                 (mk_state (self st) (files_dir st) (file_png st) (log st ++ [Ocr])))
    by (apply requests_within_event; [exact I | exact H]).
  rewrite E in H'. destruct (image_to_pdf data); exact H'.
Qed.

Lemma within_os_remove :
  hoare (requests_within r0 log0) os_remove
    (fun _ => requests_within r0 log0) (requests_within r0 log0).
Proof.
  intros st H. unfold os_remove. destruct (file_png st); [| exact H].
  destruct H as (Hid & Hext & Hsize & Hcache & Hurls & events & Hlog & Hall).
  repeat split; try assumption.
  exists (events ++ [FileRemove]). simpl. split.
  - rewrite Hlog, app_assoc. reflexivity.
  - apply Forall_app. split; [exact Hall | constructor; [exact I | constructor]].
Qed.

Lemma within_links P i : hoare P (links_of_page i) (fun _ => P) P.
Proof. apply (hoare_reader (links_of i)). apply links_of_page_reads. Qed.

Lemma within_searchable_link P i writer link :
  hoare P (searchable_link i writer link) (fun _ => P) P.
Proof.
  unfold searchable_link.
  repeat (eapply hoare_bind; [apply hoare_lift | intros ?]).
  apply hoare_lift.
Qed.

Lemma within_plain_link P h pdf link : hoare P (plain_link h pdf link) (fun _ => P) P.
Proof.
  unfold plain_link.
  repeat (eapply hoare_bind; [apply hoare_lift | intros ?]).
  apply hoare_lift.
Qed.

Lemma within_searchable_page target_w target_h writer i image_url :
  image_address_of r0 image_url ->
  hoare (requests_within r0 log0)
    (searchable_page requests_get image_to_pdf target_w target_h writer (i, image_url))
    (fun _ => requests_within r0 log0) (requests_within r0 log0).
Proof.
  intros Haddr. unfold searchable_page.
  eapply hoare_bind; [apply within_http_get; right; exact Haddr | intros image].
  eapply hoare_bind; [apply within_write_file | intros written].
  eapply hoare_bind; [apply within_ocr | intros page].
  eapply hoare_bind; [apply hoare_lift | intros quotient_h].
  eapply hoare_bind; [apply hoare_lift | intros quotient_w].
  eapply hoare_bind; [apply within_links | intros links].
  apply hoare_for_each. intros. apply within_searchable_link.
Qed.

Lemma within_plain_page w h type pdf i image_url :
  image_address_of r0 image_url ->
  hoare (requests_within r0 log0)
    (plain_page load_image w h type pdf (i, image_url))
    (fun _ => requests_within r0 log0) (requests_within r0 log0).
Proof.
  intros Haddr. unfold plain_page, fpdf_image_call.
  eapply hoare_bind.
  - eapply hoare_bind.
    + apply within_emit. exact Haddr.
    + intros emitted. eapply hoare_bind; [apply hoare_lift | intros loaded].
      apply hoare_lift.
  - intros pdf'. eapply hoare_bind; [apply within_links | intros links].
    apply hoare_for_each. intros. apply within_plain_link.
Qed.

Lemma within_store_buffer doc :
  hoare (requests_within r0 log0)
    (r <- get_self ;; put_self (set_buffer r doc))%py
    (fun _ => requests_within r0 log0) (requests_within r0 log0).
Proof. intros st H. exact H. Qed.

(** The page loop of either mode, over the addresses of the instance. *)
Lemma within_pages {B} (page : B -> nat * string -> M B) (k : B -> M unit) :
  (forall b i image_url,
      image_address_of r0 image_url ->
      hoare (requests_within r0 log0) (page b (i, image_url))
        (fun _ => requests_within r0 log0) (requests_within r0 log0)) ->
  (forall b, hoare (requests_within r0 log0) (k b)
               (fun _ => requests_within r0 log0) (requests_within r0 log0)) ->
  forall b0,
  hoare (requests_within r0 log0)
    (r <- get_self ;; b <- for_each (enumerate (images_urls r)) page b0 ;; k b)%py
    (fun _ => requests_within r0 log0) (requests_within r0 log0).
Proof.
  intros Hpage Hk b0.
  eapply hoare_bind; [apply hoare_get_self | intros r].
  apply (hoare_assume _ (Forall (image_address_of r0) (images_urls r))).
  { intros st ((_ & _ & _ & _ & Hurls & _) & ->). exact Hurls. }
  intros Hurls.
  eapply hoare_weaken; [intros st (H & _); exact H | intros a st H; exact H |].
  eapply hoare_bind; [| intros b; apply Hk].
  apply hoare_for_each. intros b [i image_url] Hin.
  apply Hpage. apply in_enumerate in Hin.
  rewrite Forall_forall in Hurls. apply Hurls. exact Hin.
Qed.

Lemma within_run searchable :
  hoare (requests_within r0 log0)
    (run requests_get json_loads image_to_pdf load_image writer_write searchable)
    (fun _ => requests_within r0 log0) (requests_within r0 log0).
Proof.
  unfold run.
  eapply hoare_bind; [apply within_get_resume_metadata | intros fetched].
  eapply hoare_bind; [apply within_format_images_urls | intros formatted].
  eapply hoare_bind.
  - destruct searchable.
    + unfold _generate_pdf_searchable.
      eapply hoare_bind;
        [apply (hoare_reader first_viewport_of); apply first_viewport_reads |].
      intros [target_w target_h].
      apply (within_pages
               (searchable_page requests_get image_to_pdf target_w target_h)
               (fun writer =>
                  os_remove ;; lift (writer_write writer) ;;
                  r <- get_self ;; put_self (set_buffer r (WriterOutput writer)))%py).
      * intros. apply within_searchable_page. assumption.
      * intros writer. eapply hoare_bind; [apply within_os_remove | intros removed].
        eapply hoare_bind; [apply hoare_lift | intros written].
        apply within_store_buffer.
    + unfold _generate_pdf.
      eapply hoare_bind;
        [apply (hoare_reader first_viewport_of); apply first_viewport_reads |].
      intros [w h].
      eapply hoare_bind; [apply hoare_get_self | intros r].
      apply (hoare_assume _ (Forall (image_address_of r0) (images_urls r))).
      { intros st ((_ & _ & _ & _ & Hurls & _) & ->). exact Hurls. }
      intros Hurls.
      eapply hoare_weaken; [intros st (H & _); exact H | intros a st H; exact H |].
      eapply hoare_bind; [| intros pdf; apply within_store_buffer].
      apply hoare_for_each. intros pdf [i image_url] Hin.
      apply within_plain_page. apply in_enumerate in Hin.
      rewrite Forall_forall in Hurls. apply Hurls. exact Hin.
  - intros generated. unfold self_buffer.
    eapply hoare_bind; [apply hoare_get_self | intros r].
    intros st (H & _). destruct (buffer r); exact H.
Qed.

End Addresses.

(** Within one run, every address requested (the metadata address, and
    each image address whether fetched by [requests] or by [FPDF]) is
    built from the identifier, the render parameters and the one cache
    token the instance holds, and the run leaves that token unchanged.
    This is the part of C6 the code satisfies. *)
Lemma run_addresses_share_cache_token
    requests_get json_loads image_to_pdf load_image writer_write searchable st :
  images_urls (self st) = [] ->
  exists events,
    log (snd (run requests_get json_loads image_to_pdf load_image writer_write searchable st))
    = log st ++ events /\
    Forall (request_of (self st)) events /\
    cache_date (self (snd (run requests_get json_loads image_to_pdf load_image writer_write
                             searchable st)))
    = cache_date (self st).
Proof.
  intros Hfresh.
  assert (H0 : requests_within (self st) (log st) st).
  { repeat split; try reflexivity.
    - rewrite Hfresh. constructor.
    - exists []. rewrite app_nil_r. split; [reflexivity | constructor]. }
  pose proof (within_run requests_get json_loads image_to_pdf load_image writer_write (self st) (log st)
                searchable st H0) as H.
  destruct (run requests_get json_loads image_to_pdf load_image writer_write searchable st)
    as [[doc | e] st']; simpl;
    destruct H as (_ & _ & _ & Hcache & _ & events & Hlog & Hall);
    exists events; repeat split; assumption.
Qed.

(** * The transient file *)

Lemma preserves_bind {A B} I (m : M A) (k : A -> M B) :
  preserves I m -> (forall a, preserves I (k a)) -> preserves I (bind m k).
Proof.
  intros Hm Hk st HI. unfold bind. specialize (Hm st HI).
  destruct (m st) as [[a | e] st1]; simpl in *.
  - apply Hk. exact Hm.
  - exact Hm.
Qed.

Lemma preserves_lift {A} I (o : outcome A) : preserves I (lift o).
Proof. intros st HI. exact HI. Qed.

Lemma preserves_ret {A} I (a : A) : preserves I (ret a).
Proof. intros st HI. exact HI. Qed.

Lemma preserves_raise {A} I e : preserves I (@raise A e).
Proof. intros st HI. exact HI. Qed.

Lemma preserves_get_self I : preserves I get_self.
Proof. intros st HI. exact HI. Qed.

Lemma preserves_for_each {A B} I (body : B -> A -> M B) items :
  (forall b x, In x items -> preserves I (body b x)) ->
  forall b, preserves I (for_each items body b).
Proof.
  induction items as [| x rest IH]; intros Hbody b; simpl.
  - apply preserves_ret.
  - apply preserves_bind.
    + apply Hbody. left. reflexivity.
    + intros b'. apply IH. intros b0 y Hy. apply Hbody. right. exact Hy.
Qed.

Lemma preserves_self_metadata I : preserves I self_metadata.
Proof.
  unfold self_metadata. apply preserves_bind; [apply preserves_get_self |].
  intros r. destruct (metadata r); [apply preserves_ret | apply preserves_raise].
Qed.


Lemma preserves_links_of_page I i : preserves I (links_of_page i).
Proof.
  unfold links_of_page.
  repeat (apply preserves_bind; [first [apply preserves_self_metadata | apply preserves_lift] |];
          intros ?).
  apply preserves_lift.
Qed.

Lemma preserves_searchable_link I i writer link : preserves I (searchable_link i writer link).
Proof.
  unfold searchable_link.
  repeat (apply preserves_bind; [apply preserves_lift |]; intros ?).
  apply preserves_lift.
Qed.



Section TransientFile.

Variable requests_get : string -> outcome response.
Variable image_to_pdf : string -> outcome pdf_page.
Variable writer_write : PdfWriter -> outcome unit.





(** What a page of searchable mode that succeeds adds to the log. *)
Lemma searchable_page_log target_w target_h writer i image_url st writer' st' :
  searchable_page requests_get image_to_pdf target_w target_h writer (i, image_url) st
  = (Ok writer', st') ->
  is_ok (requests_get image_url) = true /\
  log st' = log st ++ page_events requests_get image_url.
Proof.
  intros H. unfold searchable_page in H. inv_ok.
  repeat match goal with
  | E : http_get _ _ _ = (Ok _, _) |- _ =>
      apply http_get_ok in E; destruct E as (Himage & ->)
  | E : write_file _ _ = (Ok _, _) |- _ =>
      apply write_file_ok in E; destruct E as (Hdir & ->)
  | E : ocr_first_page _ _ = (Ok _, _) |- _ =>
      apply ocr_first_page_ok in E; destruct E as (data & Hdata & Hocr & ->)
  | E : links_of_page _ _ = (Ok _, _) |- _ =>
      apply links_of_page_ok in E; destruct E as (-> & md' & Hmd' & Hlinks)
  end.
  match goal with
  | E : for_each ?links (searchable_link ?i) ?w ?s = (Ok _, _) |- _ =>
      pose proof (preserves_for_each (eq s) (searchable_link i) links
                    (fun b x _ => preserves_searchable_link (eq s) i b x) w s eq_refl)
        as Hsame;
      rewrite E in Hsame; simpl in Hsame; subst st'
  end.
  unfold page_events. rewrite Himage. simpl.
  split; [reflexivity |]. repeat rewrite <- app_assoc. reflexivity.
Qed.

(** What the page loop of searchable mode has logged once it has
    completed: every address fetched, written and read by OCR, in order. *)
Lemma searchable_pages_log target_w target_h urls st writer st' :
  for_each (enumerate urls) (searchable_page requests_get image_to_pdf target_w target_h)
    [] st = (Ok writer, st') ->
  Forall (fun address => exists image, requests_get address = Ok image) urls /\
  log st' = log st ++ flat_map (page_events requests_get) urls.
Proof.
  intros Hloop.
  assert (HJ : Forall (fun address => exists image, requests_get address = Ok image)
                 (map snd (enumerate urls)) /\
               log st' = log st ++ flat_map (page_events requests_get)
                                     (map snd (enumerate urls))).
  { revert Hloop.
    apply (for_each_ok _
             (fun done (_ : PdfWriter) s =>
                Forall (fun address => exists image, requests_get address = Ok image)
                  (map snd done) /\
                log s = log st ++ flat_map (page_events requests_get) (map snd done))).
    - intros done [i image_url] rest b s b' s' _ (Hall & Hlog) Hbody.
      apply searchable_page_log in Hbody. destruct Hbody as (Hok & Hlog').
      rewrite map_app, flat_map_app. simpl. rewrite app_nil_r. split.
      + apply Forall_app. split; [exact Hall |]. constructor; [| constructor].
        destruct (requests_get image_url) as [image |]; [| discriminate Hok].
        exists image. reflexivity.
      + rewrite Hlog', Hlog, <- app_assoc. reflexivity.
    - simpl. rewrite app_nil_r. split; [constructor | reflexivity]. }
  rewrite map_snd_enumerate in HJ. exact HJ.
Qed.



End TransientFile.


(** When the serialisation raises, the file has been removed already. *)
Example failed_serialisation_has_removed_file :
  fst (_generate_pdf_searchable sample_requests_get sample_image_to_pdf failing_writer_write
         sample_loaded_state)
  = Raise (CollaboratorError "pypdf") /\
  file_png (snd (_generate_pdf_searchable sample_requests_get sample_image_to_pdf
                   failing_writer_write sample_loaded_state)) = None /\
  buffer (self (snd (_generate_pdf_searchable sample_requests_get sample_image_to_pdf
                       failing_writer_write sample_loaded_state))) = None.
Proof. repeat split; vm_compute; reflexivity. Qed.

(** What is left when a page fails: with an OCR engine that raises on the
    first page, the image written for that page stays on disk. *)
Example failed_ocr_leaves_file :
  fst (_generate_pdf_searchable sample_requests_get failing_image_to_pdf sample_writer_write
         sample_loaded_state)
  = Raise (CollaboratorError "pytesseract") /\
  file_png (snd (_generate_pdf_searchable sample_requests_get failing_image_to_pdf
                   sample_writer_write sample_loaded_state)) = Some "PNG" /\
  ~ In FileRemove
      (log (snd (_generate_pdf_searchable sample_requests_get failing_image_to_pdf
                   sample_writer_write sample_loaded_state))).
Proof.
  split; [vm_compute; reflexivity |]. split; [vm_compute; reflexivity |].
  vm_compute. intros [H | [H | [H | []]]]; discriminate H.
Qed.

(** * Metadata retrieval *)

Section Metadata.

Variable requests_get : string -> outcome response.
Variable json_loads : string -> option json.
Variable image_to_pdf : string -> outcome pdf_page.
Variable load_image : string -> string -> outcome unit.
Variable writer_write : PdfWriter -> outcome unit.

(** C8, as the code has it: when the body of the metadata response is not
    JSON, is not a JSON object, or is an object without [pages], [run]
    raises [JSONDecodeError], [AttributeError] or [TypeError] respectively
    (the module has no error type of its own), having made the metadata
    request and no other, and leaves no buffer and no image address behind.
    The status code of the response plays no part. *)
Theorem metadata_fault_aborts_run searchable st resp e :
  requests_get (METADATA_URL (resume_id (self st)) (cache_date (self st))) = Ok resp ->
  metadata_fault (json_loads (text resp)) = Some e ->
  exists st',
    run requests_get json_loads image_to_pdf load_image writer_write searchable st = (Raise e, st') /\
    log st' = log st ++ [Get (METADATA_URL (resume_id (self st)) (cache_date (self st)))] /\
    buffer (self st') = buffer (self st) /\
    images_urls (self st') = images_urls (self st) /\
    file_png st' = file_png st.
Proof.
  intros Hget Hfault.
  unfold run, _get_resume_metadata, _format_images_urls, self_metadata, http_get.
  unfold bind, emit, lift, get_self, put_self, ret. simpl. rewrite Hget.
  unfold metadata_fault in Hfault.
  destruct (json_loads (text resp)) as [[| b | n | s | items | fields] |];
    simpl; try (inversion Hfault; subst; eexists; repeat split; reflexivity).
  destruct (assoc "pages" fields); [discriminate Hfault |].
  inversion Hfault; subst. simpl. eexists. repeat split; reflexivity.
Qed.

End Metadata.

Lemma metadata_fault_aborts_run_witness :
  sample_requests_get
    (METADATA_URL (resume_id (self sample_state)) (cache_date (self sample_state)))
  = Ok (mk_response 200 "{...}" "PNG") /\
  metadata_fault (no_pages_json_loads "{...}") = Some TypeError /\
  exists st',
    run sample_requests_get no_pages_json_loads sample_image_to_pdf sample_load_image sample_writer_write
      true sample_state = (Raise TypeError, st') /\
    log st'
    = log sample_state
      ++ [Get (METADATA_URL (resume_id (self sample_state))
                 (cache_date (self sample_state)))] /\
    buffer (self st') = buffer (self sample_state) /\
    images_urls (self st') = images_urls (self sample_state) /\
    file_png st' = file_png sample_state.
Proof.
  split; [reflexivity |]. split; [reflexivity |].
  apply (metadata_fault_aborts_run sample_requests_get no_pages_json_loads
           sample_image_to_pdf sample_load_image sample_writer_write true sample_state
           (mk_response 200 "{...}" "PNG") TypeError); reflexivity.
Defined.

(** C8 as stated fails twice over.  A response with status 500 whose body
    is valid metadata is processed like any other: the run returns a
    document and fetches the images.  And when the body cannot be decoded,
    the exception is [JSONDecodeError], not a [MetadataUnavailable]. *)
Lemma metadata_errors_are_not_typed :
  (is_ok (fst (run http500_requests_get sample_json_loads sample_image_to_pdf
                 sample_load_image sample_writer_write true sample_state)) = true /\
   In (Get (IMAGE_URL "abc123XYZ" 1 "png" "2024-01-02T03:04:05.12Z" 1800))
     (log (snd (run http500_requests_get sample_json_loads sample_image_to_pdf
                  sample_load_image sample_writer_write true sample_state)))) /\
  ~ fails_as_metadata_unavailable
      (run http500_requests_get sample_json_loads sample_image_to_pdf sample_load_image sample_writer_write
         true sample_state) /\
  ~ fails_as_metadata_unavailable
      (run sample_requests_get broken_json_loads sample_image_to_pdf sample_load_image sample_writer_write
         true sample_state).
Proof.
  split; [split; [vm_compute; reflexivity | vm_compute; auto] |].
  split.
  - intros (e & He & _). vm_compute in He. discriminate He.
  - intros (e & He & Hclass & _). vm_compute in He. inversion He; subst e.
    vm_compute in Hclass. discriminate Hclass.
Qed.

(** * Running twice on one instance *)

Lemma Forall2_nth_error_l {A B} (R : A -> B -> Prop) l l' i x :
  Forall2 R l l' -> nth_error l i = Some x ->
  exists y, nth_error l' i = Some y /\ R x y.
Proof.
  intros H. revert i. induction H as [| x0 y0 l l' Hxy _ IH]; intros i Hi.
  - destruct i; discriminate Hi.
  - destruct i as [| i]; simpl in Hi.
    + inversion Hi; subst. exists y0. split; [reflexivity | exact Hxy].
    + apply IH in Hi. exact Hi.
Qed.

Lemma enumerate_nth_error {A} (l : list A) i (x : A) :
  nth_error l i = Some x -> nth_error (enumerate l) i = Some (i, x).
Proof.
  unfold enumerate.
  assert (G : forall base i,
            nth_error l i = Some x ->
            nth_error (combine (seq base (List.length l)) l) i = Some ((base + i)%nat, x)).
  { induction l as [| y l IH]; intros base k Hk.
    - destruct k; discriminate Hk.
    - destruct k as [| k]; simpl in *.
      + inversion Hk. rewrite Nat.add_0_r. reflexivity.
      + rewrite (IH (S base) k Hk). f_equal. f_equal. lia. }
  intros Hi. apply (G 0%nat i Hi).
Qed.

(** A loop over the image addresses cannot return when there are more
    addresses than metadata entries: the item past the last entry has no
    entry to take its links from. *)
Lemma addresses_within_metadata {B} (R : nat * string -> B -> Prop) items urls out :
  (forall item page, R item page ->
     exists links, page_link_items (JArr items) (fst item) links) ->
  Forall2 R (enumerate urls) out ->
  (List.length urls <= List.length items)%nat.
Proof.
  intros HR Hall.
  destruct (Nat.le_gt_cases (List.length urls) (List.length items)) as [Hle | Hgt];
    [exact Hle | exfalso].
  destruct (nth_error urls (List.length items)) as [image_url |] eqn:E.
  - apply enumerate_nth_error in E.
    destruct (Forall2_nth_error_l _ _ _ _ _ Hall E) as (page & _ & Hpage).
    apply HR in Hpage. destruct Hpage as (links & entry & l & Hentry & _).
    simpl in Hentry.
    destruct (nth_error items (List.length items)) eqn:E'; [| discriminate Hentry].
    assert (Hlt : (List.length items < List.length items)%nat)
      by (apply nth_error_Some; rewrite E'; discriminate).
    lia.
  - apply nth_error_None in E. lia.
Qed.

Lemma same_request_refl st : same_request (self st) st.
Proof. unfold same_request. repeat split. Qed.

Lemma same_request_log r st e :
  same_request r st ->
  same_request r (mk_state (self st) (files_dir st) (file_png st) (log st ++ [e])).
Proof. intros H. exact H. Qed.

Section Rerun.

Variable requests_get : string -> outcome response.
Variable json_loads : string -> option json.
Variable image_to_pdf : string -> outcome pdf_page.
Variable load_image : string -> string -> outcome unit.
Variable writer_write : PdfWriter -> outcome unit.




Lemma run_searchable_ok st doc st' :
  run requests_get json_loads image_to_pdf load_image writer_write true st = (Ok doc, st') ->
  exists resp top items page0 target_w target_h writer,
    requests_get (METADATA_URL (resume_id (self st)) (cache_date (self st))) = Ok resp /\
    json_loads (text resp) = Some top /\
    py_get top "pages" = Ok (JArr items) /\
    nth_error items 0 = Some page0 /\ viewport_values page0 target_w target_h /\
    doc = WriterOutput writer /\
    self st' = mk_downloader (resume_id (self st)) (extension (self st))
                 (image_size (self st)) (cache_date (self st))
                 (images_urls (self st) ++ image_urls_for (self st) (List.length items))
                 (Some (JArr items)) (Some doc) /\
    Forall2 (searchable_page_of requests_get image_to_pdf (JArr items) target_w target_h)
      (enumerate (images_urls (self st) ++ image_urls_for (self st) (List.length items)))
      writer.
Proof.
  unfold run. intros H. inv_ok.
  match goal with
  | E : _get_resume_metadata _ _ _ = _ |- _ =>
      apply _get_resume_metadata_ok in E;
      destruct E as (resp & top & md & Hget & Hjson & Hpages & ->)
  end.
  match goal with
  | E : _format_images_urls _ = _ |- _ =>
      apply _format_images_urls_ok in E; destruct E as (md' & n & Hmd' & Hlen & ->)
  end.
  simpl in Hmd'. inversion Hmd'; subst md'; clear Hmd'.
  match goal with
  | E : _generate_pdf_searchable _ _ _ _ = _ |- _ =>
      apply _generate_pdf_searchable_ok in E;
      destruct E as (md' & page0 & tw & th & writer & Hmd' & Hp0 & Hvp & Hself & _ & Hall)
  end.
  simpl in Hmd'. inversion Hmd'; subst md'; clear Hmd'.
  destruct (metadata_is_array _ _ _ _ Hp0 Hvp) as (items & -> & Hitem0).
  simpl in Hlen. inversion Hlen; subst n; clear Hlen.
  unfold self_buffer in H. inv_ok. rewrite Hself in H. simpl in H.
  unfold ret in H. inversion H; subst; clear H.
  exists resp, top, items, page0, tw, th, writer.
  repeat split; try assumption.
Qed.

(** A run that returns started with no image address, and its document
    has one page per metadata entry. *)
Lemma run_ok_fresh searchable st doc st' :
  run requests_get json_loads image_to_pdf load_image writer_write searchable st = (Ok doc, st') ->
  exists items,
    metadata (self st') = Some (JArr items) /\ items <> [] /\
    images_urls (self st) = [] /\
    images_urls (self st') = image_urls_for (self st) (List.length items) /\
    page_count doc = List.length items.
Proof.
  intros Hrun.
  assert (G : exists items out_length,
            metadata (self st') = Some (JArr items) /\ items <> [] /\
            images_urls (self st')
            = images_urls (self st) ++ image_urls_for (self st) (List.length items) /\
            page_count doc = out_length /\
            out_length = List.length (images_urls (self st')) /\
            (List.length (images_urls (self st')) <= List.length items)%nat).
  { destruct searchable.
    - apply run_searchable_ok in Hrun.
      destruct Hrun as (resp & top & items & page0 & tw & th & writer & _ & _ & _ & Hp0 & _
                        & -> & Hself & Hall).
      exists items, (List.length writer). rewrite Hself. simpl.
      repeat split; try reflexivity.
      + intros ->. discriminate Hp0.
      + rewrite <- (Forall2_length Hall). apply enumerate_length.
      + eapply addresses_within_metadata; [| exact Hall].
        intros item page (image & source & a & b & links & placed & _ & _ & _ & _
                          & Hlinks & _).
        exists links. exact Hlinks.
    - apply run_plain_ok in Hrun.
      destruct Hrun as (resp & top & items & page0 & w & h & pdf & _ & _ & _ & Hp0 & _
                        & -> & _ & Hself & Hall).
      exists items, (List.length (pages pdf)). rewrite Hself. simpl.
      repeat split; try reflexivity.
      + intros ->. discriminate Hp0.
      + rewrite <- (Forall2_length Hall). apply enumerate_length.
      + eapply addresses_within_metadata; [| exact Hall].
        intros item page (_ & _ & links & Hlinks & _).
        exists links. exact Hlinks. }
  destruct G as (items & n & Hmd & Hne & Hurls & Hcount & Hn & Hle).
  exists items.
  assert (Hfresh : images_urls (self st) = []).
  { rewrite Hurls in Hle. rewrite length_app in Hle. unfold image_urls_for in Hle.
    rewrite length_map, length_seq in Hle.
    destruct (images_urls (self st)); [reflexivity | simpl in Hle; lia]. }
  repeat split; try assumption.
  - rewrite Hurls, Hfresh. reflexivity.
  - rewrite Hcount, Hn, Hurls, Hfresh. unfold image_urls_for. simpl.
    rewrite length_map, length_seq. reflexivity.
Qed.



End Rerun.


(** * The pages of a returned document *)

Lemma image_urls_for_nth r n i :
  (i < n)%nat ->
  nth_error (image_urls_for r n) i
  = Some (IMAGE_URL (resume_id r) (Z.of_nat (i + 1)) (extension r) (cache_date r)
            (image_size r)).
Proof.
  intros Hi. unfold image_urls_for. rewrite nth_error_map.
  rewrite nth_error_seq. destruct (Nat.ltb_spec i n) as [_ | Hge]; [| lia].
  simpl. rewrite Nat.add_1_r. reflexivity.
Qed.

Lemma fresh_item st n i k image_url :
  images_urls (self st) = [] ->
  nth_error (enumerate (images_urls (self st) ++ image_urls_for (self st) n)) i
  = Some (k, image_url) ->
  k = i /\
  image_url = IMAGE_URL (resume_id (self st)) (Z.of_nat (i + 1)) (extension (self st))
                (cache_date (self st)) (image_size (self st)).
Proof.
  intros Hfresh Hnth. rewrite Hfresh in Hnth. simpl in Hnth.
  apply nth_error_enumerate in Hnth. destruct Hnth as [-> Hurl].
  split; [reflexivity |].
  assert (Hi : (i < n)%nat).
  { assert (Hlt : (i < List.length (image_urls_for (self st) n))%nat)
      by (apply nth_error_Some; rewrite Hurl; discriminate).
    unfold image_urls_for in Hlt. rewrite length_map, length_seq in Hlt. exact Hlt. }
  rewrite (image_urls_for_nth (self st) n i Hi) in Hurl. inversion Hurl. reflexivity.
Qed.

(** The output of a run on a fresh instance, page by page: there is one
    output page per metadata entry, and the page of entry [i] is made from
    the address of page [i + 1]. *)
Lemma fresh_pages {B} (R : nat * string -> B -> Prop) st (items : list json)
    (out : list B) :
  images_urls (self st) = [] ->
  Forall2 R
    (enumerate (images_urls (self st) ++ image_urls_for (self st) (List.length items)))
    out ->
  List.length out = List.length items /\
  forall i page,
    nth_error items i = Some page ->
    exists o,
      nth_error out i = Some o /\
      R (i, IMAGE_URL (resume_id (self st)) (Z.of_nat (i + 1)) (extension (self st))
              (cache_date (self st)) (image_size (self st))) o.
Proof.
  intros Hfresh Hall. rewrite Hfresh in Hall. simpl in Hall. split.
  - rewrite <- (Forall2_length Hall), enumerate_length. unfold image_urls_for.
    rewrite length_map, length_seq. reflexivity.
  - intros i page Hi.
    assert (Hlt : (i < List.length items)%nat)
      by (apply nth_error_Some; rewrite Hi; discriminate).
    pose proof (image_urls_for_nth (self st) _ i Hlt) as Hurl.
    apply enumerate_nth_error in Hurl.
    destruct (Forall2_nth_error_l _ _ _ _ _ Hall Hurl) as (o & Ho & HR).
    exists o. split; assumption.
Qed.

Lemma page_link_items_entry items i page links :
  nth_error items i = Some page -> page_link_items (JArr items) i links ->
  exists l, py_get page "links" = Ok l /\ py_iter l = Ok links.
Proof.
  intros Hi (page' & l & Hp & Hl & Hiter). simpl in Hp. rewrite Hi in Hp.
  inversion Hp; subst page'. exists l. split; assumption.
Qed.



Section PagesOfARun.

Variable requests_get : string -> outcome response.
Variable json_loads : string -> option json.
Variable image_to_pdf : string -> outcome pdf_page.
Variable load_image : string -> string -> outcome unit.
Variable writer_write : PdfWriter -> outcome unit.

(** C3, as the code has it: the document a run of plain mode returns has
    one page per metadata entry, and for every entry [i] and every link of
    its link list, in order, output page [i] carries the rectangle with
    origin (left, H - top), size (width, height) and the link's url, and
    no other link, where H is the second value of the FIRST entry's
    viewport, the height every output page is given, not the height of
    entry [i]'s own viewport. *)
Theorem plain_links_flipped_by_first_height st doc st' :
  run requests_get json_loads image_to_pdf load_image writer_write false st = (Ok doc, st') ->
  exists items page0 w h pdf,
    metadata (self st') = Some (JArr items) /\
    nth_error items 0 = Some page0 /\ viewport_values page0 w h /\
    doc = FpdfOutput pdf /\
    List.length (pages pdf) = List.length items /\
    forall i page,
      nth_error items i = Some page ->
      exists l links out,
        py_get page "links" = Ok l /\ py_iter l = Ok links /\
        nth_error (pages pdf) i = Some out /\
        Forall2
          (fun link placed =>
             exists left top width height url y,
               py_getitem link "left" = Ok left /\ py_getitem link "top" = Ok top /\
               py_getitem link "width" = Ok width /\
               py_getitem link "height" = Ok height /\
               py_getitem link "url" = Ok url /\
               py_sub h top = Ok y /\
               placed = mk_fpdf_link left y width height url)
          links (page_links out).
Proof.
  intros Hrun.
  destruct (run_ok_fresh requests_get json_loads image_to_pdf load_image writer_write
              false st doc st' Hrun) as (items0 & _ & _ & Hfresh & _).
  apply run_plain_ok in Hrun.
  destruct Hrun as (resp & top & items & page0 & w & h & pdf & _ & _ & _ & Hp0 & Hvp
                    & -> & _ & Hself & Hall).
  destruct (fresh_pages _ st items (pages pdf) Hfresh Hall) as (Hlen & Hpages).
  exists items, page0, w, h, pdf. rewrite Hself. simpl.
  repeat split; try assumption; try reflexivity.
  intros i page Hi.
  destruct (Hpages i page Hi) as (out & Hout & _ & _ & links & Hlinks & Hplaced).
  simpl in Hlinks.
  destruct (page_link_items_entry _ _ _ _ Hi Hlinks) as (l & Hl & Hiter).
  exists l, links, out. repeat split; assumption.
Qed.

(** C4: the document a run of searchable mode returns has one page per
    metadata entry, and for every entry [i] and every link of its own link
    list, in order, output page [i] (the OCR page of the image fetched for
    entry [i]) carries, after the annotations the OCR page already had, an
    annotation whose rectangle runs from (left, top) to (left + width,
    top + height) with the link's url: the metadata coordinates as they
    are, with no vertical flip. *)
Theorem searchable_links_not_flipped st doc st' :
  run requests_get json_loads image_to_pdf load_image writer_write true st = (Ok doc, st') ->
  exists items writer,
    metadata (self st') = Some (JArr items) /\
    doc = WriterOutput writer /\
    List.length writer = List.length items /\
    forall i page,
      nth_error items i = Some page ->
      exists l links image source out placed,
        py_get page "links" = Ok l /\ py_iter l = Ok links /\
        requests_get
          (IMAGE_URL (resume_id (self st)) (Z.of_nat (i + 1)) (extension (self st))
             (cache_date (self st)) (image_size (self st))) = Ok image /\
        image_to_pdf (content image) = Ok source /\
        nth_error writer i = Some out /\
        annotations out = annotations source ++ placed /\
        Forall2
          (fun link a =>
             exists left top width height url x2 y2,
               py_getitem link "left" = Ok left /\ py_getitem link "top" = Ok top /\
               py_getitem link "width" = Ok width /\
               py_getitem link "height" = Ok height /\
               py_getitem link "url" = Ok url /\
               py_add left width = Ok x2 /\ py_add top height = Ok y2 /\
               a = mk_annotation (left, top, x2, y2) url)
          links placed.
Proof.
  intros Hrun.
  destruct (run_ok_fresh requests_get json_loads image_to_pdf load_image writer_write
              true st doc st' Hrun) as (items0 & _ & _ & Hfresh & _).
  apply run_searchable_ok in Hrun.
  destruct Hrun as (resp & top & items & page0 & tw & th & writer & _ & _ & _ & _ & _
                    & -> & Hself & Hall).
  destruct (fresh_pages _ st items writer Hfresh Hall) as (Hlen & Hpages).
  exists items, writer. rewrite Hself. simpl.
  repeat split; try assumption; try reflexivity.
  intros i page Hi.
  destruct (Hpages i page Hi) as (out & Hout & image & source & a & b & links & placed
                                  & Himage & Hocr & _ & _ & Hlinks & Hplaced & ->).
  simpl in Hlinks, Himage.
  destruct (page_link_items_entry _ _ _ _ Hi Hlinks) as (l & Hl & Hiter).
  exists l, links, image, source. eexists. exists placed.
  repeat split; try eassumption. reflexivity.
Qed.


End PagesOfARun.

(** ** The sample document *)

Lemma plain_links_flipped_by_first_height_witness :
  sample_run false = (Ok sample_plain_document, snd (sample_run false)) /\
  exists items page0 w h pdf,
    metadata (self (snd (sample_run false))) = Some (JArr items) /\
    nth_error items 0 = Some page0 /\ viewport_values page0 w h /\
    sample_plain_document = FpdfOutput pdf /\
    List.length (pages pdf) = List.length items /\
    forall i page,
      nth_error items i = Some page ->
      exists l links out,
        py_get page "links" = Ok l /\ py_iter l = Ok links /\
        nth_error (pages pdf) i = Some out /\
        Forall2
          (fun link placed =>
             exists left top width height url y,
               py_getitem link "left" = Ok left /\ py_getitem link "top" = Ok top /\
               py_getitem link "width" = Ok width /\
               py_getitem link "height" = Ok height /\
               py_getitem link "url" = Ok url /\
               py_sub h top = Ok y /\
               placed = mk_fpdf_link left y width height url)
          links (page_links out).
Proof.
  split; [vm_compute; reflexivity |].
  apply (plain_links_flipped_by_first_height sample_requests_get sample_json_loads
           sample_image_to_pdf sample_load_image sample_writer_write sample_state
           sample_plain_document (snd (sample_run false))).
  vm_compute. reflexivity.
Defined.

(** The links of the sample as plain mode places them: the link with top
    20 at 780 = 800 - 20 on the first page, and the link with top 2 at
    798 = 800 - 2 on the second, whose own viewport is 900 high. *)
Example sample_links :
  exists pdf,
    fst (sample_run false) = Ok (FpdfOutput pdf) /\
    map page_links (pages pdf)
    = [[mk_fpdf_link (int 10) (int 780) (int 100) (int 50) (JStr "https://example.org/a")];
       [mk_fpdf_link (int 1) (int 798) (int 3) (int 4) (JStr "https://example.org/b")]].
Proof. eexists. split; vm_compute; reflexivity. Qed.

Lemma searchable_links_not_flipped_witness :
  sample_run true = (Ok sample_searchable_document, snd (sample_run true)) /\
  exists items writer,
    metadata (self (snd (sample_run true))) = Some (JArr items) /\
    sample_searchable_document = WriterOutput writer /\
    List.length writer = List.length items /\
    forall i page,
      nth_error items i = Some page ->
      exists l links image source out placed,
        py_get page "links" = Ok l /\ py_iter l = Ok links /\
        sample_requests_get
          (IMAGE_URL (resume_id (self sample_state)) (Z.of_nat (i + 1))
             (extension (self sample_state)) (cache_date (self sample_state))
             (image_size (self sample_state))) = Ok image /\
        sample_image_to_pdf (content image) = Ok source /\
        nth_error writer i = Some out /\
        annotations out = annotations source ++ placed /\
        Forall2
          (fun link a =>
             exists left top width height url x2 y2,
               py_getitem link "left" = Ok left /\ py_getitem link "top" = Ok top /\
               py_getitem link "width" = Ok width /\
               py_getitem link "height" = Ok height /\
               py_getitem link "url" = Ok url /\
               py_add left width = Ok x2 /\ py_add top height = Ok y2 /\
               a = mk_annotation (left, top, x2, y2) url)
          links placed.
Proof.
  split; [vm_compute; reflexivity |].
  apply (searchable_links_not_flipped sample_requests_get sample_json_loads
           sample_image_to_pdf sample_load_image sample_writer_write sample_state
           sample_searchable_document (snd (sample_run true))).
  vm_compute. reflexivity.
Defined.

(** The annotations of the sample: (10, 20) to (110, 70) on the first
    page, (1, 2) to (4, 6) on the second. *)
Example sample_annotations :
  exists writer,
    fst (sample_run true) = Ok (WriterOutput writer) /\
    map annotations writer
    = [[mk_annotation (int 10, int 20, int 110, int 70) (JStr "https://example.org/a")];
       [mk_annotation (int 1, int 2, int 4, int 6) (JStr "https://example.org/b")]].
Proof. eexists. split; vm_compute; reflexivity. Qed.


(** The spec's example, in binary64: an OCR page of 612 x 792 and a target
    of 500 x 700 give the factor 500 / 612, and the scaled page is exactly
    500 wide and less than 700 high. *)
Example scale_612_792_to_500_700 :
  exists a b,
    py_truediv_float (int 700) 792 = Ok a /\
    py_truediv_float (int 500) 612 = Ok b /\
    py_min PrimFloat.ltb a b = PrimFloat.div 500 612 /\
    scaled_page_fits 500 700
      (scale_by (mk_pdf_page "text" 1 612 792 []) (py_min PrimFloat.ltb a b)).
Proof.
  eexists _, _. split; [vm_compute; reflexivity |].
  split; [vm_compute; reflexivity |].
  split; [vm_compute; reflexivity |].
  unfold scaled_page_fits. split; [vm_compute; reflexivity |].
  split; [vm_compute; reflexivity |].
  left. vm_compute. reflexivity.
Qed.


(** * Two runs with the same inputs *)

Lemma rel_bind {A B} P (m : M A) Q (k : A -> M B) S :
  rel P m Q -> (forall a, rel (Q a) (k a) S) -> rel P (bind m k) S.
Proof.
  intros Hm Hk s1 s2 HP. unfold bind. specialize (Hm s1 s2 HP).
  destruct (m s1) as [[a1 | e1] t1], (m s2) as [[a2 | e2] t2]; try contradiction.
  - destruct Hm as [<- HQ]. apply (Hk a1 t1 t2 HQ).
  - exact Hm.
Qed.

Lemma rel_weaken {A} (P P' : state -> state -> Prop) (m : M A)
    (Q Q' : A -> state -> state -> Prop) :
  (forall s1 s2, P' s1 s2 -> P s1 s2) ->
  (forall a s1 s2, Q a s1 s2 -> Q' a s1 s2) ->
  rel P m Q -> rel P' m Q'.
Proof.
  intros HP HQ Hm s1 s2 H. specialize (Hm s1 s2 (HP s1 s2 H)).
  destruct (m s1) as [[a1 | e1] t1], (m s2) as [[a2 | e2] t2]; try contradiction.
  - destruct Hm as [Ha Hq]. split; [exact Ha | apply HQ; exact Hq].
  - exact Hm.
Qed.

(** A computation that reads of the instance what the two runs agree on,
    and changes nothing. *)
Lemma rel_reader {A} (f : ResumeioDownloader -> outcome A) (m : M A) P :
  (forall st, m st = (f (self st), st)) ->
  (forall s1 s2, P s1 s2 -> f (self s1) = f (self s2)) ->
  rel P m (fun a t1 t2 => P t1 t2 /\ f (self t1) = Ok a).
Proof.
  intros Hm HP s1 s2 H. rewrite (Hm s1), (Hm s2), <- (HP s1 s2 H).
  destruct (f (self s1)); [| reflexivity].
  split; [reflexivity |]. split; [exact H | reflexivity].
Qed.

Lemma rel_lift {A} P (o : outcome A) : rel P (lift o) (fun _ => P).
Proof.
  intros s1 s2 H. unfold lift. destruct o; [split; [reflexivity | exact H] | reflexivity].
Qed.

Lemma rel_ret {A} P (a : A) : rel P (ret a) (fun _ => P).
Proof. intros s1 s2 H. unfold ret. split; [reflexivity | exact H]. Qed.

Lemma rel_for_each {A B} P (body : B -> A -> M B) items :
  (forall b x, rel P (body b x) (fun _ => P)) ->
  forall b, rel P (for_each items body b) (fun _ => P).
Proof.
  intros Hbody. induction items as [| x rest IH]; intros b; simpl.
  - apply rel_ret.
  - eapply rel_bind; [apply Hbody | intros b'; apply IH].
Qed.

(** A computation that starts by reading a part [g] of the instance on
    which the two runs agree. *)
Lemma rel_get_self {A X} (g : ResumeioDownloader -> X) (k : X -> M A) P Q :
  (forall s1 s2, P s1 s2 -> g (self s1) = g (self s2)) ->
  (forall x, rel (fun s1 s2 => P s1 s2 /\ g (self s1) = x) (k x) Q) ->
  rel P (bind get_self (fun r => k (g r))) Q.
Proof.
  intros Hg Hk s1 s2 H. unfold bind, get_self.
  rewrite <- (Hg s1 s2 H).
  apply (Hk (g (self s1)) s1 s2). split; [exact H | reflexivity].
Qed.

Lemma agree_metadata f s1 s2 : agree f s1 s2 -> metadata (self s1) = metadata (self s2).
Proof. intros (_ & H & _). exact H. Qed.

Lemma agree_urls f s1 s2 : agree f s1 s2 -> images_urls (self s1) = images_urls (self s2).
Proof. intros ((_ & _ & _ & _ & H) & _). exact H. Qed.

Lemma agree_drop_file s1 s2 : agree true s1 s2 -> agree false s1 s2.
Proof. intros (Hs & Hm & Hd & _). repeat split; try assumption; try apply Hs. discriminate. Qed.

Lemma rel_assume {A} (P : state -> state -> Prop) (fact : Prop) (m : M A) Q :
  (forall s1 s2, P s1 s2 -> fact) -> (fact -> rel P m Q) -> rel P m Q.
Proof. intros Hf Hm s1 s2 H. exact (Hm (Hf s1 s2 H) s1 s2 H). Qed.

Lemma rel_emit f e : rel (agree f) (emit e) (fun _ => agree f).
Proof. intros s1 s2 H. unfold emit. split; [reflexivity | exact H]. Qed.

Lemma rel_write_file f data : rel (agree f) (write_file data) (fun _ => agree true).
Proof.
  intros s1 s2 (Hs & Hm & Hd & _). unfold write_file. rewrite <- Hd.
  destruct (files_dir s1); [| reflexivity].
  split; [reflexivity |]. split; [exact Hs |]. split; [exact Hm |].
  split; reflexivity.
Qed.

Lemma rel_os_remove : rel (agree true) os_remove (fun _ => agree true).
Proof.
  intros s1 s2 (Hs & Hm & Hd & Hf). unfold os_remove. rewrite <- (Hf eq_refl).
  destruct (file_png s1); [| reflexivity].
  split; [reflexivity |]. split; [exact Hs |]. split; [exact Hm |].
  split; [exact Hd | reflexivity].
Qed.

(** Storing the document makes the two buffers equal, whatever they held. *)
Lemma rel_store_buffer f doc :
  rel (agree f) (r <- get_self ;; put_self (set_buffer r doc))%py
    (fun _ t1 t2 => agree f t1 t2 /\ buffer (self t1) = buffer (self t2)).
Proof.
  intros s1 s2 ((Hid & Hext & Hsize & Hcache & Hurls) & Hm & Hd & Hf).
  unfold bind, get_self, put_self. simpl.
  split; [reflexivity |]. split; [| reflexivity].
  split; [repeat split; assumption |]. split; [exact Hm |]. split; assumption.
Qed.

Lemma metadata_of_agree f s1 s2 :
  agree f s1 s2 -> metadata_of (self s1) = metadata_of (self s2).
Proof. intros H. unfold metadata_of. rewrite (agree_metadata f s1 s2 H). reflexivity. Qed.

Lemma rel_links_of_page f i : rel (agree f) (links_of_page i) (fun _ => agree f).
Proof.
  eapply rel_weaken; [| | apply (rel_reader (links_of i) _ (agree f))].
  - intros s1 s2 H. exact H.
  - intros a s1 s2 (H & _). exact H.
  - apply links_of_page_reads.
  - intros s1 s2 H. unfold links_of. rewrite (metadata_of_agree f s1 s2 H). reflexivity.
Qed.

Lemma rel_searchable_link P i writer link :
  rel P (searchable_link i writer link) (fun _ => P).
Proof.
  unfold searchable_link.
  repeat (eapply rel_bind; [apply rel_lift | intros ?]).
  apply rel_lift.
Qed.

Lemma rel_plain_link P h pdf link : rel P (plain_link h pdf link) (fun _ => P).
Proof.
  unfold plain_link.
  repeat (eapply rel_bind; [apply rel_lift | intros ?]).
  apply rel_lift.
Qed.

Section Determinism.

Variable requests_get : string -> outcome response.
Variable json_loads : string -> option json.
Variable image_to_pdf : string -> outcome pdf_page.
Variable load_image : string -> string -> outcome unit.
Variable writer_write : PdfWriter -> outcome unit.

Lemma rel_http_get f address :
  rel (agree f) (http_get requests_get address) (fun _ => agree f).
Proof.
  unfold http_get. eapply rel_bind; [apply rel_emit | intros ?; apply rel_lift].
Qed.

Lemma rel_ocr : rel (agree true) (ocr_first_page image_to_pdf) (fun _ => agree true).
Proof.
  intros s1 s2 (Hs & Hm & Hd & Hf). unfold ocr_first_page. rewrite <- (Hf eq_refl).
  destruct (file_png s1) as [data |]; [| reflexivity].
  destruct (image_to_pdf data); [| reflexivity].
  split; [reflexivity |]. split; [exact Hs |]. split; [exact Hm |].
  split; [exact Hd | intros _; reflexivity].
Qed.

Lemma rel_searchable_page target_w target_h writer item :
  rel (agree false)
    (searchable_page requests_get image_to_pdf target_w target_h writer item)
    (fun _ => agree true).
Proof.
  unfold searchable_page. destruct item as [i image_url].
  eapply rel_bind; [apply rel_http_get | intros image].
  eapply rel_bind; [apply rel_write_file | intros done].
  eapply rel_bind; [apply rel_ocr | intros page].
  eapply rel_bind; [apply rel_lift | intros quotient_h].
  eapply rel_bind; [apply rel_lift | intros quotient_w].
  eapply rel_bind; [apply rel_links_of_page | intros links].
  apply rel_for_each. intros. apply rel_searchable_link.
Qed.

Lemma rel_plain_page f w h type pdf item :
  rel (agree f) (plain_page load_image w h type pdf item) (fun _ => agree f).
Proof.
  unfold plain_page, fpdf_image_call. destruct item as [i image_url].
  eapply rel_bind.
  - eapply rel_bind; [apply rel_emit | intros ?].
    eapply rel_bind; [apply rel_lift | intros ?]. apply rel_lift.
  - intros pdf'. eapply rel_bind; [apply rel_links_of_page | intros links].
    apply rel_for_each. intros. apply rel_plain_link.
Qed.

(** The page loop of searchable mode writes the file before it reads it,
    so from its first page on the two runs see the same file. *)
Lemma rel_searchable_pages target_w target_h items :
  items <> [] ->
  rel (agree false)
    (for_each items (searchable_page requests_get image_to_pdf target_w target_h) [])
    (fun _ => agree true).
Proof.
  destruct items as [| x rest]; [contradiction | intros _]. simpl.
  eapply rel_bind; [apply rel_searchable_page | intros writer].
  apply rel_for_each. intros b y.
  eapply rel_weaken; [| | apply rel_searchable_page].
  - apply agree_drop_file.
  - intros a s1 s2 H. exact H.
Qed.

Lemma first_viewport_of_agree f s1 s2 :
  agree f s1 s2 -> first_viewport_of (self s1) = first_viewport_of (self s2).
Proof.
  intros H. unfold first_viewport_of. rewrite (metadata_of_agree f s1 s2 H). reflexivity.
Qed.

Lemma rel_generate_pdf f :
  rel (agree f) (_generate_pdf load_image)
    (fun _ t1 t2 => agree f t1 t2 /\ buffer (self t1) = buffer (self t2)).
Proof.
  unfold _generate_pdf.
  eapply rel_bind.
  { apply (rel_reader first_viewport_of _ (agree f)).
    - apply first_viewport_reads.
    - apply first_viewport_of_agree. }
  intros [w h].
  apply (rel_get_self (fun r => (images_urls r, extension r))
           (fun inputs =>
              pdf <- for_each (enumerate (fst inputs)) (plain_page load_image w h (snd inputs))
                       (set_auto_page_break (new_FPDF w h) false) ;;
              r <- get_self ;; put_self (set_buffer r (FpdfOutput pdf)))%py).
  { intros s1 s2 (((_ & Hext & _ & _ & Hurls) & _) & _). rewrite Hext, Hurls. reflexivity. }
  intros inputs.
  eapply rel_bind.
  { eapply rel_weaken; [| | apply (rel_for_each (agree f))].
    - intros s1 s2 ((H & _) & _). exact H.
    - intros a s1 s2 H. exact H.
    - intros. apply rel_plain_page. }
  intros pdf. apply rel_store_buffer.
Qed.

Lemma first_viewport_needs_address st size :
  has_address st -> first_viewport_of (self st) = Ok size -> images_urls (self st) <> [].
Proof.
  intros Haddr Hsize Hnone. unfold first_viewport_of, metadata_of in Hsize.
  destruct (metadata (self st)) as [md |] eqn:Hmd; [| discriminate Hsize].
  specialize (Haddr Hnone md Hmd).
  destruct (py_index md 0); [discriminate Haddr | discriminate Hsize].
Qed.

Lemma enumerate_nil {A} (l : list A) : l <> [] -> enumerate l <> [].
Proof. destruct l; [contradiction | discriminate]. Qed.

Lemma rel_generate_pdf_searchable :
  rel (fun s1 s2 => agree false s1 s2 /\ has_address s1)
    (_generate_pdf_searchable requests_get image_to_pdf writer_write)
    (fun _ t1 t2 => agree false t1 t2 /\ buffer (self t1) = buffer (self t2)).
Proof.
  unfold _generate_pdf_searchable.
  eapply rel_bind.
  { apply (rel_reader first_viewport_of _
             (fun s1 s2 => agree false s1 s2 /\ has_address s1)).
    - apply first_viewport_reads.
    - intros s1 s2 (H & _). apply (first_viewport_of_agree false). exact H. }
  intros [target_w target_h].
  apply (rel_get_self images_urls
           (fun urls =>
              writer <- for_each (enumerate urls)
                          (searchable_page requests_get image_to_pdf target_w target_h) [] ;;
              os_remove ;;
              lift (writer_write writer) ;;
              r <- get_self ;; put_self (set_buffer r (WriterOutput writer)))%py).
  { intros s1 s2 ((H & _) & _). apply (agree_urls false). exact H. }
  intros urls.
  apply (rel_assume _ (urls <> [])).
  { intros s1 s2 (((_ & Haddr) & Hsize) & Hurls). subst urls.
    apply (first_viewport_needs_address _ _ Haddr Hsize). }
  intros Hurls.
  eapply rel_bind.
  { eapply rel_weaken; [| | apply (rel_searchable_pages target_w target_h _
                                   (enumerate_nil _ Hurls))].
    - intros s1 s2 (((H & _) & _) & _). exact H.
    - intros a s1 s2 H. exact H. }
  intros writer.
  eapply rel_bind; [apply rel_os_remove | intros done].
  eapply rel_bind; [apply rel_lift | intros written].
  eapply rel_weaken; [| | apply (rel_store_buffer true)].
  - intros s1 s2 H. exact H.
  - intros a s1 s2 (H & Hb). split; [apply agree_drop_file; exact H | exact Hb].
Qed.

(** The metadata fetched replaces whatever metadata the instance held: two
    instances with the same inputs hold the same metadata afterwards. *)
Lemma rel_get_resume_metadata :
  rel (fun s1 s2 => same_inputs (self s1) (self s2) /\ files_dir s1 = files_dir s2)
    (_get_resume_metadata requests_get json_loads) (fun _ => agree false).
Proof.
  intros s1 s2 ((Hid & Hext & Hsize & Hcache & Hurls) & Hd).
  unfold _get_resume_metadata, http_get, bind, get_self, emit, lift, put_self. simpl.
  rewrite <- Hid, <- Hcache.
  destruct (requests_get (METADATA_URL (resume_id (self s1)) (cache_date (self s1))))
    as [request |]; [| reflexivity].
  destruct (json_loads (text request)) as [top |]; [| reflexivity].
  destruct (py_get top "pages") as [md |]; [| reflexivity].
  split; [reflexivity |]. simpl.
  split; [repeat split; assumption |]. split; [reflexivity |].
  split; [exact Hd | discriminate].
Qed.

Lemma py_len_zero md : py_len md = Ok 0%nat -> is_ok (py_index md 0) = false.
Proof.
  destruct md as [| b | n | s | items | fields]; simpl; intros H; try discriminate H;
    try reflexivity.
  - destruct s; [reflexivity | discriminate H].
  - destruct items; [reflexivity | discriminate H].
Qed.

Lemma image_urls_for_same_inputs r1 r2 n :
  same_inputs r1 r2 -> image_urls_for r1 n = image_urls_for r2 n.
Proof.
  intros (Hid & Hext & Hsize & Hcache & _). unfold image_urls_for.
  rewrite Hid, Hext, Hsize, Hcache. reflexivity.
Qed.

Lemma rel_format_images_urls :
  rel (agree false) _format_images_urls
    (fun _ t1 t2 => agree false t1 t2 /\ has_address t1).
Proof.
  intros s1 s2 (Hs & Hm & Hd & Hf).
  destruct (metadata (self s1)) as [md |] eqn:Hmd.
  - destruct (py_len md) as [n | e] eqn:Hlen.
    + rewrite (_format_images_urls_run s1 md n Hmd Hlen).
      rewrite (_format_images_urls_run s2 md n) by (first [exact Hlen | symmetry; exact Hm]).
      split; [reflexivity |]. split.
      * split.
        -- rewrite (image_urls_for_same_inputs _ _ n Hs).
           destruct Hs as (Hid & Hext & Hsize & Hcache & Hurls).
           repeat split; simpl; try assumption. rewrite Hurls. reflexivity.
        -- simpl. split; [rewrite Hmd; exact Hm |]. split; [exact Hd | discriminate].
      * intros Hnone md' Hmd'. simpl in Hnone, Hmd'.
        rewrite Hmd in Hmd'. inversion Hmd'; subst md'.
        apply app_eq_nil in Hnone. destruct Hnone as [_ Hnew].
        unfold image_urls_for in Hnew. apply map_eq_nil in Hnew.
        destruct n; [| discriminate Hnew]. apply py_len_zero. exact Hlen.
    + unfold _format_images_urls.
      rewrite (bind_eq_ok _ _ s1 md s1) by (rewrite self_metadata_reads; unfold metadata_of;
                                            rewrite Hmd; reflexivity).
      rewrite (bind_eq_ok _ _ s2 md s2) by (rewrite self_metadata_reads; unfold metadata_of;
                                            rewrite <- Hm; reflexivity).
      rewrite (bind_eq_raise _ _ s1 e s1) by (unfold lift; rewrite Hlen; reflexivity).
      rewrite (bind_eq_raise _ _ s2 e s2) by (unfold lift; rewrite Hlen; reflexivity).
      reflexivity.
  - unfold _format_images_urls.
    rewrite (bind_eq_raise _ _ s1 AttributeError s1)
      by (rewrite self_metadata_reads; unfold metadata_of; rewrite Hmd; reflexivity).
    rewrite (bind_eq_raise _ _ s2 AttributeError s2)
      by (rewrite self_metadata_reads; unfold metadata_of; rewrite <- Hm; reflexivity).
    reflexivity.
Qed.

Lemma rel_self_buffer :
  rel (fun s1 s2 => buffer (self s1) = buffer (self s2)) self_buffer (fun _ _ _ => True).
Proof.
  intros s1 s2 H. unfold self_buffer, bind, get_self. rewrite <- H.
  destruct (buffer (self s1)); [split; [reflexivity | exact I] | reflexivity].
Qed.

Lemma rel_run searchable :
  rel (fun s1 s2 => same_inputs (self s1) (self s2) /\ files_dir s1 = files_dir s2)
    (run requests_get json_loads image_to_pdf load_image writer_write searchable)
    (fun _ _ _ => True).
Proof.
  unfold run.
  eapply rel_bind; [apply rel_get_resume_metadata | intros done].
  eapply rel_bind; [apply rel_format_images_urls | intros formatted].
  eapply rel_bind.
  - destruct searchable.
    + apply rel_generate_pdf_searchable.
    + eapply rel_weaken; [| | apply (rel_generate_pdf false)].
      * intros s1 s2 (H & _). exact H.
      * intros a s1 s2 H. exact H.
  - intros generated.
    eapply rel_weaken; [| | apply rel_self_buffer].
    + intros s1 s2 (_ & H). exact H.
    + intros a s1 s2 H. exact H.
Qed.

(** C9, as the code has it: the outcome of a run is fixed by the
    identifier, the render parameters and the cache token of the instance
    TOGETHER WITH the image addresses the instance has collected so far.
    Two runs in the same mode, against the same collaborators and with the
    same directory for the transient file, from instances that agree on
    these five fields, have the same outcome: the same document, hence the
    same page count and the same annotations, or the same exception.  The
    metadata and the buffer the instances hold, the file the runs find on
    disk and their logs may differ. *)
Theorem same_addresses_same_outcome searchable s1 s2 :
  resume_id (self s1) = resume_id (self s2) ->
  extension (self s1) = extension (self s2) ->
  image_size (self s1) = image_size (self s2) ->
  cache_date (self s1) = cache_date (self s2) ->
  images_urls (self s1) = images_urls (self s2) ->
  files_dir s1 = files_dir s2 ->
  fst (run requests_get json_loads image_to_pdf load_image writer_write searchable s1)
  = fst (run requests_get json_loads image_to_pdf load_image writer_write searchable s2).
Proof.
  intros Hid Hext Hsize Hcache Hurls Hd.
  assert (H : same_inputs (self s1) (self s2) /\ files_dir s1 = files_dir s2)
    by (repeat split; assumption).
  pose proof (rel_run searchable s1 s2 H) as Hrel.
  destruct (run requests_get json_loads image_to_pdf load_image writer_write searchable s1)
    as [[doc1 | e1] t1];
  destruct (run requests_get json_loads image_to_pdf load_image writer_write searchable s2)
    as [[doc2 | e2] t2]; simpl; try contradiction.
  - destruct Hrel as (-> & _). reflexivity.
  - subst e2. reflexivity.
Qed.

End Determinism.

Lemma same_addresses_same_outcome_witness :
  resume_id (self sample_state) = resume_id (self sample_state_stale) /\
  extension (self sample_state) = extension (self sample_state_stale) /\
  image_size (self sample_state) = image_size (self sample_state_stale) /\
  cache_date (self sample_state) = cache_date (self sample_state_stale) /\
  images_urls (self sample_state) = images_urls (self sample_state_stale) /\
  files_dir sample_state = files_dir sample_state_stale /\
  fst (run sample_requests_get sample_json_loads sample_image_to_pdf sample_load_image
         sample_writer_write true sample_state)
  = fst (run sample_requests_get sample_json_loads sample_image_to_pdf sample_load_image
           sample_writer_write true sample_state_stale).
Proof.
  repeat (split; [reflexivity |]).
  apply (same_addresses_same_outcome sample_requests_get sample_json_loads
           sample_image_to_pdf sample_load_image sample_writer_write true sample_state
           sample_state_stale);
    reflexivity.
Defined.

(** C9 as stated fails: the identifier, the render parameters and the
    cache token do not fix the outcome.  The instance a first run leaves
    has all four unchanged, and a second run on it raises [IndexError]
    where the first returned a document of two pages. *)
Lemma rerun_changes_outcome :
  resume_id (self (snd (sample_run true))) = resume_id (self sample_state) /\
  extension (self (snd (sample_run true))) = extension (self sample_state) /\
  image_size (self (snd (sample_run true))) = image_size (self sample_state) /\
  cache_date (self (snd (sample_run true))) = cache_date (self sample_state) /\
  files_dir (snd (sample_run true)) = files_dir sample_state /\
  fst (sample_run true) = Ok sample_searchable_document /\
  page_count sample_searchable_document = 2%nat /\
  fst (sample_second_run true) = Raise IndexError /\
  ~ outcome_fixed_by_request sample_requests_get sample_json_loads sample_image_to_pdf
      sample_load_image sample_writer_write true /\
  ~ outcome_fixed_by_request sample_requests_get sample_json_loads sample_image_to_pdf
      sample_load_image sample_writer_write false.
Proof.
  do 8 (split; [vm_compute; reflexivity |]).
  split; intros H.
  - specialize (H sample_state (snd (sample_run true))
                  eq_refl eq_refl eq_refl eq_refl eq_refl).
    vm_compute in H. discriminate H.
  - specialize (H sample_state (snd (sample_run false))
                  eq_refl eq_refl eq_refl eq_refl eq_refl).
    vm_compute in H. discriminate H.
Qed.

(** * Further properties: the identifier *)

Lemma substring_zero s : forall start, substring start 0 s = "".
Proof.
  induction s as [| a s IH]; intros [| start]; simpl; try reflexivity. apply IH.
Qed.

Lemma substring_get s : forall start n c,
  String.get start s = Some c ->
  substring start (S n) s = String c (substring (S start) n s).
Proof.
  induction s as [| a s IH]; intros start n c Hget.
  - destruct start; discriminate Hget.
  - destruct start as [| start]; simpl in Hget.
    + inversion Hget; subst. simpl. destruct s; reflexivity.
    + simpl. apply IH. exact Hget.
Qed.

Lemma substring_all s : substring 0 (String.length s) s = s.
Proof. induction s as [| a s IH]; simpl; [reflexivity | rewrite IH; reflexivity]. Qed.

Lemma substring_last s : forall n c,
  String.length s = S n -> String.get n s = Some c ->
  s = (substring 0 n s ++ String c "")%string.
Proof.
  induction s as [| a s IH]; intros n c Hlen Hget; [discriminate Hlen |].
  destruct n as [| n]; simpl in *.
  - inversion Hget; subst. destruct s; [reflexivity | discriminate Hlen].
  - f_equal. apply IH; [lia | exact Hget].
Qed.

Lemma rmatch_alnum s pos :
  Re.rmatch alnum s pos
  = match String.get pos s with
    | Some d => if alnum_char d then Some (S pos) else None
    | None => None
    end.
Proof. reflexivity. Qed.

(** A run of [n] characters of the class, matched from [start]. *)
Lemma alnum_run s : forall n start e,
  Re.iter n (Re.rmatch alnum s) start = Some e ->
  e = (start + n)%nat /\
  String.length (substring start n s) = n /\
  forallb alnum_char (list_ascii_of_string (substring start n s)) = true.
Proof.
  induction n as [| n IH]; intros start e H.
  - simpl in H. inversion H. rewrite substring_zero. repeat split. lia.
  - change (match Re.rmatch alnum s start with
            | Some p => Re.iter n (Re.rmatch alnum s) p
            | None => None
            end = Some e) in H.
    rewrite rmatch_alnum in H.
    destruct (String.get start s) as [c |] eqn:Hget; [| discriminate H].
    destruct (alnum_char c) eqn:Hc; [| discriminate H].
    apply IH in H. destruct H as (He & Hlen & Hall).
    rewrite (substring_get _ _ _ _ Hget).
    change (list_ascii_of_string (String c (substring (S start) n s)))
      with (c :: list_ascii_of_string (substring (S start) n s)).
    change (String.length (String c (substring (S start) n s)))
      with (S (String.length (substring (S start) n s))).
    repeat split; [lia | rewrite Hlen; reflexivity |].
    simpl forallb. rewrite Hc. exact Hall.
Qed.

Lemma scan_some r s fuel : forall start m,
  Re.scan r s start fuel = Some m -> Re.rmatch r s (fst m) = Some (snd m).
Proof.
  induction fuel as [| fuel IH]; intros start m H; simpl in H.
  - destruct (Re.rmatch r s start) eqn:E; [| discriminate H].
    inversion H; subst. exact E.
  - destruct (Re.rmatch r s start) eqn:E.
    + inversion H; subst. exact E.
    + apply IH in H. exact H.
Qed.

(** What [pattern_id] accepts: a token, or a token and a final newline. *)
Lemma pattern_id_accepts s m :
  Re.search pattern_id s = Some m ->
  is_token s = true \/
  exists token, is_token token = true /\ s = (token ++ newline_string)%string.
Proof.
  intros H. apply scan_some in H. destruct m as [start e]. simpl in H.
  unfold pattern_id in H.
  change (match (if (start =? 0)%nat then Some start else None) with
          | Some p =>
              match Re.iter 9 (Re.rmatch alnum s) p with
              | Some q => Re.rmatch Re.Eol s q
              | None => None
              end
          | None => None
          end = Some e) in H.
  destruct (start =? 0)%nat eqn:Hstart; [| discriminate H].
  apply Nat.eqb_eq in Hstart. subst start.
  destruct (Re.iter 9 (Re.rmatch alnum s) 0) as [p |] eqn:Hrun; [| discriminate H].
  apply alnum_run in Hrun. destruct Hrun as (-> & Hlen & Hall).
  cbn [Re.rmatch Nat.add] in H.
  destruct (9 =? String.length s)%nat eqn:H9.
  - left. apply Nat.eqb_eq in H9. unfold is_token.
    rewrite H9 in Hlen, Hall. rewrite substring_all in Hall.
    rewrite <- H9, Nat.eqb_refl. exact Hall.
  - destruct (10 =? String.length s)%nat eqn:H10; [| discriminate H].
    apply Nat.eqb_eq in H10.
    destruct (String.get 9 s) as [c |] eqn:Hget; [| discriminate H].
    destruct (Ascii.eqb c Re.newline) eqn:Hc; [| discriminate H].
    apply Ascii.eqb_eq in Hc. subst c.
    right. exists (substring 0 9 s). split.
    + unfold is_token. rewrite Hlen, Nat.eqb_refl. exact Hall.
    + apply substring_last; [symmetry; exact H10 | exact Hget].
Qed.

(** What [pattern_url] extracts is a token. *)
Lemma pattern_url_extracts s m :
  Re.search pattern_url s = Some m -> is_token (Re.group0 s m) = true.
Proof.
  intros H. apply scan_some in H. destruct m as [start e]. simpl fst in H. simpl snd in H.
  unfold pattern_url in H.
  change (match Re.rmatch
                  (Re.LookBehind 12
                     (Re.Cat (Re.lit "resume") (Re.Cat Re.Dot (Re.lit "io/r/")))) s start with
          | Some p => Re.iter 9 (Re.rmatch alnum s) p
          | None => None
          end = Some e) in H.
  destruct (Re.rmatch
              (Re.LookBehind 12 (Re.Cat (Re.lit "resume") (Re.Cat Re.Dot (Re.lit "io/r/"))))
              s start) as [p |] eqn:Hlook; [| discriminate H].
  assert (Hp : p = start).
  { cbn [Re.rmatch] in Hlook. destruct (start <? 12)%nat; [discriminate Hlook |].
    match type of Hlook with
    | match ?x with _ => _ end = _ => destruct x as [q |]; [| discriminate Hlook]
    end.
    destruct (q =? start)%nat; inversion Hlook. reflexivity. }
  subst p. apply alnum_run in H. destruct H as (-> & Hlen & Hall).
  unfold Re.group0. simpl fst. simpl snd.
  replace (start + 9 - start)%nat with 9%nat by lia.
  unfold is_token. rewrite Hlen, Nat.eqb_refl. exact Hall.
Qed.

Lemma set_resume_id_same self : set_resume_id self (resume_id self) = self.
Proof. destruct self; reflexivity. Qed.

Lemma post_init_shape self r :
  __post_init__ self = Ok r ->
  r = set_resume_id self (resume_id r) /\
  (is_token (resume_id r) = true \/
   exists token,
     is_token token = true /\ resume_id self = (token ++ newline_string)%string /\
     r = self).
Proof.
  unfold __post_init__.
  destruct (Re.search pattern_id (resume_id self)) as [m |] eqn:Hid.
  - intros H. inversion H; subst r. split; [symmetry; apply set_resume_id_same |].
    destruct (pattern_id_accepts _ _ Hid) as [Htoken | (token & Htoken & Heq)].
    + left. exact Htoken.
    + right. exists token. repeat split; assumption.
  - destruct (Re.search pattern_url (resume_id self)) as [m |] eqn:Hurl;
      [| discriminate].
    intros H. inversion H; subst r. simpl. split; [reflexivity |].
    left. apply (pattern_url_extracts _ _ Hurl).
Qed.

(** X1: an identifier given as a bare token (nine ASCII letters or digits)
    passes [__post_init__] and is kept exactly as given, together with
    every other field. *)
Theorem bare_token_is_kept self :
  is_token (resume_id self) = true -> __post_init__ self = Ok self.
Proof. apply post_init_bare_token. Qed.

Lemma bare_token_is_kept_witness :
  is_token (resume_id (with_resume_id "abc123XYZ")) = true /\
  __post_init__ (with_resume_id "abc123XYZ") = Ok (with_resume_id "abc123XYZ").
Proof.
  split; [reflexivity |].
  apply (bare_token_is_kept (with_resume_id "abc123XYZ")). reflexivity.
Defined.

(** X2: an identifier given as [https://resume.io/r/<token>] followed by
    anything (a path, a query, nothing) is replaced by the token alone;
    the other fields are untouched. *)
Theorem url_is_reduced_to_token self (token rest : string) :
  is_token token = true ->
  resume_id self = ("https://resume.io/r/" ++ token ++ rest)%string ->
  __post_init__ self = Ok (set_resume_id self token).
Proof. apply post_init_url_token. Qed.

Lemma url_is_reduced_to_token_witness :
  is_token "abc123XYZ" = true /\
  resume_id (with_resume_id "https://resume.io/r/abc123XYZ/edit?x=1")
  = ("https://resume.io/r/" ++ "abc123XYZ" ++ "/edit?x=1")%string /\
  __post_init__ (with_resume_id "https://resume.io/r/abc123XYZ/edit?x=1")
  = Ok (set_resume_id (with_resume_id "https://resume.io/r/abc123XYZ/edit?x=1")
          "abc123XYZ").
Proof.
  split; [reflexivity |]. split; [reflexivity |].
  apply (url_is_reduced_to_token
           (with_resume_id "https://resume.io/r/abc123XYZ/edit?x=1")
           "abc123XYZ" "/edit?x=1"); reflexivity.
Defined.

(** X3: whenever [__post_init__] accepts, it changes at most [resume_id],
    and the identifier it leaves is a nine-character alphanumeric token;
    the one exception is an input made of a token and a final newline,
    which is left as it is. *)
Theorem accepted_identifier_is_token self r :
  __post_init__ self = Ok r ->
  extension r = extension self /\ image_size r = image_size self /\
  cache_date r = cache_date self /\ images_urls r = images_urls self /\
  (is_token (resume_id r) = true \/
   exists token,
     is_token token = true /\ resume_id self = (token ++ newline_string)%string /\
     resume_id r = resume_id self).
Proof.
  intros H. apply post_init_shape in H. destruct H as (Hr & Hshape).
  rewrite Hr. simpl. repeat split.
  destruct Hshape as [Htoken | (token & Htoken & Heq & Hsame)].
  - left. exact Htoken.
  - right. exists token. repeat split; try assumption. rewrite Hsame. reflexivity.
Qed.

Lemma accepted_identifier_is_token_witness :
  __post_init__ (with_resume_id "https://resume.io/r/abc123XYZ/edit")
  = Ok (with_resume_id "abc123XYZ") /\
  extension (with_resume_id "abc123XYZ")
  = extension (with_resume_id "https://resume.io/r/abc123XYZ/edit") /\
  image_size (with_resume_id "abc123XYZ")
  = image_size (with_resume_id "https://resume.io/r/abc123XYZ/edit") /\
  cache_date (with_resume_id "abc123XYZ")
  = cache_date (with_resume_id "https://resume.io/r/abc123XYZ/edit") /\
  images_urls (with_resume_id "abc123XYZ")
  = images_urls (with_resume_id "https://resume.io/r/abc123XYZ/edit") /\
  (is_token (resume_id (with_resume_id "abc123XYZ")) = true \/
   exists token,
     is_token token = true /\
     resume_id (with_resume_id "https://resume.io/r/abc123XYZ/edit")
     = (token ++ newline_string)%string /\
     resume_id (with_resume_id "abc123XYZ")
     = resume_id (with_resume_id "https://resume.io/r/abc123XYZ/edit")).
Proof.
  split; [vm_compute; reflexivity |].
  apply (accepted_identifier_is_token
           (with_resume_id "https://resume.io/r/abc123XYZ/edit")
           (with_resume_id "abc123XYZ")).
  vm_compute. reflexivity.
Defined.

(** X4: normalisation is idempotent: an instance that [__post_init__]
    returned passes [__post_init__] again unchanged. *)
Theorem post_init_idempotent self r :
  __post_init__ self = Ok r -> __post_init__ r = Ok r.
Proof.
  intros H. destruct (post_init_shape _ _ H) as (_ & [Htoken | (token & _ & _ & Hsame)]).
  - apply post_init_bare_token. exact Htoken.
  - subst r. exact H.
Qed.

Lemma post_init_idempotent_witness :
  __post_init__ (with_resume_id "https://resume.io/r/abc123XYZ/edit")
  = Ok (with_resume_id "abc123XYZ") /\
  __post_init__ (with_resume_id "abc123XYZ") = Ok (with_resume_id "abc123XYZ").
Proof.
  split; [vm_compute; reflexivity |].
  apply (post_init_idempotent (with_resume_id "https://resume.io/r/abc123XYZ/edit")).
  vm_compute. reflexivity.
Defined.

(** The only way [__post_init__] fails is the client error: status 400
    with the detail [Invalid resume id: ] followed by the input exactly as
    it was given. *)
Theorem rejection_is_client_error self e :
  __post_init__ self = Raise e ->
  e = HTTPException 400 ("Invalid resume id: " ++ resume_id self).
Proof. apply post_init_failure_carries_input. Qed.

Lemma rejection_is_client_error_witness :
  __post_init__ (with_resume_id "not a resume")
  = Raise (HTTPException 400 "Invalid resume id: not a resume") /\
  HTTPException 400 "Invalid resume id: not a resume"
  = HTTPException 400 ("Invalid resume id: " ++ resume_id (with_resume_id "not a resume")).
Proof.
  split; [vm_compute; reflexivity |].
  apply (rejection_is_client_error (with_resume_id "not a resume")).
  vm_compute. reflexivity.
Defined.

Lemma substring_length s : forall start n,
  (String.length (substring start n s) <= String.length s)%nat.
Proof.
  induction s as [| a s IH]; intros start n.
  - destruct start, n; simpl; lia.
  - destruct start as [| start].
    + destruct n as [| n]; simpl; [lia |]. specialize (IH 0%nat n). lia.
    + simpl. specialize (IH start n). lia.
Qed.

Lemma no_run_in_short_string s start :
  (String.length s < 9)%nat -> Re.iter 9 (Re.rmatch alnum s) start = None.
Proof.
  intros Hshort. destruct (Re.iter 9 (Re.rmatch alnum s) start) as [e |] eqn:H;
    [| reflexivity].
  apply alnum_run in H. destruct H as (_ & Hlen & _).
  pose proof (substring_length s start 9). lia.
Qed.

(** X5: an input shorter than nine characters is always rejected, with the
    client error that carries it. *)
Theorem short_input_is_rejected self :
  (String.length (resume_id self) < 9)%nat ->
  __post_init__ self
  = Raise (HTTPException 400 ("Invalid resume id: " ++ resume_id self)).
Proof.
  intros Hshort. unfold __post_init__.
  assert (Hid : Re.search pattern_id (resume_id self) = None).
  { apply scan_none. intros p _. unfold pattern_id.
    change (match (if (p =? 0)%nat then Some p else None) with
            | Some q =>
                match Re.iter 9 (Re.rmatch alnum (resume_id self)) q with
                | Some q' => Re.rmatch Re.Eol (resume_id self) q'
                | None => None
                end
            | None => None
            end = None).
    destruct (p =? 0)%nat; [rewrite no_run_in_short_string by exact Hshort |];
      reflexivity. }
  assert (Hurl : Re.search pattern_url (resume_id self) = None).
  { apply scan_none. intros p _. unfold pattern_url.
    change (match Re.rmatch
                    (Re.LookBehind 12
                       (Re.Cat (Re.lit "resume") (Re.Cat Re.Dot (Re.lit "io/r/"))))
                    (resume_id self) p with
            | Some q => Re.iter 9 (Re.rmatch alnum (resume_id self)) q
            | None => None
            end = None).
    destruct (Re.rmatch _ (resume_id self) p);
      [apply no_run_in_short_string; exact Hshort | reflexivity]. }
  rewrite Hid, Hurl. reflexivity.
Qed.

Lemma short_input_is_rejected_witness :
  (String.length (resume_id (with_resume_id "abc123XY")) < 9)%nat /\
  __post_init__ (with_resume_id "abc123XY")
  = Raise (HTTPException 400
             ("Invalid resume id: " ++ resume_id (with_resume_id "abc123XY"))).
Proof.
  split; [vm_compute; lia |].
  apply (short_input_is_rejected (with_resume_id "abc123XY")). vm_compute. lia.
Defined.

(** * Further properties: the addresses *)

Lemma append_length (a b : string) :
  String.length (a ++ b) = (String.length a + String.length b)%nat.
Proof. induction a as [| c a IH]; simpl; [reflexivity | rewrite IH; reflexivity]. Qed.

Lemma append_cancel_l (s a b : string) : (s ++ a = s ++ b)%string -> a = b.
Proof.
  induction s as [| c s IH]; simpl; intros H; [exact H |].
  inversion H. apply IH. assumption.
Qed.

Lemma append_cancel_r (t : string) : forall a b : string,
  (a ++ t = b ++ t)%string -> a = b.
Proof.
  induction a as [| c a IH]; intros [| d b] H; simpl in H.
  - reflexivity.
  - exfalso. apply (f_equal String.length) in H. simpl in H.
    rewrite append_length in H. lia.
  - exfalso. apply (f_equal String.length) in H. simpl in H.
    rewrite append_length in H. lia.
  - inversion H. f_equal. apply IH. assumption.
Qed.

(** The decimal text of an integer determines it. *)
Lemma decimal_inj p q : decimal p = decimal q -> p = q.
Proof.
  unfold decimal. intros H. apply DecimalZ.to_int_inj.
  assert (G : forall z, NilZero.int_of_string (NilZero.string_of_int (Z.to_int z))
                        = Some (Z.to_int z)).
  { intros z. apply NilZero.isi; destruct z; simpl; try discriminate;
      intros E; inversion E as [E'];
      apply (DecimalPos.Unsigned.to_uint_nonnil _ E'). }
  pose proof (G p) as Hp. rewrite H, G in Hp. inversion Hp. reflexivity.
Qed.

Lemma IMAGE_URL_inj id p q ext cache size :
  IMAGE_URL id p ext cache size = IMAGE_URL id q ext cache size -> p = q.
Proof.
  unfold IMAGE_URL. intros H.
  apply append_cancel_l in H. apply append_cancel_l in H. apply append_cancel_l in H.
  apply append_cancel_r in H. apply decimal_inj. exact H.
Qed.

(** X6: [_format_images_urls] never fails once the metadata has a length
    [n]: it appends exactly [n] addresses to [images_urls], the [i]-th of
    them (from 0) being the address of page [i + 1], keeps the addresses
    already there, and touches nothing else: no request, no file, no other
    field. *)
Theorem format_appends_one_address_per_page st md n :
  metadata (self st) = Some md -> py_len md = Ok n ->
  exists added,
    _format_images_urls st
    = (Ok tt,
       mk_state (set_images_urls (self st) (images_urls (self st) ++ added))
         (files_dir st) (file_png st) (log st)) /\
    List.length added = n /\
    forall i, (i < n)%nat ->
      nth_error added i
      = Some (IMAGE_URL (resume_id (self st)) (Z.of_nat (i + 1)) (extension (self st))
                (cache_date (self st)) (image_size (self st))).
Proof.
  intros Hmd Hlen. exists (image_urls_for (self st) n). split; [| split].
  - apply (_format_images_urls_run st md n Hmd Hlen).
  - unfold image_urls_for. rewrite length_map, length_seq. reflexivity.
  - intros i Hi. apply image_urls_for_nth. exact Hi.
Qed.

Lemma format_appends_one_address_per_page_witness :
  metadata (self sample_loaded_state) = Some sample_pages /\
  py_len sample_pages = Ok 2%nat /\
  exists added,
    _format_images_urls sample_loaded_state
    = (Ok tt,
       mk_state
         (set_images_urls (self sample_loaded_state)
            (images_urls (self sample_loaded_state) ++ added))
         (files_dir sample_loaded_state) (file_png sample_loaded_state)
         (log sample_loaded_state)) /\
    List.length added = 2%nat /\
    forall i, (i < 2)%nat ->
      nth_error added i
      = Some (IMAGE_URL (resume_id (self sample_loaded_state)) (Z.of_nat (i + 1))
                (extension (self sample_loaded_state))
                (cache_date (self sample_loaded_state))
                (image_size (self sample_loaded_state))).
Proof.
  split; [reflexivity |]. split; [reflexivity |].
  apply (format_appends_one_address_per_page sample_loaded_state sample_pages 2);
    reflexivity.
Defined.

(** X7: when the stored metadata has no length ([None], as left by a
    response without [pages], or a number or a boolean),
    [_format_images_urls] raises [TypeError] and changes nothing: no
    address is appended. *)
Theorem format_raises_on_unsized_metadata st md :
  metadata (self st) = Some md ->
  (md = JNull \/ (exists n, md = JNum n) \/ (exists b, md = JBool b)) ->
  _format_images_urls st = (Raise TypeError, st).
Proof.
  intros Hmd Hshape. unfold _format_images_urls.
  rewrite (bind_eq_ok _ _ st md st)
    by (rewrite self_metadata_reads; unfold metadata_of; rewrite Hmd; reflexivity).
  apply bind_eq_raise.
  destruct Hshape as [-> | [(n & ->) | (b & ->)]]; reflexivity.
Qed.

Lemma format_raises_on_unsized_metadata_witness :
  metadata (self (mk_state (set_metadata sample_instance JNull) true None []))
  = Some JNull /\
  (JNull = JNull \/ (exists n, JNull = JNum n) \/ (exists b, JNull = JBool b)) /\
  _format_images_urls (mk_state (set_metadata sample_instance JNull) true None [])
  = (Raise TypeError, mk_state (set_metadata sample_instance JNull) true None []).
Proof.
  split; [reflexivity |]. split; [left; reflexivity |].
  apply (format_raises_on_unsized_metadata
           (mk_state (set_metadata sample_instance JNull) true None []) JNull).
  - reflexivity.
  - left. reflexivity.
Defined.

Lemma image_urls_for_distinct r n : NoDup (image_urls_for r n).
Proof.
  unfold image_urls_for. apply NoDup_map_NoDup_ForallPairs; [| apply seq_NoDup].
  intros p q _ _ H. apply IMAGE_URL_inj in H. lia.
Qed.

(** X8: on an instance without addresses, [_format_images_urls] leaves
    pairwise distinct addresses: no two pages of a document are fetched
    from the same address. *)
Theorem page_addresses_are_distinct st md n :
  metadata (self st) = Some md -> py_len md = Ok n ->
  images_urls (self st) = [] ->
  NoDup (images_urls (self (snd (_format_images_urls st)))).
Proof.
  intros Hmd Hlen Hfresh. rewrite (_format_images_urls_run st md n Hmd Hlen).
  simpl. rewrite Hfresh. simpl. apply image_urls_for_distinct.
Qed.

Lemma page_addresses_are_distinct_witness :
  metadata (self (mk_state (set_metadata sample_instance sample_pages) true None []))
  = Some sample_pages /\
  py_len sample_pages = Ok 2%nat /\
  images_urls (self (mk_state (set_metadata sample_instance sample_pages) true None []))
  = [] /\
  NoDup (images_urls
           (self (snd (_format_images_urls
                         (mk_state (set_metadata sample_instance sample_pages) true
                            None []))))).
Proof.
  split; [reflexivity |]. split; [reflexivity |]. split; [reflexivity |].
  apply (page_addresses_are_distinct
           (mk_state (set_metadata sample_instance sample_pages) true None [])
           sample_pages 2); reflexivity.
Defined.

(** X9: a run on a fresh instance requests nothing but the metadata
    address and image addresses of its own identifier, extension and size,
    every one of them carrying the cache token the instance held when the
    run began; this holds whether the run returns or raises, and the run
    leaves the token as it was. *)
Theorem requests_carry_one_cache_token
    requests_get json_loads image_to_pdf load_image writer_write searchable st :
  images_urls (self st) = [] ->
  exists events,
    log (snd (run requests_get json_loads image_to_pdf load_image writer_write searchable st))
    = log st ++ events /\
    (forall address,
       In (Get address) events \/ In (ImageLoad address) events ->
       address = METADATA_URL (resume_id (self st)) (cache_date (self st)) \/
       exists page_id,
         address = IMAGE_URL (resume_id (self st)) page_id (extension (self st))
                     (cache_date (self st)) (image_size (self st))) /\
    cache_date (self (snd (run requests_get json_loads image_to_pdf load_image writer_write
                             searchable st)))
    = cache_date (self st).
Proof.
  intros Hfresh.
  destruct (run_addresses_share_cache_token requests_get json_loads image_to_pdf
              load_image writer_write searchable st Hfresh) as (events & Hlog & Hall & Hcache).
  exists events. repeat split; try assumption.
  rewrite Forall_forall in Hall.
  intros address [Hin | Hin]; specialize (Hall _ Hin); simpl in Hall.
  - exact Hall.
  - right. exact Hall.
Qed.

Lemma requests_carry_one_cache_token_witness :
  images_urls (self sample_state) = [] /\
  exists events,
    log (snd (sample_run true)) = log sample_state ++ events /\
    (forall address,
       In (Get address) events \/ In (ImageLoad address) events ->
       address
       = METADATA_URL (resume_id (self sample_state)) (cache_date (self sample_state)) \/
       exists page_id,
         address = IMAGE_URL (resume_id (self sample_state)) page_id
                     (extension (self sample_state)) (cache_date (self sample_state))
                     (image_size (self sample_state))) /\
    cache_date (self (snd (sample_run true))) = cache_date (self sample_state).
Proof.
  split; [reflexivity |].
  apply (requests_carry_one_cache_token sample_requests_get sample_json_loads
           sample_image_to_pdf sample_load_image sample_writer_write true sample_state).
  reflexivity.
Defined.

(** * Further properties: the run *)

Section RunProperties.

Variable requests_get : string -> outcome response.
Variable json_loads : string -> option json.
Variable image_to_pdf : string -> outcome pdf_page.
Variable load_image : string -> string -> outcome unit.
Variable writer_write : PdfWriter -> outcome unit.

(** X10: [run] begins with the metadata request; when [requests.get]
    raises there, [run] raises the same exception having done nothing
    else: no address appended, no file written, no buffer stored. *)
Theorem failed_metadata_request_stops_run searchable st e :
  requests_get (METADATA_URL (resume_id (self st)) (cache_date (self st))) = Raise e ->
  run requests_get json_loads image_to_pdf load_image writer_write searchable st
  = (Raise e,
     mk_state (self st) (files_dir st) (file_png st)
       (log st ++ [Get (METADATA_URL (resume_id (self st)) (cache_date (self st)))])).
Proof.
  intros Hget. unfold run. apply bind_eq_raise.
  unfold _get_resume_metadata.
  erewrite bind_eq_ok by reflexivity.
  apply bind_eq_raise. unfold http_get.
  erewrite bind_eq_ok by reflexivity.
  unfold lift. simpl. rewrite Hget. reflexivity.
Qed.

(** X11: when the metadata holds an empty list of pages, [run] raises
    [IndexError] in either mode (at [self.metadata[0]]), having made the
    metadata request only: no address is appended, no image is fetched,
    and no empty document is returned. *)
Theorem empty_metadata_raises_index_error searchable st resp top :
  requests_get (METADATA_URL (resume_id (self st)) (cache_date (self st))) = Ok resp ->
  json_loads (text resp) = Some top ->
  py_get top "pages" = Ok (JArr []) ->
  run requests_get json_loads image_to_pdf load_image writer_write searchable st
  = (Raise IndexError,
     mk_state
       (mk_downloader (resume_id (self st)) (extension (self st)) (image_size (self st))
          (cache_date (self st)) (images_urls (self st)) (Some (JArr []))
          (buffer (self st)))
       (files_dir st) (file_png st)
       (log st ++ [Get (METADATA_URL (resume_id (self st)) (cache_date (self st)))])).
Proof.
  intros Hget Hjson Hpages. unfold run.
  rewrite (bind_eq_ok _ _ _ _ _
             (_get_resume_metadata_run requests_get json_loads st resp top (JArr [])
                Hget Hjson Hpages)).
  erewrite bind_eq_ok
    by (apply (_format_images_urls_run _ (JArr []) 0); reflexivity).
  apply bind_eq_raise. simpl. rewrite app_nil_r.
  destruct searchable.
  - unfold _generate_pdf_searchable. apply bind_eq_raise.
    rewrite first_viewport_reads. reflexivity.
  - unfold _generate_pdf. apply bind_eq_raise.
    rewrite first_viewport_reads. reflexivity.
Qed.

End RunProperties.

Lemma failed_metadata_request_stops_run_witness :
  (fun _ : string => @Raise response (CollaboratorError "ConnectionError"))
    (METADATA_URL (resume_id (self sample_state)) (cache_date (self sample_state)))
  = Raise (CollaboratorError "ConnectionError") /\
  run (fun _ => Raise (CollaboratorError "ConnectionError")) sample_json_loads
    sample_image_to_pdf sample_load_image sample_writer_write true sample_state
  = (Raise (CollaboratorError "ConnectionError"),
     mk_state (self sample_state) (files_dir sample_state) (file_png sample_state)
       (log sample_state
        ++ [Get (METADATA_URL (resume_id (self sample_state))
                   (cache_date (self sample_state)))])).
Proof.
  split; [reflexivity |].
  apply (failed_metadata_request_stops_run
           (fun _ => Raise (CollaboratorError "ConnectionError")) sample_json_loads
           sample_image_to_pdf sample_load_image sample_writer_write true sample_state).
  reflexivity.
Defined.

Lemma empty_metadata_raises_index_error_witness :
  sample_requests_get
    (METADATA_URL (resume_id (self sample_state)) (cache_date (self sample_state)))
  = Ok (mk_response 200 "{...}" "PNG") /\
  (fun _ : string => Some (JObj [("pages", JArr [])])) "{...}"
  = Some (JObj [("pages", JArr [])]) /\
  py_get (JObj [("pages", JArr [])]) "pages" = Ok (JArr []) /\
  run sample_requests_get (fun _ => Some (JObj [("pages", JArr [])]))
    sample_image_to_pdf sample_load_image sample_writer_write false sample_state
  = (Raise IndexError,
     mk_state
       (mk_downloader (resume_id (self sample_state)) (extension (self sample_state))
          (image_size (self sample_state)) (cache_date (self sample_state))
          (images_urls (self sample_state)) (Some (JArr []))
          (buffer (self sample_state)))
       (files_dir sample_state) (file_png sample_state)
       (log sample_state
        ++ [Get (METADATA_URL (resume_id (self sample_state))
                   (cache_date (self sample_state)))])).
Proof.
  split; [reflexivity |]. split; [reflexivity |]. split; [reflexivity |].
  apply (empty_metadata_raises_index_error sample_requests_get
           (fun _ => Some (JObj [("pages", JArr [])])) sample_image_to_pdf
           sample_load_image sample_writer_write false sample_state (mk_response 200 "{...}" "PNG")
           (JObj [("pages", JArr [])])); reflexivity.
Defined.


Lemma emit_keeps_self e st : self (snd (emit e st)) = self st.
Proof. reflexivity. Qed.



Section Buffer.

Variable requests_get : string -> outcome response.
Variable json_loads : string -> option json.
Variable image_to_pdf : string -> outcome pdf_page.
Variable load_image : string -> string -> outcome unit.
Variable writer_write : PdfWriter -> outcome unit.




Variable b0 : option document.







End Buffer.


(** * Further properties: the two generators *)

Lemma preserves_plain_link I h pdf link : preserves I (plain_link h pdf link).
Proof.
  unfold plain_link.
  repeat (apply preserves_bind; [apply preserves_lift |]; intros ?).
  apply preserves_lift.
Qed.

Lemma state_eta st : mk_state (self st) (files_dir st) (file_png st) (log st) = st.
Proof. destruct st; reflexivity. Qed.

Section PlainLog.

Variable load_image : string -> string -> outcome unit.

(** Whatever becomes of a page of plain mode, all it does to the world is
    load its image. *)
Lemma plain_page_state w h type pdf i image_url st :
  snd (plain_page load_image w h type pdf (i, image_url) st)
  = mk_state (self st) (files_dir st) (file_png st) (log st ++ [ImageLoad image_url]).
Proof.
  unfold plain_page.
  set (st1 := mk_state (self st) (files_dir st) (file_png st)
                (log st ++ [ImageLoad image_url])).
  assert (Himage : exists res,
             fpdf_image_call load_image (fpdf_add_page pdf) image_url w h type st
             = (res, st1)).
  { unfold fpdf_image_call, bind, emit, lift. simpl. fold st1.
    destruct (load_image image_url type); [| eexists; reflexivity].
    destruct (on_current_page (fpdf_add_page pdf) _); eexists; reflexivity. }
  destruct Himage as ([pdf' | e] & Himage).
  - rewrite (bind_eq_ok _ _ _ _ _ Himage).
    assert (Hk : preserves (eq st1)
                   (links <- links_of_page i ;; for_each links (plain_link h) pdf')%py).
    { apply preserves_bind; [apply preserves_links_of_page | intros links].
      apply preserves_for_each. intros. apply preserves_plain_link. }
    symmetry. apply (Hk st1 eq_refl).
  - rewrite (bind_eq_raise _ _ _ _ _ Himage). reflexivity.
Qed.

Lemma plain_pages_state w h type items : forall pdf st,
  exists k,
    (k <= List.length items)%nat /\
    snd (for_each items (plain_page load_image w h type) pdf st)
    = mk_state (self st) (files_dir st) (file_png st)
        (log st ++ map ImageLoad (firstn k (map snd items))) /\
    (is_ok (fst (for_each items (plain_page load_image w h type) pdf st)) = true ->
     k = List.length items).
Proof.
  induction items as [| [i image_url] rest IH]; intros pdf st.
  - exists 0%nat. simpl. rewrite app_nil_r, state_eta.
    split; [lia |]. split; reflexivity.
  - simpl for_each.
    pose proof (plain_page_state w h type pdf i image_url st) as Hstate.
    destruct (plain_page load_image w h type pdf (i, image_url) st) as [[pdf' | e] st1]
      eqn:Hpage; simpl in Hstate; subst st1.
    + rewrite (bind_eq_ok _ _ _ _ _ Hpage).
      destruct (IH pdf' (mk_state (self st) (files_dir st) (file_png st)
                           (log st ++ [ImageLoad image_url])))
        as (k & Hk & Hsnd & Hok).
      exists (S k). simpl in *. split; [lia |]. split.
      * rewrite Hsnd. rewrite <- app_assoc. reflexivity.
      * intros H. rewrite (Hok H). reflexivity.
    + rewrite (bind_eq_raise _ _ _ _ _ Hpage).
      exists 1%nat. simpl. split; [lia |]. split; [| discriminate].
      destruct (map snd rest); reflexivity.
Qed.

(** X13: plain mode never touches the transient file and never runs OCR or
    [requests]: whatever its outcome, [_generate_pdf] leaves the file and
    the directory as they were, and all it has logged is the loading of
    the images of the first [k] addresses, in the order of [images_urls];
    when it returns, [k] is the number of addresses. *)
Theorem plain_mode_only_loads_images st :
  exists k,
    (k <= List.length (images_urls (self st)))%nat /\
    file_png (snd (_generate_pdf load_image st)) = file_png st /\
    files_dir (snd (_generate_pdf load_image st)) = files_dir st /\
    log (snd (_generate_pdf load_image st))
    = log st ++ map ImageLoad (firstn k (images_urls (self st))) /\
    (is_ok (fst (_generate_pdf load_image st)) = true ->
     k = List.length (images_urls (self st))).
Proof.
  unfold _generate_pdf.
  destruct (first_viewport st) as [[[w h] | e] st0] eqn:Hsize;
    rewrite first_viewport_reads in Hsize; inversion Hsize; subst st0.
  - rewrite (bind_eq_ok _ _ st (w, h) st)
      by (rewrite first_viewport_reads; congruence).
    erewrite bind_eq_ok by reflexivity.
    destruct (plain_pages_state w h (extension (self st))
                (enumerate (images_urls (self st)))
                (set_auto_page_break (new_FPDF w h) false) st)
      as (k & Hk & Hsnd & Hok).
    rewrite enumerate_length in Hk, Hok. rewrite map_snd_enumerate in Hsnd.
    exists k.
    destruct (for_each (enumerate (images_urls (self st)))
                (plain_page load_image w h (extension (self st)))
                (set_auto_page_break (new_FPDF w h) false) st)
      as [[pdf | e] st1] eqn:Hloop; simpl in Hsnd; subst st1.
    + rewrite (bind_eq_ok _ _ _ _ _ Hloop). unfold bind, get_self, put_self. simpl.
      split; [exact Hk |]. split; [reflexivity |]. split; [reflexivity |].
      split; [reflexivity |]. intros _. apply Hok. reflexivity.
    + rewrite (bind_eq_raise _ _ _ _ _ Hloop). simpl.
      split; [exact Hk |]. split; [reflexivity |]. split; [reflexivity |].
      split; [reflexivity | discriminate].
  - rewrite (bind_eq_raise _ _ st e st) by (rewrite first_viewport_reads; congruence).
    exists 0%nat. simpl. rewrite app_nil_r.
    split; [lia |]. split; [reflexivity |]. split; [reflexivity |].
    split; [reflexivity | discriminate].
Qed.

End PlainLog.

Section SearchableLog.

Variable requests_get : string -> outcome response.
Variable image_to_pdf : string -> outcome pdf_page.
Variable writer_write : PdfWriter -> outcome unit.

(** X14: when searchable mode returns, it has fetched each address of
    [images_urls] exactly once and in order, each fetch followed by the
    writing of the bytes received to the transient file and by one OCR
    pass, and has removed the file once, last of all. *)
Theorem searchable_mode_fetches_each_page_once st u st' :
  _generate_pdf_searchable requests_get image_to_pdf writer_write st = (Ok u, st') ->
  Forall (fun address => exists image, requests_get address = Ok image)
    (images_urls (self st)) /\
  log st'
  = log st
    ++ flat_map
         (fun address =>
            match requests_get address with
            | Ok image => [Get address; FileWrite (content image); Ocr]
            | Raise _ => [Get address]
            end)
         (images_urls (self st))
    ++ [FileRemove].
Proof.
  unfold _generate_pdf_searchable. intros H. inv_ok.
  match goal with
  | E : first_viewport _ = (Ok ?a, _) |- _ =>
      destruct a as [target_w target_h]; apply first_viewport_ok in E;
      destruct E as (-> & _)
  end.
  inv_ok.
  match goal with
  | E : for_each _ _ _ _ = (Ok _, _) |- _ =>
      apply searchable_pages_log in E; destruct E as (Hall & Hlog)
  end.
  match goal with
  | E : os_remove _ = (Ok _, _) |- _ => apply os_remove_ok in E; destruct E as (_ & ->)
  end.
  split; [exact Hall |]. simpl. rewrite Hlog, <- app_assoc. reflexivity.
Qed.

End SearchableLog.

Lemma searchable_mode_fetches_each_page_once_witness :
  _generate_pdf_searchable sample_requests_get sample_image_to_pdf sample_writer_write sample_loaded_state
  = (Ok tt,
     snd (_generate_pdf_searchable sample_requests_get sample_image_to_pdf sample_writer_write
            sample_loaded_state)) /\
  Forall (fun address => exists image, sample_requests_get address = Ok image)
    (images_urls (self sample_loaded_state)) /\
  log (snd (_generate_pdf_searchable sample_requests_get sample_image_to_pdf sample_writer_write
              sample_loaded_state))
  = log sample_loaded_state
    ++ flat_map
         (fun address =>
            match sample_requests_get address with
            | Ok image => [Get address; FileWrite (content image); Ocr]
            | Raise _ => [Get address]
            end)
         (images_urls (self sample_loaded_state))
    ++ [FileRemove].
Proof.
  split; [vm_compute; reflexivity |].
  apply (searchable_mode_fetches_each_page_once sample_requests_get sample_image_to_pdf
           sample_writer_write sample_loaded_state tt
           (snd (_generate_pdf_searchable sample_requests_get sample_image_to_pdf sample_writer_write
                   sample_loaded_state))).
  vm_compute. reflexivity.
Defined.

Section ScaleErrors.

Variable requests_get : string -> outcome response.
Variable image_to_pdf : string -> outcome pdf_page.

(** The state in which searchable mode computes the scale factor of a
    page: image fetched, file written, OCR done. *)
Lemma searchable_page_after_ocr target_w target_h writer i image_url st image page :
  requests_get image_url = Ok image ->
  files_dir st = true ->
  image_to_pdf (content image) = Ok page ->
  searchable_page requests_get image_to_pdf target_w target_h writer (i, image_url) st
  = (a <- lift (py_truediv_float target_h (mediabox_height page)) ;;
     b <- lift (py_truediv_float target_w (mediabox_width page)) ;;
     links <- links_of_page i ;;
     for_each links (searchable_link i)
       (add_page writer (scale_by page (py_min PrimFloat.ltb a b))))%py
      (mk_state (self st) true (Some (content image))
         (log st ++ [Get image_url; FileWrite (content image); Ocr])).
Proof.
  intros Hget Hdir Hocr. unfold searchable_page.
  erewrite bind_eq_ok
    by (unfold http_get; erewrite bind_eq_ok by reflexivity;
        unfold lift; simpl; rewrite Hget; reflexivity).
  erewrite bind_eq_ok by (unfold write_file; simpl; rewrite Hdir; reflexivity).
  erewrite bind_eq_ok by (unfold ocr_first_page; simpl; rewrite Hocr; reflexivity).
  repeat rewrite <- app_assoc. reflexivity.
Qed.

(** X15: when the OCR page of an image has a zero height or a zero width,
    searchable mode raises [ZeroDivisionError] for that page (the viewport
    values being numbers), after fetching the image, writing it and
    running OCR; the image stays in the transient file and no page is
    added. *)
Theorem zero_sized_ocr_page_raises
    target_w target_h writer i image_url st image page nw nh xw xh :
  requests_get image_url = Ok image ->
  files_dir st = true ->
  image_to_pdf (content image) = Ok page ->
  as_num target_w = Some nw -> to_float nw = Ok xw ->
  as_num target_h = Some nh -> to_float nh = Ok xh ->
  PrimFloat.eqb (mediabox_height page) 0 = true \/
  PrimFloat.eqb (mediabox_width page) 0 = true ->
  searchable_page requests_get image_to_pdf target_w target_h writer (i, image_url) st
  = (Raise ZeroDivisionError,
     mk_state (self st) true (Some (content image))
       (log st ++ [Get image_url; FileWrite (content image); Ocr])).
Proof.
  intros Hget Hdir Hocr Hnw Hxw Hnh Hxh Hzero.
  rewrite (searchable_page_after_ocr _ _ _ _ _ _ _ _ Hget Hdir Hocr).
  destruct (PrimFloat.eqb (mediabox_height page) 0) eqn:Hh.
  - apply bind_eq_raise. unfold lift, py_truediv_float. rewrite Hnh, Hxh, Hh. reflexivity.
  - destruct Hzero as [Hzero | Hw]; [discriminate Hzero |].
    erewrite bind_eq_ok
      by (unfold lift, py_truediv_float; rewrite Hnh, Hxh, Hh; reflexivity).
    apply bind_eq_raise. unfold lift, py_truediv_float. rewrite Hnw, Hxw, Hw. reflexivity.
Qed.

(** X16: when the height taken from the first viewport is not a number (a
    string, a list, an object or [None]), searchable mode raises
    [TypeError] at the first division, after the image has been fetched,
    written and OCR-ed. *)
Theorem non_numeric_viewport_raises_type_error
    target_w target_h writer i image_url st image page :
  requests_get image_url = Ok image ->
  files_dir st = true ->
  image_to_pdf (content image) = Ok page ->
  as_num target_h = None ->
  searchable_page requests_get image_to_pdf target_w target_h writer (i, image_url) st
  = (Raise TypeError,
     mk_state (self st) true (Some (content image))
       (log st ++ [Get image_url; FileWrite (content image); Ocr])).
Proof.
  intros Hget Hdir Hocr Hnone.
  rewrite (searchable_page_after_ocr _ _ _ _ _ _ _ _ Hget Hdir Hocr).
  apply bind_eq_raise. unfold lift, py_truediv_float. rewrite Hnone. reflexivity.
Qed.

End ScaleErrors.

Lemma zero_sized_ocr_page_raises_witness :
  sample_requests_get "u" = Ok (mk_response 200 "{...}" "PNG") /\
  files_dir sample_loaded_state = true /\
  (fun _ : string => Ok (mk_pdf_page "text" 1 612 0 [])) "PNG"
  = Ok (mk_pdf_page "text" 1 612 0 []) /\
  as_num (int 600) = Some (PyInt 600) /\ to_float (PyInt 600) = Ok 600%float /\
  as_num (int 800) = Some (PyInt 800) /\ to_float (PyInt 800) = Ok 800%float /\
  (PrimFloat.eqb (mediabox_height (mk_pdf_page "text" 1 612 0 [])) 0 = true \/
   PrimFloat.eqb (mediabox_width (mk_pdf_page "text" 1 612 0 [])) 0 = true) /\
  searchable_page sample_requests_get (fun _ => Ok (mk_pdf_page "text" 1 612 0 []))
    (int 600) (int 800) [] (0%nat, "u") sample_loaded_state
  = (Raise ZeroDivisionError,
     mk_state (self sample_loaded_state) true (Some "PNG")
       (log sample_loaded_state ++ [Get "u"; FileWrite "PNG"; Ocr])).
Proof.
  split; [reflexivity |]. split; [reflexivity |]. split; [reflexivity |].
  split; [reflexivity |]. split; [vm_compute; reflexivity |].
  split; [reflexivity |]. split; [vm_compute; reflexivity |].
  split; [left; vm_compute; reflexivity |].
  apply (zero_sized_ocr_page_raises sample_requests_get
           (fun _ => Ok (mk_pdf_page "text" 1 612 0 []))
           (int 600) (int 800) [] 0%nat "u" sample_loaded_state
           (mk_response 200 "{...}" "PNG") (mk_pdf_page "text" 1 612 0 [])
           (PyInt 600) (PyInt 800) 600%float 800%float);
    try reflexivity; try (vm_compute; reflexivity).
  left. vm_compute. reflexivity.
Defined.

Lemma non_numeric_viewport_raises_type_error_witness :
  sample_requests_get "u" = Ok (mk_response 200 "{...}" "PNG") /\
  files_dir sample_loaded_state = true /\
  sample_image_to_pdf "PNG" = Ok (mk_pdf_page "text" 1 612 792 []) /\
  as_num (JStr "800") = None /\
  searchable_page sample_requests_get sample_image_to_pdf (int 600) (JStr "800") []
    (0%nat, "u") sample_loaded_state
  = (Raise TypeError,
     mk_state (self sample_loaded_state) true (Some "PNG")
       (log sample_loaded_state ++ [Get "u"; FileWrite "PNG"; Ocr])).
Proof.
  split; [reflexivity |]. split; [reflexivity |]. split; [reflexivity |].
  split; [reflexivity |].
  apply (non_numeric_viewport_raises_type_error sample_requests_get sample_image_to_pdf
           (int 600) (JStr "800") [] 0%nat "u" sample_loaded_state
           (mk_response 200 "{...}" "PNG") (mk_pdf_page "text" 1 612 792 []));
    reflexivity.
Defined.

Lemma page_link_items_fun md i links links' :
  page_link_items md i links -> page_link_items md i links' -> links = links'.
Proof.
  intros (page & l & Hp & Hl & Hi) (page' & l' & Hp' & Hl' & Hi').
  rewrite Hp in Hp'. inversion Hp'; subst page'.
  rewrite Hl in Hl'. inversion Hl'; subst l'.
  rewrite Hi in Hi'. inversion Hi'. reflexivity.
Qed.

Section PageOrder.

Variable requests_get : string -> outcome response.
Variable json_loads : string -> option json.
Variable image_to_pdf : string -> outcome pdf_page.
Variable load_image : string -> string -> outcome unit.
Variable writer_write : PdfWriter -> outcome unit.



(** X19: the two modes agree on what they place: run on equal instances
    against the same service, they return documents with the same number
    of pages, and on every page searchable mode adds, to the annotations
    of the OCR page made from the image fetched at the address of that
    page, as many annotations as plain mode places links. *)
Theorem modes_agree_on_pages_and_links s1 s2 writer pdf t1 t2 :
  self s1 = self s2 ->
  run requests_get json_loads image_to_pdf load_image writer_write true s1
  = (Ok (WriterOutput writer), t1) ->
  run requests_get json_loads image_to_pdf load_image writer_write false s2
  = (Ok (FpdfOutput pdf), t2) ->
  List.length writer = List.length (pages pdf) /\
  forall i searchable_out plain_out,
    nth_error writer i = Some searchable_out ->
    nth_error (pages pdf) i = Some plain_out ->
    exists image source added,
      requests_get
        (IMAGE_URL (resume_id (self s1)) (Z.of_nat (i + 1)) (extension (self s1))
           (cache_date (self s1)) (image_size (self s1))) = Ok image /\
      image_to_pdf (content image) = Ok source /\
      annotations searchable_out = annotations source ++ added /\
      List.length added = List.length (page_links plain_out).
Proof.
  intros Hself Hrun1 Hrun2.
  destruct (run_ok_fresh requests_get json_loads image_to_pdf load_image writer_write
              true s1 _ t1 Hrun1) as (items0 & _ & _ & Hfresh & _).
  apply run_searchable_ok in Hrun1. apply run_plain_ok in Hrun2.
  destruct Hrun1 as (resp & top & items & page0 & tw & th & writer0 & Hget & Hjson & Hpages
                     & _ & _ & Hdoc & _ & Hall1).
  destruct Hrun2 as (resp' & top' & items' & page0' & w & h & pdf0 & Hget' & Hjson'
                     & Hpages' & _ & _ & Hdoc' & _ & _ & Hall2).
  inversion Hdoc; subst writer0. inversion Hdoc'; subst pdf0.
  rewrite Hself in Hget. rewrite Hget in Hget'. inversion Hget'; subst resp'.
  rewrite Hjson in Hjson'. inversion Hjson'; subst top'.
  rewrite Hpages in Hpages'. inversion Hpages'; subst items'.
  rewrite <- Hself in Hall2. split.
  - rewrite <- (Forall2_length Hall1), <- (Forall2_length Hall2). reflexivity.
  - intros i sout pout Hs Hp.
    destruct (Forall2_nth_error_r _ _ _ _ _ Hall1 Hs) as ([k image_url] & Hk & Hpage1).
    destruct (Forall2_nth_error_r _ _ _ _ _ Hall2 Hp) as ([k' image_url'] & Hk' & Hpage2).
    rewrite Hk in Hk'. inversion Hk'; subst k' image_url'.
    destruct (fresh_item _ _ _ _ _ Hfresh Hk) as [-> ->].
    destruct Hpage1 as (image & source & a & b & links & placed & Himage & Hocr & _ & _
                        & Hlinks & Hplaced & ->).
    destruct Hpage2 as (_ & _ & links' & Hlinks' & Hplaced').
    simpl in Hlinks, Hlinks', Himage.
    rewrite (page_link_items_fun _ _ _ _ Hlinks' Hlinks) in Hplaced'.
    exists image, source, placed.
    split; [exact Himage |]. split; [exact Hocr |]. split; [reflexivity |].
    rewrite <- (Forall2_length Hplaced), (Forall2_length Hplaced'). reflexivity.
Qed.

End PageOrder.

(** X20: a link is never placed with a default for a missing field: when
    one of [left], [top], [width], [height], [url] cannot be read from a
    link (the key is absent, or the link is not an object), placing the
    link raises in both modes. *)
Theorem link_without_key_is_never_placed link key h pdf i writer st :
  In key ["left"; "top"; "width"; "height"; "url"] ->
  is_ok (py_getitem link key) = false ->
  is_ok (fst (plain_link h pdf link st)) = false /\
  is_ok (fst (searchable_link i writer link st)) = false.
Proof.
  intros Hkey Hmissing. split.
  - destruct (plain_link h pdf link st) as [[pdf' | e] st'] eqn:H; [| reflexivity].
    exfalso. unfold plain_link in H. inv_ok.
    simpl in Hkey.
    destruct Hkey as [<- | [<- | [<- | [<- | [<- | []]]]]];
      match goal with
      | E : py_getitem link ?k = Ok _, M : is_ok (py_getitem link ?k) = false |- _ =>
          rewrite E in M; discriminate M
      end.
  - destruct (searchable_link i writer link st) as [[writer' | e] st'] eqn:H;
      [| reflexivity].
    exfalso. unfold searchable_link in H. inv_ok.
    simpl in Hkey.
    destruct Hkey as [<- | [<- | [<- | [<- | [<- | []]]]]];
      match goal with
      | E : py_getitem link ?k = Ok _, M : is_ok (py_getitem link ?k) = false |- _ =>
          rewrite E in M; discriminate M
      end.
Qed.



Lemma modes_agree_on_pages_and_links_witness :
  exists writer pdf,
    self sample_state = self sample_state_after_failure /\
    run sample_requests_get sample_json_loads sample_image_to_pdf sample_load_image sample_writer_write
      true sample_state
    = (Ok (WriterOutput writer), snd (sample_run true)) /\
    run sample_requests_get sample_json_loads sample_image_to_pdf sample_load_image sample_writer_write
      false sample_state_after_failure
    = (Ok (FpdfOutput pdf),
       snd (run sample_requests_get sample_json_loads sample_image_to_pdf
              sample_load_image sample_writer_write false sample_state_after_failure)) /\
    List.length writer = List.length (pages pdf) /\
    forall i searchable_out plain_out,
      nth_error writer i = Some searchable_out ->
      nth_error (pages pdf) i = Some plain_out ->
      exists image source added,
        sample_requests_get
          (IMAGE_URL (resume_id (self sample_state)) (Z.of_nat (i + 1))
             (extension (self sample_state)) (cache_date (self sample_state))
             (image_size (self sample_state))) = Ok image /\
        sample_image_to_pdf (content image) = Ok source /\
        annotations searchable_out = annotations source ++ added /\
        List.length added = List.length (page_links plain_out).
Proof.
  eexists _, _. split; [reflexivity |].
  split; [vm_compute; reflexivity |]. split; [vm_compute; reflexivity |].
  eapply (modes_agree_on_pages_and_links sample_requests_get sample_json_loads
            sample_image_to_pdf sample_load_image sample_writer_write sample_state
            sample_state_after_failure).
  - reflexivity.
  - vm_compute. reflexivity.
  - vm_compute. reflexivity.
Defined.

Lemma link_without_key_is_never_placed_witness :
  In "url" ["left"; "top"; "width"; "height"; "url"] /\
  is_ok (py_getitem
           (JObj [("left", int 10); ("top", int 20); ("width", int 100);
                  ("height", int 50)]) "url") = false /\
  is_ok (fst (plain_link (int 800) (fpdf_add_page (new_FPDF (int 600) (int 800)))
                (JObj [("left", int 10); ("top", int 20); ("width", int 100);
                       ("height", int 50)]) sample_state)) = false /\
  is_ok (fst (searchable_link 0 [mk_pdf_page "text" 1 612 792 []]
                (JObj [("left", int 10); ("top", int 20); ("width", int 100);
                       ("height", int 50)]) sample_state)) = false.
Proof.
  split; [simpl; auto 10 |]. split; [reflexivity |].
  apply (link_without_key_is_never_placed
           (JObj [("left", int 10); ("top", int 20); ("width", int 100);
                  ("height", int 50)]) "url").
  - simpl. auto 10.
  - reflexivity.
Defined.
